(** * simple-tunnel: the tunnel server, the tunnel client and the frame protocol

  A shallow embedding of
  - [packages/protocol/src/index.ts] (frame types, [isValidSubdomain]),
  - the tunnel server (registry, control-socket handlers, public handler,
    [extractSubdomain], [normalizeHeaders], [generateRandomSubdomain]),
  - the tunnel client with its buffer and stream modes
    ([handleOpenStream], [handleBufferedRequest], [objectifyHeaders]) and
    the start of its command line,
  followed by the properties of the specification that were checked
  against it.

  Conventions.
  - JavaScript strings are modelled as [string] (sequences of 8-bit
    characters); every string operation the code uses works position by
    position, and [toLowerCase] is modelled on the ASCII letters.
  - A JavaScript object used as a dictionary ([Record<string, string>],
    [req.headers]) and a [Map] are [gmap]s; the assignment [out[k] = v]
    of [objectifyHeaders], whose keys come from the origin, is [assign],
    which creates no entry for the key [__proto__].
  - A [number] holding an integer is a [Z]; [++] is exact below [2^53].
  - [TunnelInfo] objects are shared between the registry, the timer
    callbacks and the suspended public handlers, so they live in a heap
    of objects and are referred to by their address.
  - Everything the code does to the outside world (a frame sent on a
    socket, a call on a [reply] or on its raw response) is recorded as an
    [Action]; what the outside world decides (random draws, the clock,
    the origin's answer, a timer firing) comes in with the event. *)

From Stdlib Require Import ZArith Ascii String Lia.
From stdpp Require Import base option strings pretty gmap list.

Open Scope string_scope.
Open Scope Z_scope.

(** ** JavaScript string operations used by the code *)

Module Js.

Definition isUpper (c : ascii) : bool :=
  ((65 <=? nat_of_ascii c) && (nat_of_ascii c <=? 90))%nat.

Definition lowerChar (c : ascii) : ascii :=
  if isUpper c then ascii_of_nat (nat_of_ascii c + 32) else c.

(** [s.toLowerCase()] *)
Fixpoint toLowerCase (s : string) : string :=
  match s with
  | EmptyString => EmptyString
  | String c s' => String (lowerChar c) (toLowerCase s')
  end.

Definition isLower (c : ascii) : bool :=
  ((97 <=? nat_of_ascii c) && (nat_of_ascii c <=? 122))%nat.

Definition upperChar (c : ascii) : ascii :=
  if isLower c then ascii_of_nat (nat_of_ascii c - 32) else c.

(** [s.toUpperCase()] *)
Fixpoint toUpperCase (s : string) : string :=
  match s with
  | EmptyString => EmptyString
  | String c s' => String (upperChar c) (toUpperCase s')
  end.

(** The relative index of [slice]: a negative index counts from the end,
    and the result is clamped to [0, len]. *)
Definition relativeIndex (len i : Z) : Z :=
  if i <? 0 then Z.max (len + i) 0 else Z.min i len.

(** [s.slice(start, end)] *)
Definition slice (s : string) (start end_ : Z) : string :=
  let len := Z.of_nat (String.length s) in
  let from := relativeIndex len start in
  let to := relativeIndex len end_ in
  substring (Z.to_nat from) (Z.to_nat (Z.max (to - from) 0)) s.

(** [s.endsWith(t)] *)
Definition endsWith (s t : string) : bool :=
  let start := Z.of_nat (String.length s) - Z.of_nat (String.length t) in
  if start <? 0 then false
  else String.eqb (substring (Z.to_nat start) (String.length t) s) t.

(** [s.includes(t)] *)
Definition includes (s t : string) : bool :=
  match index 0 t s with Some _ => true | None => false end.

(** [s.split(sep)[0]] for a non-empty separator [sep] *)
Definition split_0 (s sep : string) : string :=
  match index 0 sep s with
  | Some i => substring 0 i s
  | None => s
  end.

(** [x || d] on strings: the empty string is falsy. *)
Definition orString (x : option string) (d : string) : string :=
  match x with
  | Some EmptyString | None => d
  | Some s => s
  end.

(** The largest integer up to which every integer is a [number]. *)
Definition TWO_53 : Z := 2 ^ 53.

(** [n++] on a [number] holding a non-negative integer: exact below
    [2^53]; at [2^53] the sum [2^53 + 1] rounds back to [2^53]. *)
Definition increment (n : Z) : Z :=
  if n <? TWO_53 then n + 1 else n.

End Js.

(** ** packages/protocol/src/index.ts *)

Module Protocol.

Definition PROTOCOL_VERSION : Z := 1.

Module FrameType.
Definition HELLO : Z := 1.
Definition REGISTER_TUNNEL : Z := 2.
Definition REGISTERED : Z := 3.
Definition OPEN_STREAM : Z := 4.
Definition DATA : Z := 5.
Definition END : Z := 6.
Definition ERROR : Z := 7.
Definition PING : Z := 8.
Definition PONG : Z := 9.
Definition UNREGISTER_TUNNEL : Z := 10.
Definition REQ_DATA : Z := 11.
Definition RESP_START : Z := 12.
Definition RESP_DATA : Z := 13.
End FrameType.

Abbreviation Headers := (gmap string string).
Abbreviation Buffer := (list Byte.byte).

(** A decoded frame.  Both ends read the unpacked message as [any] and
    pick fields by name, so a frame is its tag [t] and the fields that
    are present. *)
Record Frame := mkFrame {
  t : Z;
  v : option Z;
  token : option string;
  subdomain : option string;
  tunnelId : option string;
  streamId : option Z;
  method : option string;
  path : option string;
  headers : option Headers;
  chunk : option Buffer;
  statusCode : option Z;
  phase : option string;
  code : option string;
  message : option string
}.

Definition frame (t : Z) : Frame :=
  mkFrame t None None None None None None None None None None None None None.

(** [a-z0-9-] *)
Definition subdomainChar (c : ascii) : bool :=
  let n := nat_of_ascii c in
  (((97 <=? n) && (n <=? 122)) || ((48 <=? n) && (n <=? 57)) || (n =? 45))%nat.

Fixpoint allChars (p : ascii -> bool) (s : string) : bool :=
  match s with
  | EmptyString => true
  | String c s' => p c && allChars p s'
  end.

(** [SUBDOMAIN_REGEX = /^[a-z0-9-]{3,63}$/], as a test on the whole
    string (the regex has no [m] flag, so [$] is the end of input). *)
Definition SUBDOMAIN_REGEX_test (s : string) : bool :=
  allChars subdomainChar s
  && ((3 <=? String.length s) && (String.length s <=? 63))%nat.

Definition isValidSubdomain (s : string) : bool := SUBDOMAIN_REGEX_test s.

End Protocol.

(** ** The tunnel server *)

Module Server.
Import Js.
Module P := Protocol.
Import P.FrameType.

(** [process.env.DOMAIN_BASE || "localhost"] *)
Definition DOMAIN_BASE (env_DOMAIN_BASE : option string) : string :=
  orString env_DOMAIN_BASE "localhost".

(** The payload of the JSON error replies, [{ error: ... }]. *)
Record ErrorBody := { error : string }.

(** What the server does to the outside world.  [reply] is the number of
    the public request whose [reply] object is used; the [Raw...] actions
    are calls on [reply.raw].  Log lines are left out. *)
Inductive Action :=
| WsSend (ws : nat) (f : P.Frame)
| ReplySend (reply : nat) (code : Z) (payload : ErrorBody)
| ReplyHijack (reply : nat)
| RawWriteHead (reply : nat) (statusCode : Z) (headers : P.Headers)
| RawWrite (reply : nat) (chunk : P.Buffer)
| RawEnd (reply : nat).

(** A value of [req.headers]: [string | string[]]. *)
Inductive HeaderValue :=
| HString (s : string)
| HArray (l : list string).

Record Request := {
  req_headers : gmap string HeaderValue;
  req_method : string;
  raw_url : option string;
  raw_readable : bool
}.

Record StreamEntry := {
  reply : nat;
  timeout : nat;
  headersSent : bool
}.

Record TunnelInfo := {
  ws : nat;
  tunnelId : string;
  subdomain : string;
  createdAt : Z;
  nextStreamId : Z;
  streams : gmap Z StreamEntry
}.

(** The variables of one [/connect] handler invocation. *)
Record Socket := {
  assignedSubdomain : option string;
  socket_tunnelId : string;
  closed : bool
}.

(** A pending [setTimeout] callback of the public handler, with the
    variables it captured. *)
Record Timer := {
  timer_info : nat;
  timer_streamId : Z;
  timer_reply : nat;
  delay : Z
}.

(** A public handler suspended in its [for await] loop over the request
    body, with the variables it captured. *)
Record Upload := {
  upload_info : nat;
  upload_streamId : Z
}.

Record State := {
  tunnels : gmap string nat;      (* subdomain -> address of a TunnelInfo *)
  heap : list TunnelInfo;         (* the TunnelInfo objects, by address *)
  sockets : list Socket;          (* the control sockets, by number *)
  timers : gmap nat Timer;        (* armed timers, by handle: the number
                                     of the request that armed it *)
  uploads : gmap nat Upload;      (* suspended public handlers, by request *)
  requests : nat                  (* public requests received so far *)
}.

Definition init : State :=
  {| tunnels := ∅; heap := []; sockets := []; timers := ∅; uploads := ∅;
     requests := 0 |}.

Definition set_tunnels (x : gmap string nat) (st : State) : State :=
  {| tunnels := x; heap := heap st; sockets := sockets st;
     timers := timers st; uploads := uploads st; requests := requests st |}.
Definition set_heap (x : list TunnelInfo) (st : State) : State :=
  {| tunnels := tunnels st; heap := x; sockets := sockets st;
     timers := timers st; uploads := uploads st; requests := requests st |}.
Definition set_sockets (x : list Socket) (st : State) : State :=
  {| tunnels := tunnels st; heap := heap st; sockets := x;
     timers := timers st; uploads := uploads st; requests := requests st |}.
Definition set_timers (x : gmap nat Timer) (st : State) : State :=
  {| tunnels := tunnels st; heap := heap st; sockets := sockets st;
     timers := x; uploads := uploads st; requests := requests st |}.
Definition set_uploads (x : gmap nat Upload) (st : State) : State :=
  {| tunnels := tunnels st; heap := heap st; sockets := sockets st;
     timers := timers st; uploads := x; requests := requests st |}.
Definition set_requests (x : nat) (st : State) : State :=
  {| tunnels := tunnels st; heap := heap st; sockets := sockets st;
     timers := timers st; uploads := uploads st; requests := x |}.

Definition set_streams (x : gmap Z StreamEntry) (i : TunnelInfo) : TunnelInfo :=
  {| ws := ws i; tunnelId := tunnelId i; subdomain := subdomain i;
     createdAt := createdAt i; nextStreamId := nextStreamId i; streams := x |}.
Definition set_nextStreamId (x : Z) (i : TunnelInfo) : TunnelInfo :=
  {| ws := ws i; tunnelId := tunnelId i; subdomain := subdomain i;
     createdAt := createdAt i; nextStreamId := x; streams := streams i |}.
Definition set_assignedSubdomain (x : option string) (s : Socket) : Socket :=
  {| assignedSubdomain := x; socket_tunnelId := socket_tunnelId s;
     closed := closed s |}.
Definition set_closed (x : bool) (s : Socket) : Socket :=
  {| assignedSubdomain := assignedSubdomain s;
     socket_tunnelId := socket_tunnelId s; closed := x |}.

(** A mutation of the [TunnelInfo] object at address [a]. *)
Definition update_info (a : nat) (f : TunnelInfo -> TunnelInfo) (st : State) : State :=
  set_heap (alter f a (heap st)) st.

(** *** Frames the server builds *)

Definition ERROR_frame (code message : string) : P.Frame :=
  P.mkFrame ERROR None None None None None None None None None None None
    (Some code) (Some message).

Definition REGISTERED_frame (sub tunnelId : string) : P.Frame :=
  P.mkFrame REGISTERED None None (Some sub) (Some tunnelId) None None None
    None None None None None None.

Definition OPEN_STREAM_frame (tunnelId : string) (streamId : Z)
    (method path : string) (headers : P.Headers) : P.Frame :=
  P.mkFrame OPEN_STREAM None None None (Some tunnelId) (Some streamId)
    (Some method) (Some path) (Some headers) None None None None None.

Definition REQ_DATA_frame (tunnelId : string) (streamId : Z)
    (chunk : P.Buffer) : P.Frame :=
  P.mkFrame REQ_DATA None None None (Some tunnelId) (Some streamId) None None
    None (Some chunk) None None None None.

Definition END_frame (tunnelId : string) (streamId : Z) (phase : string) : P.Frame :=
  P.mkFrame END None None None (Some tunnelId) (Some streamId) None None None
    None None (Some phase) None None.

(** *** Helper functions of the server *)

(** [generateRandomSubdomain()], as a function of the string
    [Math.random().toString(36)] it slices. *)
Definition generateRandomSubdomain (random36 : string) : string :=
  slice random36 2 9.

Definition extractSubdomain (host base : string) : option string :=
  if negb (endsWith host base) then None
  else
    let suffix := slice host 0 (- Z.of_nat (String.length base)) in
    if negb (endsWith suffix ".") then None
    else
      let sub := slice suffix 0 (-1) in
      if negb (P.isValidSubdomain sub) then None
      else Some sub.

Definition hopByHop : list string :=
  ["transfer-encoding"; "connection"; "keep-alive"].

Definition isHopByHop (lk : string) : bool :=
  bool_decide (lk ∈ hopByHop).

(** [normalizeHeaders(h)]: the loop over [Object.entries(h)]. *)
Definition normalizeHeaders (h : P.Headers) : P.Headers :=
  map_fold (fun k v out =>
              let lk := toLowerCase k in
              if isHopByHop lk then out else <[k := v]> out)
           ∅ h.

(** The header loop of the public handler:
    [if (typeof v === "string") headers[k] = v]. *)
Definition stringHeaders (h : gmap string HeaderValue) : P.Headers :=
  map_fold (fun k v headers =>
              match v with
              | HString s => <[k := s]> headers
              | HArray _ => headers
              end)
           ∅ h.

(** [x || d] on status codes: [undefined] and [0] are falsy. *)
Definition orStatus (x : option Z) (d : Z) : Z :=
  match x with
  | Some 0 | None => d
  | Some n => n
  end.

(** Truthiness of a string-valued variable that may be [undefined]. *)
Definition truthy (x : option string) : option string :=
  match x with
  | Some EmptyString | None => None
  | Some s => Some s
  end.

(** *** The handlers *)

Definition tunnels_has (st : State) (sub : string) : bool :=
  bool_decide (is_Some (tunnels st !! sub)).

(** [tunnels.get(sub)]: the object the registry holds for [sub], with its
    address. *)
Definition tunnels_get (st : State) (sub : string) : option (nat * TunnelInfo) :=
  a ← tunnels st !! sub; i ← heap st !! a; Some (a, i).

(** [assignedSubdomain ? tunnels.get(assignedSubdomain) : undefined] *)
Definition socketInfo (st : State) (s : Socket) : option (nat * TunnelInfo) :=
  sub ← truthy (assignedSubdomain s); tunnels_get st sub.

(** [case FrameType.REGISTER_TUNNEL] *)
Definition onRegisterTunnel (st : State) (socket : nat) (s : Socket)
    (msg : P.Frame) (random36 : string) (now : Z) : State * list Action :=
  let requested :=
    match truthy (P.subdomain msg) with
    | Some x => if P.isValidSubdomain x then Some x else None
    | None => None
    end in
  let sub :=
    match truthy requested with
    | Some r => if negb (tunnels_has st r) then r
                else generateRandomSubdomain random36
    | None => generateRandomSubdomain random36
    end in
  if tunnels_has st sub then
    (st, [WsSend socket (ERROR_frame "SUBDOMAIN_TAKEN" "Please retry")])
  else
    let a := length (heap st) in
    let info := {| ws := socket; tunnelId := socket_tunnelId s;
                   subdomain := sub; createdAt := now; nextStreamId := 1;
                   streams := ∅ |} in
    (set_sockets (<[socket := set_assignedSubdomain (Some sub) s]> (sockets st))
       (set_tunnels (<[sub := a]> (tunnels st))
          (set_heap (heap st ++ [info])%list st)),
     [WsSend socket (REGISTERED_frame sub (socket_tunnelId s))]).

(** [info.streams.get(streamId)] for the [streamId] field of a frame. *)
Definition streams_get (info : TunnelInfo) (msg : P.Frame)
    : option (Z * StreamEntry) :=
  streamId ← P.streamId msg; entry ← streams info !! streamId;
  Some (streamId, entry).

Definition set_headersSent (x : bool) (e : StreamEntry) : StreamEntry :=
  {| reply := reply e; timeout := timeout e; headersSent := x |}.

(** [case FrameType.RESP_START] *)
Definition onRespStart (st : State) (s : Socket) (msg : P.Frame)
    : State * list Action :=
  match socketInfo st s with
  | None => (st, [])
  | Some (a, info) =>
    match streams_get info msg with
    | None => (st, [])
    | Some (streamId, entry) =>
      if headersSent entry then (st, [])
      else
        (update_info a
           (fun i => set_streams
                       (alter (set_headersSent true) streamId (streams i)) i)
           st,
         [RawWriteHead (reply entry) (orStatus (P.statusCode msg) 200)
            (normalizeHeaders (default ∅ (P.headers msg)))])
    end
  end.

(** [case FrameType.RESP_DATA] *)
Definition onRespData (st : State) (s : Socket) (msg : P.Frame)
    : State * list Action :=
  match socketInfo st s with
  | None => (st, [])
  | Some (a, info) =>
    match streams_get info msg with
    | None => (st, [])
    | Some (streamId, entry) =>
      match P.chunk msg with
      | Some chunk => (st, [RawWrite (reply entry) chunk])
      | None => (st, [])
      end
    end
  end.

(** [case FrameType.END] *)
Definition onEnd (st : State) (s : Socket) (msg : P.Frame)
    : State * list Action :=
  match socketInfo st s with
  | None => (st, [])
  | Some (a, info) =>
    match streams_get info msg with
    | None => (st, [])
    | Some (streamId, entry) =>
      if bool_decide (P.phase msg = Some "res") then
        (update_info a
           (fun i => set_streams (delete streamId (streams i)) i)
           (set_timers (delete (timeout entry) (timers st)) st),
         [RawEnd (reply entry)])
      else (st, [])
    end
  end.

(** [socket.on("message")]; [data = None] is a message [unpack] rejects,
    which the handler catches and logs. *)
Definition onMessage (st : State) (socket : nat) (s : Socket)
    (data : option P.Frame) (random36 : string) (now : Z)
    : State * list Action :=
  match data with
  | None => (st, [])
  | Some msg =>
    if P.t msg =? HELLO then (st, [])
    else if P.t msg =? REGISTER_TUNNEL then
      onRegisterTunnel st socket s msg random36 now
    else if P.t msg =? RESP_START then onRespStart st s msg
    else if P.t msg =? RESP_DATA then onRespData st s msg
    else if P.t msg =? END then onEnd st s msg
    else (st, [])
  end.

(** [socket.on("close")] *)
Definition onClose (st : State) (socket : nat) (s : Socket)
    : State * list Action :=
  let st := set_sockets (<[socket := set_closed true s]> (sockets st)) st in
  match truthy (assignedSubdomain s) with
  | Some sub => (set_tunnels (delete sub (tunnels st)) st, [])
  | None => (st, [])
  end.

(** [req.headers.host], a [string] when present. *)
Definition headers_host (req : Request) : option string :=
  match req_headers req !! "host" with
  | Some (HString s) => Some s
  | _ => None
  end.

(** The [host] the public handler routes by. *)
Definition requestHost (req : Request) : string :=
  let rawHost := toLowerCase (orString (headers_host req) "") in
  if includes rawHost ":" then split_0 rawHost ":" else rawHost.

Section Handlers.

Variable env_DOMAIN_BASE : option string.

(** Where the public handler sends a request: the two early returns, or
    the [info] found in the registry (with its address). *)
Inductive Route :=
| NotFound
| NotConnected
| Tunnel (a : nat) (info : TunnelInfo).

Definition route (st : State) (req : Request) : Route :=
  let host := requestHost req in
  match truthy (extractSubdomain host (DOMAIN_BASE env_DOMAIN_BASE)) with
  | None => NotFound
  | Some sub =>
    match tunnels_get st sub with
    | None => NotConnected
    | Some (a, info) => Tunnel a info
    end
  end.

(** [app.all("/*")] up to its first suspension point. *)
Definition onRequest (st : State) (req : Request) : State * list Action :=
  let r := requests st in
  let st := set_requests (S r) st in
  match route st req with
  | NotFound => (st, [ReplySend r 404 {| error := "Not Found" |}])
  | NotConnected => (st, [ReplySend r 502 {| error := "Tunnel not connected" |}])
  | Tunnel a info =>
    let streamId := nextStreamId info in
    let st := update_info a (set_nextStreamId (increment streamId)) st in
    let urlPath := orString (raw_url req) "/" in
    let headers := stringHeaders (req_headers req) in
    let st := set_timers
                (<[r := {| timer_info := a; timer_streamId := streamId;
                           timer_reply := r; delay := 30000 |}]> (timers st))
                st in
    let st := update_info a
                (fun i => set_streams
                   (<[streamId := {| reply := r; timeout := r;
                                     headersSent := false |}]> (streams i)) i)
                st in
    let opening :=
      [ReplyHijack r;
       WsSend (ws info)
         (OPEN_STREAM_frame (tunnelId info) streamId (req_method req)
            urlPath headers)] in
    if raw_readable req
       && negb (bool_decide (req_method req ∈ ["GET"; "HEAD"]))
    then
      (set_uploads (<[r := {| upload_info := a;
                              upload_streamId := streamId |}]> (uploads st))
         st,
       opening)
    else
      (st, (opening ++ [WsSend (ws info)
                          (END_frame (tunnelId info) streamId "req")])%list)
  end.

(** One turn of the [for await] loop of a suspended public handler. *)
Definition onBodyChunk (st : State) (r : nat) (chunk : P.Buffer)
    : State * list Action :=
  match uploads st !! r with
  | None => (st, [])
  | Some u =>
    match heap st !! upload_info u with
    | None => (st, [])
    | Some info =>
      (st, [WsSend (ws info)
              (REQ_DATA_frame (tunnelId info) (upload_streamId u) chunk)])
    end
  end.

(** The end of the request body: the loop exits and the handler signals
    the end of the request. *)
Definition onBodyEnd (st : State) (r : nat) : State * list Action :=
  match uploads st !! r with
  | None => (st, [])
  | Some u =>
    match heap st !! upload_info u with
    | None => (st, [])
    | Some info =>
      (set_uploads (delete r (uploads st)) st,
       [WsSend (ws info)
          (END_frame (tunnelId info) (upload_streamId u) "req")])
    end
  end.

(** The [setTimeout] callback of the public handler. *)
Definition onTimeout (st : State) (handle : nat) : State * list Action :=
  match timers st !! handle with
  | None => (st, [])
  | Some tm =>
    (update_info (timer_info tm)
       (fun i => set_streams (delete (timer_streamId tm) (streams i)) i)
       (set_timers (delete handle (timers st)) st),
     [ReplySend (timer_reply tm) 504 {| error := "Upstream timeout" |}])
  end.

(** What happens to the server: a client connects to [/connect], a
    message arrives on a control socket ([data = None] when it cannot be
    unpacked), a control socket closes, a public request reaches
    [app.all("/*")], its body produces a chunk or ends, a timer fires.
    [random36] is the value of [Math.random().toString(36)] and [now] that
    of [Date.now()] at that moment. *)
Inductive Event :=
| Connect (random36 : string)
| Message (socket : nat) (data : option P.Frame) (random36 : string) (now : Z)
| Close (socket : nat)
| PublicRequest (req : Request)
| BodyChunk (request : nat) (chunk : P.Buffer)
| BodyEnd (request : nat)
| Timeout (handle : nat).

(** A socket delivers no event once it is closed. *)
Definition onSocket (st : State) (socket : nat)
    (f : Socket -> State * list Action) : State * list Action :=
  match sockets st !! socket with
  | Some s => if closed s then (st, []) else f s
  | None => (st, [])
  end.

Definition step (st : State) (ev : Event) : State * list Action :=
  match ev with
  | Connect random36 =>
    (set_sockets
       (sockets st ++ [{| assignedSubdomain := None;
                          socket_tunnelId := "t_" +:+ slice random36 2 10;
                          closed := false |}])%list st,
     [])
  | Message socket data random36 now =>
    onSocket st socket (fun s => onMessage st socket s data random36 now)
  | Close socket => onSocket st socket (fun s => onClose st socket s)
  | PublicRequest req => onRequest st req
  | BodyChunk r chunk => onBodyChunk st r chunk
  | BodyEnd r => onBodyEnd st r
  | Timeout handle => onTimeout st handle
  end.

(** A run of the server: the final state and everything it did. *)
Fixpoint run (st : State) (evs : list Event) : State * list Action :=
  match evs with
  | [] => (st, [])
  | ev :: evs' =>
    let '(st1, out1) := step st ev in
    let '(st2, out2) := run st1 evs' in
    (st2, (out1 ++ out2)%list)
  end.

End Handlers.

End Server.

(** ** The tunnel client *)

Module Client.
Import Js.
Module P := Protocol.
Import P.FrameType.

(** The options and environment switches the handlers read:
    [opts.host], [opts.port] (as printed in the URL),
    [SIMPLE_TUNNEL_STREAM === 'true'] and
    [SIMPLE_TUNNEL_FORCE_IDENTITY === 'true']. *)
Record Config := {
  opts_host : string;
  opts_port : string;
  preferStream : bool;
  forceIdentity : bool
}.

Inductive Mode := stream | buffer.

(** [StreamCtx]; a [PassThrough] is named by its number. *)
Record StreamCtx := {
  mode : Mode;
  body : option nat;
  chunks : option (list P.Buffer);
  headers : option P.Headers;
  method : option string;
  path : option string;
  tunnelId : option string
}.

Definition set_chunks (x : option (list P.Buffer)) (e : StreamCtx) : StreamCtx :=
  {| mode := mode e; body := body e; chunks := x; headers := headers e;
     method := method e; path := path e; tunnelId := tunnelId e |}.

(** The [body] option of an origin request. *)
Inductive RequestBody :=
| NoBody
| BufferBody (b : P.Buffer)
| StreamBody (pipe : nat).

(** What the client does to the outside world (console output left out). *)
Inductive Action :=
| WsSend (f : P.Frame)
| Request (call : nat) (url method : string) (headers : P.Headers)
    (body : RequestBody)
| PipeWrite (pipe : nat) (buf : P.Buffer)
| PipeEnd (pipe : nat).

(** *** What the origin answers *)

Inductive JsValue :=
| JString (s : string)
| JArray (l : list string)
| JOther.

(** One step of iterating the response headers: a [[k, v]] pair, or an
    element that cannot be destructured (the iteration then throws). *)
Inductive HeaderItem :=
| Item (k v : JsValue)
| NotDestructurable.

(** The [headers] of the origin response as [objectifyHeaders] sees them:
    a falsy value, a truthy value that cannot be iterated (a plain object,
    as the [headers] of an undici response are), or an iterable. *)
Inductive ResponseHeaders :=
| Falsy
| NotIterable
| Iterable (items : list HeaderItem).

(** A response: status, headers, and the body as the chunks the [for await]
    loop receives, after which the body ends or the iteration throws. *)
Record Response := {
  res_statusCode : Z;
  res_headers : ResponseHeaders;
  res_body : list P.Buffer;
  res_bodyFails : bool
}.

(** How [await request(...)] settles. *)
Inductive Outcome :=
| Rejected
| Fulfilled (r : Response).

(** Which handler is suspended at its [await request(...)], and the
    variables its continuation uses. *)
Inductive Handler := OpenStream | BufferedRequest.

Record Suspended := {
  handler : Handler;
  s_tunnelId : option string;
  s_streamId : option Z
}.

Record State := {
  streams : gmap (option Z) StreamCtx;   (* keyed by [msg.streamId] *)
  suspended : gmap nat Suspended;        (* by origin request *)
  pipes : nat;                           (* PassThroughs created so far *)
  calls : nat                            (* origin requests issued so far *)
}.

Definition init : State :=
  {| streams := ∅; suspended := ∅; pipes := 0; calls := 0 |}.

Definition set_streams (x : gmap (option Z) StreamCtx) (c : State) : State :=
  {| streams := x; suspended := suspended c; pipes := pipes c;
     calls := calls c |}.
Definition set_suspended (x : gmap nat Suspended) (c : State) : State :=
  {| streams := streams c; suspended := x; pipes := pipes c;
     calls := calls c |}.
Definition set_pipes (x : nat) (c : State) : State :=
  {| streams := streams c; suspended := suspended c; pipes := x;
     calls := calls c |}.
Definition set_calls (x : nat) (c : State) : State :=
  {| streams := streams c; suspended := suspended c; pipes := pipes c;
     calls := x |}.

(** *** Frames the client builds *)

Definition RESP_START_frame (tunnelId : option string) (streamId : option Z)
    (statusCode : Z) (headers : option P.Headers) : P.Frame :=
  P.mkFrame RESP_START None None None tunnelId streamId None None headers
    None (Some statusCode) None None None.

Definition RESP_DATA_frame (tunnelId : option string) (streamId : option Z)
    (chunk : P.Buffer) : P.Frame :=
  P.mkFrame RESP_DATA None None None tunnelId streamId None None None
    (Some chunk) None None None None.

Definition END_frame (tunnelId : option string) (streamId : option Z)
    (phase : string) : P.Frame :=
  P.mkFrame END None None None tunnelId streamId None None None None None
    (Some phase) None None.

(** *** Code that may throw: state, output and exceptions *)

(** A computation reads and writes the client state, emits actions, and
    either returns a value or throws ([None]). *)
Definition M (A : Type) : Type := State -> list Action * State * option A.

Definition ret {A} (a : A) : M A := fun c => ([], c, Some a).

Definition bind {A B} (m : M A) (f : A -> M B) : M B :=
  fun c =>
    match m c with
    | (out1, c1, Some a) =>
      match f a c1 with
      | (out2, c2, r) => ((out1 ++ out2)%list, c2, r)
      end
    | (out1, c1, None) => (out1, c1, None)
    end.

Definition throw {A} : M A := fun c => ([], c, None).

Definition emit (a : Action) : M unit := fun c => ([a], c, Some tt).

Definition modify (f : State -> State) : M unit := fun c => ([], f c, Some tt).

(** [try { m } catch (e) { h }] *)
Definition try_catch {A} (m : M A) (h : M A) : M A :=
  fun c =>
    match m c with
    | (out1, c1, None) =>
      match h c1 with
      | (out2, c2, r) => ((out1 ++ out2)%list, c2, r)
      end
    | done => done
    end.

(** [try { m } finally { f }] *)
Definition try_finally {A} (m : M A) (f : M unit) : M A :=
  fun c =>
    match m c with
    | (out1, c1, r) =>
      match f c1 with
      | (out2, c2, Some _) => ((out1 ++ out2)%list, c2, r)
      | (out2, c2, None) => ((out1 ++ out2)%list, c2, None)
      end
    end.

Notation "m >>= f" := (bind m f) (at level 60, right associativity).
Notation "m >> k" := (bind m (fun _ => k)) (at level 60, right associativity).

(** [ws.send(packr.pack(frame))] *)
Definition ws_send (f : P.Frame) : M unit := emit (WsSend f).

(** [await request(...)], once the origin has answered. *)
Definition await (o : Outcome) : M Response :=
  match o with
  | Rejected => throw
  | Fulfilled r => ret r
  end.

(** [for await (const chunk of body) { f chunk }] *)
Fixpoint for_await (body : list P.Buffer) (fails : bool) (f : P.Buffer -> M unit)
    : M unit :=
  match body with
  | [] => if fails then throw else ret tt
  | chunk :: rest => f chunk >> for_await rest fails f
  end.

(** *** Helper functions of the client *)

(** [out[k] = v] for a string [v] on a plain object [out]: the key
    [__proto__] is the accessor of [Object.prototype], whose setter
    ignores a string, so [out] gets no own property for it. *)
Definition assign (k v : string) (out : P.Headers) : P.Headers :=
  if decide (k = "__proto__") then out else <[k := v]> out.

Fixpoint objectifyHeaders_loop (items : list HeaderItem) (out : P.Headers)
    : P.Headers :=
  match items with
  | [] => out
  | Item (JString k) (JString v) :: rest =>
    objectifyHeaders_loop rest (assign k v out)
  | Item _ _ :: rest => objectifyHeaders_loop rest out
  | NotDestructurable :: _ => out
  end.

(** [objectifyHeaders(h)]: an exception of the loop is swallowed and what
    was collected so far is returned. *)
Definition objectifyHeaders (h : ResponseHeaders) : P.Headers :=
  match h with
  | Falsy => ∅
  | NotIterable => ∅
  | Iterable items => objectifyHeaders_loop items ∅
  end.

(** The [accept-encoding] rule of both handlers. *)
Definition acceptEncoding (cfg : Config) (headers : P.Headers) : P.Headers :=
  if forceIdentity cfg then <["accept-encoding" := "identity"]> headers
  else delete "accept-encoding" headers.

Definition localUrl (cfg : Config) (path : option string) : string :=
  "http://" +:+ opts_host cfg +:+ ":" +:+ opts_port cfg +:+ orString path "/".

Definition isGetOrHead (method : string) : bool :=
  bool_decide (method ∈ ["GET"; "HEAD"]).

Definition nonEmpty (chunk : P.Buffer) : bool :=
  match chunk with
  | [] => false
  | _ :: _ => true
  end.

Definition gets {A} (f : State -> A) : M A := fun c => ([], c, Some (f c)).

(** [new PassThrough()] *)
Definition newPassThrough : M nat :=
  fun c => ([], set_pipes (S (pipes c)) c, Some (pipes c)).

(** [streams.set(streamId, ctx)] and [streams.delete(streamId)] *)
Definition streams_set (streamId : option Z) (ctx : StreamCtx) : M unit :=
  modify (fun c => set_streams (<[streamId := ctx]> (streams c)) c).
Definition streams_delete (streamId : option Z) : M unit :=
  modify (fun c => set_streams (delete streamId (streams c)) c).

(** The call [request(localUrl, { method, headers, body })]: the request
    goes out and the handler [k] is suspended until the origin answers. *)
Definition request (k : Suspended) (url method : string) (headers : P.Headers)
    (body : RequestBody) : M unit :=
  fun c =>
    ([Request (calls c) url method headers body],
     set_suspended (<[calls c := k]> (suspended c)) (set_calls (S (calls c)) c),
     Some tt).

(** *** The handlers *)

(** The statements of the [try] block of both handlers that follow
    [await request(...)]: RESP_START, the body loop, END. *)
Definition respond (tunnelId : option string) (streamId : option Z)
    (o : Outcome) : M unit :=
  await o >>= fun r =>
  ws_send (RESP_START_frame tunnelId streamId (res_statusCode r)
             (Some (objectifyHeaders (res_headers r)))) >>
  for_await (res_body r) (res_bodyFails r)
    (fun chunk =>
       if nonEmpty chunk
       then ws_send (RESP_DATA_frame tunnelId streamId chunk)
       else ret tt) >>
  ws_send (END_frame tunnelId streamId "res").

(** The [catch] block of both handlers. *)
Definition respond502 (tunnelId : option string) (streamId : option Z) : M unit :=
  ws_send (RESP_START_frame tunnelId streamId 502 None) >>
  ws_send (END_frame tunnelId streamId "res").

(** [handleOpenStream(msg, bodyStream)] up to [await request(...)]. *)
Definition handleOpenStream_call (cfg : Config) (msg : P.Frame)
    (bodyStream : option nat) : M unit :=
  let url := localUrl cfg (P.path msg) in
  let headers := acceptEncoding cfg (default ∅ (P.headers msg)) in
  let method := toUpperCase (orString (P.method msg) "GET") in
  match bodyStream with
  | Some p => ret p
  | None =>
    newPassThrough >>= fun p =>
    streams_set (P.streamId msg)
      {| mode := stream; body := Some p; chunks := None;
         headers := Some headers; method := Some method;
         path := P.path msg; tunnelId := P.tunnelId msg |} >>
    ret p
  end >>= fun streamRef =>
  request {| handler := OpenStream; s_tunnelId := P.tunnelId msg;
             s_streamId := P.streamId msg |}
    url method headers
    (if isGetOrHead method then NoBody else StreamBody streamRef).

(** [handleOpenStream] from the moment its [await request(...)] settles
    with [o]. *)
Definition handleOpenStream_resume (k : Suspended) (o : Outcome) : M unit :=
  try_catch
    (respond (s_tunnelId k) (s_streamId k) o)
    (respond502 (s_tunnelId k) (s_streamId k)).

(** [handleBufferedRequest(streamId, entry)] up to [await request(...)]. *)
Definition handleBufferedRequest_call (cfg : Config) (streamId : option Z)
    (entry : StreamCtx) : M unit :=
  let url := localUrl cfg (path entry) in
  let headers := acceptEncoding cfg (default ∅ (headers entry)) in
  let bodyBuf := concat (default [] (chunks entry)) in
  let headers := <["content-length" := pretty (length bodyBuf)]> headers in
  let method := toUpperCase (orString (method entry) "POST") in
  request {| handler := BufferedRequest; s_tunnelId := tunnelId entry;
             s_streamId := streamId |}
    url method headers (BufferBody bodyBuf).

(** [handleBufferedRequest] from the moment its [await request(...)]
    settles with [o]. *)
Definition handleBufferedRequest_resume (k : Suspended) (o : Outcome) : M unit :=
  try_finally
    (try_catch
       (respond (s_tunnelId k) (s_streamId k) o)
       (respond502 (s_tunnelId k) (s_streamId k)))
    (streams_delete (s_streamId k)).

(** [ws.on('message')]; [data = None] is a message [unpack] rejects. *)
Definition onMessage (cfg : Config) (data : option P.Frame) : M unit :=
  try_catch
    (match data with
     | None => throw
     | Some msg =>
       if P.t msg =? REGISTERED then ret tt
       else if P.t msg =? OPEN_STREAM then
         let method := toUpperCase (orString (P.method msg) "GET") in
         let headers := default ∅ (P.headers msg) in
         let path := orString (P.path msg) "/" in
         let shouldBuffer := negb (isGetOrHead method) && negb (preferStream cfg) in
         if shouldBuffer then
           streams_set (P.streamId msg)
             {| mode := buffer; body := None; chunks := Some [];
                headers := Some headers; method := Some method;
                path := Some path; tunnelId := P.tunnelId msg |}
         else
           newPassThrough >>= fun bodyStream =>
           streams_set (P.streamId msg)
             {| mode := stream; body := Some bodyStream; chunks := None;
                headers := Some headers; method := Some method;
                path := Some path; tunnelId := P.tunnelId msg |} >>
           handleOpenStream_call cfg msg (Some bodyStream)
       else if P.t msg =? REQ_DATA then
         gets (fun c => streams c !! P.streamId msg) >>= fun entry =>
         match entry, P.chunk msg with
         | Some entry, Some buf =>
           match mode entry with
           | buffer =>
             match chunks entry with
             | Some l =>
               streams_set (P.streamId msg) (set_chunks (Some (l ++ [buf])%list) entry)
             | None => throw
             end
           | stream =>
             match body entry with
             | Some p => emit (PipeWrite p buf)
             | None => ret tt
             end
           end
         | _, _ => ret tt
         end
       else if (P.t msg =? END) && bool_decide (P.phase msg = Some "req") then
         gets (fun c => streams c !! P.streamId msg) >>= fun entry =>
         match entry with
         | None => ret tt
         | Some entry =>
           match mode entry with
           | buffer => handleBufferedRequest_call cfg (P.streamId msg) entry
           | stream =>
             match body entry with
             | Some p => emit (PipeEnd p)
             | None => ret tt
             end
           end
         end
       else ret tt
     end)
    (ret tt).

(** What happens to the client: a message on the control socket, or the
    origin answering the request numbered [call]. *)
Inductive Event :=
| Message (data : option P.Frame)
| Settled (call : nat) (o : Outcome).

Definition exec (m : M unit) (c : State) : State * list Action :=
  match m c with
  | (out, c', _) => (c', out)
  end.

(** The continuation of the suspended handler [k]. *)
Definition resume (k : Suspended) (o : Outcome) : M unit :=
  match handler k with
  | OpenStream => handleOpenStream_resume k o
  | BufferedRequest => handleBufferedRequest_resume k o
  end.

Definition step (cfg : Config) (c : State) (ev : Event) : State * list Action :=
  match ev with
  | Message data => exec (onMessage cfg data) c
  | Settled call o =>
    match suspended c !! call with
    | None => (c, [])
    | Some k =>
      exec (resume k o) (set_suspended (delete call (suspended c)) c)
    end
  end.

Fixpoint run (cfg : Config) (c : State) (evs : list Event) : State * list Action :=
  match evs with
  | [] => (c, [])
  | ev :: evs' =>
    let '(c1, out1) := step cfg c ev in
    let '(c2, out2) := run cfg c1 evs' in
    (c2, (out1 ++ out2)%list)
  end.

End Client.

(** ** What the properties observe *)

Module Observe.
Import Server.
Module P := Protocol.

(** The request whose [reply] (or raw response) an action is a call on. *)
Definition publicCall (a : Action) : option nat :=
  match a with
  | WsSend _ _ => None
  | ReplySend r _ _ => Some r
  | ReplyHijack r => Some r
  | RawWriteHead r _ _ => Some r
  | RawWrite r _ => Some r
  | RawEnd r => Some r
  end.

(** The stream ids of the OPEN_STREAM frames among some actions. *)
Fixpoint openedStreamIds (out : list Action) : list Z :=
  match out with
  | [] => []
  | WsSend _ f :: out' =>
    if P.t f =? P.FrameType.OPEN_STREAM then
      match P.streamId f with
      | Some streamId => streamId :: openedStreamIds out'
      | None => openedStreamIds out'
      end
    else openedStreamIds out'
  | _ :: out' => openedStreamIds out'
  end.

(** The id the next stream of the tunnel object at [a] will get; an
    object that does not exist yet will start at 1. *)
Definition nextId (st : State) (a : nat) : Z :=
  match heap st !! a with
  | Some info => nextStreamId info
  | None => 1
  end.

Section Allocations.

Variable env_DOMAIN_BASE : option string.

(** The stream ids one event allocates on the tunnel object at address
    [a]: those opened by a public request that [route] sends there. *)
Definition allocation (st : State) (ev : Event) (a : nat) : list Z :=
  match ev with
  | PublicRequest req =>
    match route env_DOMAIN_BASE st req with
    | Tunnel a' _ =>
      if decide (a' = a)
      then openedStreamIds (step env_DOMAIN_BASE st ev).2
      else []
    | _ => []
    end
  | _ => []
  end.

(** The stream ids a run allocates on the tunnel object at [a], in order. *)
Fixpoint allocations (st : State) (evs : list Event) (a : nat) : list Z :=
  match evs with
  | [] => []
  | ev :: evs' =>
    (allocation st ev a
       ++ allocations (step env_DOMAIN_BASE st ev).1 evs' a)%list
  end.

End Allocations.

(** A digit of a number printed in base 36: [0-9a-z]. *)
Definition base36Digit (c : ascii) : bool :=
  let n := nat_of_ascii c in
  (((48 <=? n) && (n <=? 57)) || ((97 <=? n) && (n <=? 122)))%nat.

(** A control socket that is connected and not closed. *)
Definition live (st : State) (socket : nat) : Prop :=
  exists s, sockets st !! socket = Some s /\ closed s = false.

(** Registry uniqueness: every key of the registry is bound to a tunnel
    whose control socket is live. *)
Definition registry_live (st : State) : Prop :=
  forall sub a, tunnels st !! sub = Some a ->
    exists info, heap st !! a = Some info /\ live st (ws info).

(** Every key of the registry is a non-empty subdomain bound to a tunnel
    whose control socket is open and has that subdomain assigned. *)
Definition owned (st : State) : Prop :=
  forall sub a, tunnels st !! sub = Some a ->
    sub <> ""
    /\ exists info s,
         heap st !! a = Some info /\ sockets st !! ws info = Some s
         /\ closed s = false /\ assignedSubdomain s = Some sub.

(** The event is not a second REGISTER_TUNNEL on a socket, nor a
    registration for which the random label would be empty. *)
Definition registersOnce (st : State) (ev : Event) : Prop :=
  match ev with
  | Message socket (Some msg) random36 _ =>
    P.t msg = P.FrameType.REGISTER_TUNNEL ->
    (forall s, sockets st !! socket = Some s -> assignedSubdomain s = None)
    /\ generateRandomSubdomain random36 <> ""
  | _ => True
  end.

Section Discipline.

Variable env_DOMAIN_BASE : option string.

(** A run all of whose events satisfy [registersOnce]. *)
Fixpoint disciplined (st : State) (evs : list Event) : Prop :=
  match evs with
  | [] => True
  | ev :: evs' =>
    registersOnce st ev
    /\ disciplined (step env_DOMAIN_BASE st ev).1 evs'
  end.

End Discipline.

(** What ties stream entries to timers in every reachable state: an
    entry's timer is armed, belongs to the same request and points back at
    the entry; every armed timer belongs to a request already received. *)
Definition timers_consistent (st : State) : Prop :=
  (forall a info streamId e,
     heap st !! a = Some info -> streams info !! streamId = Some e ->
     reply e = timeout e
     /\ exists tm, timers st !! timeout e = Some tm
                   /\ timer_info tm = a /\ timer_streamId tm = streamId)
  /\ (forall handle tm,
        timers st !! handle = Some tm ->
        (handle < requests st)%nat /\ timer_reply tm = handle
        /\ delay tm = 30000).

(** A request that was received and whose timer is no longer armed (it
    fired, or END phase=res cleared it). *)
Definition disarmed (st : State) (r : nat) : Prop :=
  (r < requests st)%nat /\ timers st !! r = None.

(** A header item of the origin response that [objectifyHeaders] keeps. *)
Definition bothStrings (k v : Client.JsValue) : Prop :=
  exists k' v', k = Client.JString k' /\ v = Client.JString v'.

(** Frames of a kind among the actions of the client. *)
Definition isRespStart (f : P.Frame) : bool :=
  P.t f =? P.FrameType.RESP_START.

Definition isEndRes (f : P.Frame) : bool :=
  (P.t f =? P.FrameType.END) && bool_decide (P.phase f = Some "res").

Fixpoint countFrames (p : P.Frame -> bool) (out : list Client.Action) : nat :=
  match out with
  | [] => 0
  | Client.WsSend f :: out' =>
    ((if p f then 1 else 0) + countFrames p out')%nat
  | _ :: out' => countFrames p out'
  end.

(** The RESP_DATA frames the body loop sends for the chunks of a body. *)
Definition dataFrames (tunnelId : option string) (streamId : option Z)
    (body : list P.Buffer) : list Client.Action :=
  (fun chunk => Client.WsSend (Client.RESP_DATA_frame tunnelId streamId chunk))
    <$> filter (fun chunk => Client.nonEmpty chunk = true) body.

End Observe.

(** ** Concrete runs *)

Module Scenario.
Module P := Protocol.

Definition REGISTER_TUNNEL_frame (subdomain : option string) : P.Frame :=
  P.mkFrame P.FrameType.REGISTER_TUNNEL None None subdomain None None None
    None None None None None None None.

(** A public [GET /] whose [Host] header is [host]. *)
Definition GET (host : string) : Server.Request :=
  {| Server.req_headers := {[ "host" := Server.HString host ]};
     Server.req_method := "GET";
     Server.raw_url := Some "/";
     Server.raw_readable := true |}.

(** One client registers [aaa]. *)
Definition registered : list Server.Event :=
  [Server.Connect "0.k3j5x8q2mzp";
   Server.Message 0 (Some (REGISTER_TUNNEL_frame (Some "aaa")))
     "0.4fzyo82mvyr" 1000].

(** ... and a public request for [aaa.localhost] is in flight. *)
Definition in_flight : list Server.Event :=
  (registered ++ [Server.PublicRequest (GET "aaa.localhost")])%list.

(** A RESP_START for stream 1 of the first tunnel, as an event. *)
Definition answer : Server.Event :=
  Server.Message 0
    (Some (Client.RESP_START_frame (Some "t_k3j5x8q2") (Some 1) 200
             (Some {[ "Connection" := "close"; "X-Origin" := "up" ]})))
    "0.9x2c7k1l0pq" 2000.

(** ... and the client has answered it with RESP_START, and nothing more. *)
Definition headers_sent : list Server.Event :=
  (in_flight ++ [answer])%list.

(** The timer of that request, as the public handler arms it. *)
Definition tm0 : Server.Timer :=
  {| Server.timer_info := 0; Server.timer_streamId := 1;
     Server.timer_reply := 0; Server.delay := 30000 |}.

(** Two public requests for [aaa.localhost] after the registration. *)
Definition two_requests : list Server.Event :=
  (in_flight ++ [Server.PublicRequest (GET "aaa.localhost")])%list.

(** One client registers [aaa], then [bbb] on the same socket, then closes. *)
Definition registers_twice_then_closes : list Server.Event :=
  (registered
     ++ [Server.Message 0 (Some (REGISTER_TUNNEL_frame (Some "bbb")))
           "0.9x2c7k1l0pq" 2000;
         Server.Close 0])%list.

(** A client registers without asking for a subdomain while
    [Math.random()] returns [0.5], which prints as [0.i] in base 36. *)
Definition short_random_label : list Server.Event :=
  [Server.Connect "0.k3j5x8q2mzp";
   Server.Message 0 (Some (REGISTER_TUNNEL_frame None)) "0.i" 1000].

Definition cfg : Client.Config :=
  {| Client.opts_host := "127.0.0.1"; Client.opts_port := "8080";
     Client.preferStream := false; Client.forceIdentity := false |}.

Definition OPEN_STREAM_GET : P.Frame :=
  Server.OPEN_STREAM_frame "t_k3j5x8q2" 1 "GET" "/" ∅.

Definition END_req : P.Frame := Server.END_frame "t_k3j5x8q2" 1 "req".

(** The origin answers 200 with an empty body. *)
Definition ok_empty : Client.Outcome :=
  Client.Fulfilled
    {| Client.res_statusCode := 200; Client.res_headers := Client.Falsy;
       Client.res_body := []; Client.res_bodyFails := false |}.

(** The origin answers 200, sends one chunk, and the body then fails. *)
Definition fails_mid_body : Client.Outcome :=
  Client.Fulfilled
    {| Client.res_statusCode := 200; Client.res_headers := Client.Falsy;
       Client.res_body := [[Byte.x68; Byte.x69]];
       Client.res_bodyFails := true |}.

(** A GET stream is opened, its request ends, and the origin answers. *)
Definition get_stream (o : Client.Outcome) : list Client.Event :=
  [Client.Message (Some OPEN_STREAM_GET);
   Client.Message (Some END_req);
   Client.Settled 0 o].

(** A POST stream with a two-byte body is opened, its request ends, and
    the origin answers. *)
Definition OPEN_STREAM_POST : P.Frame :=
  Server.OPEN_STREAM_frame "t_k3j5x8q2" 1 "POST" "/echo" ∅.

Definition REQ_DATA_1 : P.Frame :=
  Server.REQ_DATA_frame "t_k3j5x8q2" 1 [Byte.x7b; Byte.x7d].

Definition post_stream (o : Client.Outcome) : list Client.Event :=
  [Client.Message (Some OPEN_STREAM_POST);
   Client.Message (Some REQ_DATA_1);
   Client.Message (Some END_req);
   Client.Settled 0 o].

End Scenario.

(** ** The command line of the client *)

Module Cli.

(** A [number] as [parseInt] gives it: [NaN], or a number by its integer
    value. *)
Inductive Num :=
| NaN
| Number (n : Z).

(** [program.opts()] *)
Record Opts := {
  port : option Num;
  host : string;
  subdomain : option string;
  connect : string;
  token : option string;
  domainBase : option string
}.

Definition set_port (x : option Num) (o : Opts) : Opts :=
  {| port := x; host := host o; subdomain := subdomain o;
     connect := connect o; token := token o; domainBase := domainBase o |}.
Definition set_connect (x : string) (o : Opts) : Opts :=
  {| port := port o; host := host o; subdomain := subdomain o;
     connect := x; token := token o; domainBase := domainBase o |}.
Definition set_subdomain (x : option string) (o : Opts) : Opts :=
  {| port := port o; host := host o; subdomain := x;
     connect := connect o; token := token o; domainBase := domainBase o |}.

(** [!opts.port || Number.isNaN(opts.port)]: [undefined], [NaN] and [0]. *)
Definition noPort (p : option Num) : bool :=
  match p with
  | None | Some NaN | Some (Number 0) => true
  | Some (Number _) => false
  end.

(** [rest[i]] when it is truthy. *)
Definition arg (rest : list string) (i : nat) : option string :=
  match rest !! i with
  | Some EmptyString | None => None
  | Some a => Some a
  end.

(** What the start of the program decides. *)
Inductive Startup :=
| Exit (code : Z)
| Proceed (opts : Opts).

Section Resolve.

(** [parseInt(s, 10)] *)
Variable parseInt10 : string -> Num.

(** The positional fallback [<port> [connect] [subdomain]]. *)
Definition positionals (opts : Opts) (rest : list string) : Opts :=
  let opts :=
    if noPort (port opts) then
      match arg rest 0 with
      | Some a =>
        match parseInt10 a with
        | NaN => opts
        | Number n => set_port (Some (Number n)) opts
        end
      | None => opts
      end
    else opts in
  let opts :=
    match arg rest 1 with
    | Some a => set_connect a opts
    | None => opts
    end in
  match arg rest 2 with
  | Some a => set_subdomain (Some a) opts
  | None => opts
  end.

(** The options after the fallback, or [process.exit(1)] when there is
    still no port. *)
Definition startup (opts : Opts) (rest : list string) : Startup :=
  let opts := positionals opts rest in
  if noPort (port opts) then Exit 1 else Proceed opts.

End Resolve.

End Cli.

(** ** The two ends put together *)

Module Relay.
Module P := Protocol.

(** The frames the client sent, as the messages the server receives on
    [socket] (a frame is unpacked as it was packed). *)
Fixpoint deliver (socket : nat) (random36 : string) (now : Z)
    (out : list Client.Action) : list Server.Event :=
  match out with
  | [] => []
  | Client.WsSend f :: out' =>
    Server.Message socket (Some f) random36 now
      :: deliver socket random36 now out'
  | _ :: out' => deliver socket random36 now out'
  end.

(** The frames the server sent on [ws], as the messages that client
    receives. *)
Fixpoint forward (ws : nat) (out : list Server.Action) : list Client.Event :=
  match out with
  | [] => []
  | Server.WsSend ws' f :: out' =>
    if decide (ws' = ws) then Client.Message (Some f) :: forward ws out'
    else forward ws out'
  | _ :: out' => forward ws out'
  end.

(** The chunks written to the raw response of request [r], in order. *)
Fixpoint written (r : nat) (out : list Server.Action) : list P.Buffer :=
  match out with
  | [] => []
  | Server.RawWrite r' chunk :: out' =>
    if decide (r' = r) then chunk :: written r out' else written r out'
  | _ :: out' => written r out'
  end.

(** How many times the head of the raw response of request [r] is
    written. *)
Fixpoint heads (r : nat) (out : list Server.Action) : nat :=
  match out with
  | [] => 0
  | Server.RawWriteHead r' _ _ :: out' =>
    ((if decide (r' = r) then 1 else 0) + heads r out')%nat
  | _ :: out' => heads r out'
  end.

(** Request [r] has a stream entry whose head is not written yet. *)
Definition headPending (st : Server.State) (r : nat) : Prop :=
  exists a info streamId e,
    Server.heap st !! a = Some info
    /\ Server.streams info !! streamId = Some e
    /\ Server.reply e = r /\ Server.headersSent e = false.

(** An action that answers request [r] for good: a reply sent whole, or
    the end of its raw response. *)
Definition finishes (r : nat) (act : Server.Action) : bool :=
  match act with
  | Server.ReplySend r' _ _ | Server.RawEnd r' => bool_decide (r' = r)
  | _ => false
  end.

(** A string with an upper-case ASCII letter in it. *)
Fixpoint hasUpper (s : string) : bool :=
  match s with
  | EmptyString => false
  | String c s' => Js.isUpper c || hasUpper s'
  end.

(** A REQ_DATA frame and the request-side END of stream [streamId]; the
    client does not read their [tunnelId]. *)
Definition REQ_DATA (tunnelId : string) (streamId : Z) (chunk : P.Buffer)
    : Client.Event :=
  Client.Message (Some (Server.REQ_DATA_frame tunnelId streamId chunk)).

Definition END_req (tunnelId : string) (streamId : Z) : Client.Event :=
  Client.Message (Some (Server.END_frame tunnelId streamId "req")).

End Relay.

(** ** The registry *)

Module Registry.
Import Server.

(** The tunnel object a successful REGISTER_TUNNEL creates. *)
Definition fresh (socket : nat) (s : Socket) (sub : string) (now : Z)
    : TunnelInfo :=
  {| ws := socket; tunnelId := socket_tunnelId s; subdomain := sub;
     createdAt := now; nextStreamId := 1; streams := ∅ |}.

(** The outcome [res] of a REGISTER_TUNNEL on [socket] in state [st] binds
    [sub]: REGISTERED is the only frame sent, [sub] is bound to a fresh
    tunnel object of that socket, the socket has [sub] assigned, and the
    other keys of the registry are as before. *)
Definition binds (st : State) (socket : nat) (s : Socket) (now : Z)
    (sub : string) (res : State * list Action) : Prop :=
  res.2 = [WsSend socket (REGISTERED_frame sub (socket_tunnelId s))]
  /\ tunnels res.1 !! sub = Some (length (heap st))
  /\ heap res.1 !! length (heap st) = Some (fresh socket s sub now)
  /\ sockets res.1 !! socket = Some (set_assignedSubdomain (Some sub) s)
  /\ forall sub', sub' <> sub -> tunnels res.1 !! sub' = tunnels st !! sub'.

(** Every key of the registry is bound to an existing tunnel object that
    carries that key as its [subdomain] and belongs to a socket that once
    connected; and every open socket still has the subdomain assigned to
    it in the registry, bound to a tunnel of its own. *)
Definition registry_wf (st : State) : Prop :=
  (forall sub a, tunnels st !! sub = Some a ->
     exists info, heap st !! a = Some info /\ subdomain info = sub
                  /\ (ws info < length (sockets st))%nat)
  /\ (forall socket s sub,
        sockets st !! socket = Some s -> closed s = false ->
        assignedSubdomain s = Some sub ->
        exists a info, tunnels st !! sub = Some a
                       /\ heap st !! a = Some info /\ ws info = socket).

End Registry.


(** ** More concrete runs *)

Module Examples.
Module P := Protocol.

(** The first socket as [Connect "0.k3j5x8q2mzp"] creates it, and once it
    has registered [aaa]. *)
Definition socket0 : Server.Socket :=
  {| Server.assignedSubdomain := None;
     Server.socket_tunnelId := "t_k3j5x8q2";
     Server.closed := false |}.

Definition socket0_aaa : Server.Socket :=
  Server.set_assignedSubdomain (Some "aaa") socket0.

Definition connected : list Server.Event :=
  [Server.Connect "0.k3j5x8q2mzp"].

(** The tunnel object of [aaa], fresh and with the first request in
    flight. *)
Definition tunnel0 : Server.TunnelInfo :=
  Registry.fresh 0 socket0 "aaa" 1000.

Definition entry0 : Server.StreamEntry :=
  {| Server.reply := 0; Server.timeout := 0; Server.headersSent := false |}.

Definition tunnel0_in_flight : Server.TunnelInfo :=
  {| Server.ws := 0; Server.tunnelId := "t_k3j5x8q2";
     Server.subdomain := "aaa"; Server.createdAt := 1000;
     Server.nextStreamId := 2; Server.streams := {[ 1 := entry0 ]} |}.

Definition END_res : P.Frame :=
  Client.END_frame (Some "t_k3j5x8q2") (Some 1) "res".

(** A public [POST /echo] with a body, whose [Host] header is [host]. *)
Definition POST (host : string) : Server.Request :=
  {| Server.req_headers := {[ "host" := Server.HString host ]};
     Server.req_method := "POST";
     Server.raw_url := Some "/echo";
     Server.raw_readable := true |}.

(** A public [DELETE /echo] whose body is still to be read, and a public
    [POST /echo] of a JSON body that the framework has read already. *)
Definition DELETE (host : string) : Server.Request :=
  {| Server.req_headers := {[ "host" := Server.HString host ]};
     Server.req_method := "DELETE";
     Server.raw_url := Some "/echo";
     Server.raw_readable := true |}.

Definition POST_json (host : string) : Server.Request :=
  {| Server.req_headers :=
       {[ "host" := Server.HString host;
          "content-type" := Server.HString "application/json" ]};
     Server.req_method := "POST";
     Server.raw_url := Some "/echo";
     Server.raw_readable := false |}.

(** The origin answers 200 with its headers in a plain object and a body
    of one chunk. *)
Definition ok_plain_headers : Client.Outcome :=
  Client.Fulfilled
    {| Client.res_statusCode := 200; Client.res_headers := Client.NotIterable;
       Client.res_body := [[Byte.x68; Byte.x69]];
       Client.res_bodyFails := false |}.

(** A body of two chunks. *)
Definition body : list P.Buffer :=
  [[Byte.x7b]; [Byte.x7d]].

(** [handleBufferedRequest] waiting for the origin on stream 1. *)
Definition suspended0 : Client.Suspended :=
  {| Client.handler := Client.BufferedRequest;
     Client.s_tunnelId := Some "t_k3j5x8q2";
     Client.s_streamId := Some 1 |}.

(** The first request is answered to its end, and a second one comes. *)
Definition answered_then_next : list Server.Event :=
  (Scenario.in_flight
     ++ [Server.Message 0 (Some END_res) "0.9x2c7k1l0pq" 2000;
         Server.PublicRequest (Scenario.GET "aaa.localhost")])%list.

(** The client goes away while the first request is in flight. *)
Definition client_gone : list Server.Event :=
  (Scenario.in_flight ++ [Server.Close 0])%list.

End Examples.

(** * Properties *)

(** ** The string operations *)

Section StringFacts.
Import Js.

Lemma string_app_nil t : "" +:+ t = t.
Proof. reflexivity. Qed.

Lemma string_app_cons c s t : String c s +:+ t = String c (s +:+ t).
Proof. reflexivity. Qed.

Ltac sapp := rewrite ?string_app_cons, ?string_app_nil in *; simpl in *.

Lemma string_length_app a b :
  String.length (a +:+ b) = (String.length a + String.length b)%nat.
Proof. induction a as [|c a IH]; sapp; [done | by rewrite IH]. Qed.

Lemma string_app_assoc a b c : (a +:+ b) +:+ c = a +:+ b +:+ c.
Proof. induction a as [|x a IH]; sapp; [done | by rewrite IH]. Qed.

Lemma string_app_inv_tail a b c : a +:+ c = b +:+ c -> a = b.
Proof.
  revert b. induction a as [|x a IH]; intros [|y b] H; sapp; try done.
  - apply (f_equal String.length) in H. simpl in H. rewrite string_length_app in H. lia.
  - apply (f_equal String.length) in H. simpl in H. rewrite string_length_app in H. lia.
  - injection H as -> H. f_equal. by apply IH.
Qed.

Lemma substring_0_length s : substring 0 (String.length s) s = s.
Proof. induction s as [|c s IH]; simpl; [done | by rewrite IH]. Qed.

Lemma substring_0_app a b : substring 0 (String.length a) (a +:+ b) = a.
Proof. induction a as [|c a IH]; sapp; [by destruct b | by rewrite IH]. Qed.

Lemma substring_length_app a b :
  substring (String.length a) (String.length b) (a +:+ b) = b.
Proof.
  induction a as [|c a IH]; sapp; [apply substring_0_length | done].
Qed.

Lemma substring_split s n :
  (n <= String.length s)%nat ->
  substring 0 n s +:+ substring n (String.length s - n) s = s.
Proof.
  revert n. induction s as [|c s IH]; intros [|n] Hn; simpl in *; try done; try lia.
  - by rewrite substring_0_length.
  - rewrite string_app_cons. f_equal. apply IH. lia.
Qed.

Lemma endsWith_true s t : endsWith s t = true <-> exists p, s = p +:+ t.
Proof.
  unfold endsWith. split.
  - case_match eqn:Hlt; [done|]. apply Z.ltb_ge in Hlt.
    intros Heq%String.eqb_eq.
    replace (Z.to_nat (Z.of_nat (String.length s) - Z.of_nat (String.length t)))
      with (String.length s - String.length t)%nat in Heq by lia.
    exists (substring 0 (String.length s - String.length t) s).
    pose proof (substring_split s (String.length s - String.length t)) as Hs.
    replace (String.length s - (String.length s - String.length t))%nat
      with (String.length t) in Hs by lia.
    rewrite Heq in Hs. symmetry. apply Hs. lia.
  - intros [p ->]. rewrite string_length_app.
    case_match eqn:Hlt; [apply Z.ltb_lt in Hlt; lia|].
    replace (Z.to_nat _) with (String.length p) by lia.
    rewrite substring_length_app. apply String.eqb_refl.
Qed.

Lemma relativeIndex_0 len : 0 <= len -> relativeIndex len 0 = 0.
Proof. intros. unfold relativeIndex. simpl. lia. Qed.

Lemma relativeIndex_neg len n :
  0 < n -> relativeIndex len (- n) = Z.max (len - n) 0.
Proof.
  intros. unfold relativeIndex.
  destruct (- n <? 0) eqn:Hlt; [f_equal; lia | apply Z.ltb_ge in Hlt; lia].
Qed.

Lemma slice_0_neg_app p t :
  t <> "" -> slice (p +:+ t) 0 (- Z.of_nat (String.length t)) = p.
Proof.
  intros Ht. unfold slice.
  assert (0 < String.length t)%nat by (destruct t; simpl; [done | lia]).
  rewrite relativeIndex_0, relativeIndex_neg by lia.
  rewrite string_length_app.
  replace (Z.to_nat (Z.max _ 0)) with (String.length p) by lia.
  apply substring_0_app.
Qed.

Lemma slice_0_neg_0 s : slice s 0 (- 0) = "".
Proof.
  unfold slice. simpl (- 0). rewrite relativeIndex_0 by lia.
  simpl. by destruct s.
Qed.

Lemma toLowerCase_app a b : toLowerCase (a +:+ b) = toLowerCase a +:+ toLowerCase b.
Proof. induction a as [|c a IH]; sapp; [done | by rewrite IH]. Qed.

Lemma lowerChar_colon c : lowerChar c = ":"%char <-> c = ":"%char.
Proof.
  split; [|by intros ->].
  unfold lowerChar. destruct (isUpper c) eqn:Hu; [|done].
  unfold isUpper in Hu. apply andb_prop in Hu as [H1%Nat.leb_le H2%Nat.leb_le].
  intros H. apply (f_equal nat_of_ascii) in H.
  rewrite nat_ascii_embedding in H by lia.
  change (nat_of_ascii ":") with 58%nat in H. lia.
Qed.

Lemma index_colon_cons c s :
  index 0 ":" (String c s) =
  if decide (c = ":"%char) then Some 0%nat
  else S <$> index 0 ":" s.
Proof.
  change (index 0 ":" (String c s))
    with (if (if ascii_dec ":" c then String.prefix "" s else false)
          then Some 0%nat
          else match index 0 ":" s with
               | Some n => Some (S n)
               | None => None
               end).
  destruct (ascii_dec ":" c) as [<-|Hne].
  - rewrite decide_True by done. by destruct s.
  - rewrite decide_False by done. by destruct (index 0 ":" s).
Qed.

Lemma includes_colon_toLowerCase s :
  includes (toLowerCase s) ":" = includes s ":".
Proof.
  unfold includes. induction s as [|c s IH]; [done|].
  cbn [toLowerCase]. rewrite !index_colon_cons.
  destruct (decide (c = ":"%char)) as [->|Hne].
  - by rewrite decide_True.
  - rewrite decide_False by (by rewrite lowerChar_colon).
    destruct (index 0 ":" (toLowerCase s)), (index 0 ":" s); done.
Qed.

Lemma index_colon_app h p :
  includes h ":" = false ->
  index 0 ":" (h +:+ ":" +:+ p) = Some (String.length h).
Proof.
  unfold includes. induction h as [|c h IH]; intros Hh.
  - by destruct p.
  - rewrite string_app_cons. rewrite index_colon_cons in *.
    destruct (decide (c = ":"%char)); [done|].
    destruct (index 0 ":" h) eqn:Hi; [done|].
    by rewrite IH.
Qed.

Lemma split_0_colon_app h p :
  includes h ":" = false -> split_0 (h +:+ ":" +:+ p) ":" = h.
Proof.
  intros Hh. unfold split_0. rewrite index_colon_app by done.
  apply substring_0_app.
Qed.

End StringFacts.

(** ** The server *)

Section ServerFacts.
Import Js Protocol Server Observe.


Lemma extractSubdomain_Some host base sub :
  extractSubdomain host base = Some sub ->
  host = sub +:+ "." +:+ base /\ isValidSubdomain sub = true.
Proof.
  unfold extractSubdomain.
  destruct (endsWith host base) eqn:Hb; simpl; [|done].
  apply endsWith_true in Hb as [p ->].
  destruct (decide (base = "")) as [->|Hne].
  - simpl String.length. rewrite slice_0_neg_0. done.
  - rewrite slice_0_neg_app by done.
    destruct (endsWith p ".") eqn:Hp; simpl; [|done].
    apply endsWith_true in Hp as [q ->].
    change (-1) with (- Z.of_nat (String.length ".")).
    rewrite slice_0_neg_app by done.
    destruct (isValidSubdomain q) eqn:Hq; simpl; [|done].
    intros [= <-]. by rewrite string_app_assoc.
Qed.

Lemma extractSubdomain_complete base sub :
  base <> "" -> isValidSubdomain sub = true ->
  extractSubdomain (sub +:+ "." +:+ base) base = Some sub.
Proof.
  intros Hne Hv. unfold extractSubdomain.
  rewrite <- string_app_assoc.
  rewrite (proj2 (endsWith_true _ _)) by eauto. simpl.
  rewrite slice_0_neg_app by done.
  rewrite (proj2 (endsWith_true _ _)) by eauto. simpl.
  change (-1) with (- Z.of_nat (String.length ".")).
  rewrite slice_0_neg_app by done.
  by rewrite Hv.
Qed.

Lemma DOMAIN_BASE_nonempty e : DOMAIN_BASE e <> "".
Proof. by destruct e as [[|c s]|]. Qed.

Lemma isValidSubdomain_length s :
  isValidSubdomain s = true -> (3 <= String.length s <= 63)%nat.
Proof.
  unfold isValidSubdomain, SUBDOMAIN_REGEX_test.
  intros [_ [H1 H2]%andb_prop]%andb_prop.
  apply Nat.leb_le in H1, H2. lia.
Qed.

Lemma truthy_valid s : isValidSubdomain s = true -> truthy (Some s) = Some s.
Proof. intros H%isValidSubdomain_length. destruct s; simpl in *; [lia | done]. Qed.

(** The host the server routes by is the lower-cased [Host] header up to
    its first colon. *)
Lemma requestHost_no_port req h :
  headers_host req = Some h -> includes h ":" = false ->
  requestHost req = toLowerCase h.
Proof.
  intros Hh Hc. unfold requestHost. rewrite Hh.
  destruct h as [|c h]; [done|]. cbn [orString].
  by rewrite includes_colon_toLowerCase, Hc.
Qed.

Lemma requestHost_port req h port :
  headers_host req = Some (h +:+ ":" +:+ port) -> includes h ":" = false ->
  requestHost req = toLowerCase h.
Proof.
  intros Hh Hc. unfold requestHost. rewrite Hh.
  assert (orString (Some (h +:+ ":" +:+ port)) "" = h +:+ ":" +:+ port) as ->.
  { by destruct h. }
  rewrite !toLowerCase_app. change (toLowerCase ":") with ":".
  assert (includes (toLowerCase h +:+ ":" +:+ toLowerCase port) ":" = true) as ->.
  { unfold includes. by rewrite index_colon_app by (by rewrite includes_colon_toLowerCase). }
  apply split_0_colon_app. by rewrite includes_colon_toLowerCase.
Qed.

Section Routing.
Variable env : option string.

Lemma route_NotFound st req :
  (forall label, requestHost req = label +:+ "." +:+ DOMAIN_BASE env ->
                 isValidSubdomain label = false) ->
  route env st req = NotFound.
Proof.
  intros H. unfold route.
  destruct (extractSubdomain _ _) as [sub|] eqn:He; [|done].
  apply extractSubdomain_Some in He as [Hhost Hv].
  apply H in Hhost. congruence.
Qed.

Lemma route_NotConnected st req sub :
  requestHost req = sub +:+ "." +:+ DOMAIN_BASE env ->
  isValidSubdomain sub = true ->
  tunnels st !! sub = None ->
  route env st req = NotConnected.
Proof.
  intros Hhost Hv Hreg. unfold route. rewrite Hhost.
  rewrite extractSubdomain_complete by auto using DOMAIN_BASE_nonempty.
  rewrite truthy_valid by done.
  unfold tunnels_get. by rewrite Hreg.
Qed.

(** C7. The public handler routes by the lower-cased [Host] header with
    any [:port] removed.  When that host is the base domain, or does not
    end with [.<base>], or the label in front of [.<base>] does not match
    the subdomain regex, the reply is 404; when the label is valid but not
    in the registry, the reply is 502 with body
    [{"error":"Tunnel not connected"}]. *)
Theorem C7_public_routing st req :
  (forall h, headers_host req = Some h -> includes h ":" = false ->
             requestHost req = toLowerCase h)
  /\ (forall h port,
        headers_host req = Some (h +:+ ":" +:+ port) ->
        includes h ":" = false ->
        requestHost req = toLowerCase h)
  /\ (requestHost req = DOMAIN_BASE env
      \/ (forall label, requestHost req <> label +:+ "." +:+ DOMAIN_BASE env)
      \/ (exists label, requestHost req = label +:+ "." +:+ DOMAIN_BASE env
                        /\ isValidSubdomain label = false) ->
      step env st (PublicRequest req) =
        (set_requests (S (requests st)) st,
         [ReplySend (requests st) 404 {| error := "Not Found" |}]))
  /\ (forall sub,
        requestHost req = sub +:+ "." +:+ DOMAIN_BASE env ->
        isValidSubdomain sub = true ->
        tunnels st !! sub = None ->
        step env st (PublicRequest req) =
          (set_requests (S (requests st)) st,
           [ReplySend (requests st) 502 {| error := "Tunnel not connected" |}])).
Proof.
  split_and!.
  - apply requestHost_no_port.
  - apply requestHost_port.
  - intros H. cbn [step]. unfold onRequest.
    rewrite route_NotFound; [done|].
    intros label Hl. destruct H as [H|[H|(l' & H & Hv)]].
    + rewrite H in Hl. apply (f_equal String.length) in Hl.
      rewrite !string_length_app in Hl. simpl in Hl. lia.
    + by destruct (H label).
    + rewrite H in Hl. rewrite <- !string_app_assoc in Hl.
      do 2 apply string_app_inv_tail in Hl. by subst.
  - intros sub Hhost Hv Hreg. cbn [step]. unfold onRequest.
    by rewrite (route_NotConnected _ _ sub).
Qed.

End Routing.

Lemma normalizeHeaders_lookup (h : gmap string string) k :
  normalizeHeaders h !! k =
  if isHopByHop (toLowerCase k) then None else h !! k.
Proof.
  unfold normalizeHeaders.
  apply (map_fold_weak_ind
           (fun out (m : gmap string string) =>
              out !! k = if isHopByHop (toLowerCase k) then None else m !! k)).
  - rewrite lookup_empty. by destruct (isHopByHop _).
  - intros i x m out Hi IH. cbv zeta.
    destruct (decide (i = k)) as [->|Hne].
    + destruct (isHopByHop (toLowerCase k)); [by rewrite IH|].
      by rewrite !lookup_insert_eq.
    + rewrite (lookup_insert_ne m) by done.
      destruct (isHopByHop (toLowerCase i)); [done|].
      by rewrite lookup_insert_ne.
Qed.

Lemma stringHeaders_lookup (h : gmap string HeaderValue) k :
  stringHeaders h !! k =
  match h !! k with
  | Some (HString s) => Some s
  | _ => None
  end.
Proof.
  unfold stringHeaders.
  apply (map_fold_weak_ind
           (fun out (m : gmap string HeaderValue) =>
              out !! k = match m !! k with
                         | Some (HString s) => Some s
                         | _ => None
                         end)).
  - by rewrite !lookup_empty.
  - intros i x m out Hi IH.
    destruct (decide (i = k)) as [->|Hne].
    + rewrite lookup_insert_eq. destruct x.
      * by rewrite lookup_insert_eq.
      * rewrite IH. by rewrite Hi.
    + rewrite (lookup_insert_ne m) by done.
      destruct x; [by rewrite lookup_insert_ne | done].
Qed.

(** Which actions a step can produce, by handler. *)
Lemma onMessage_RawWriteHead st socket s data random36 now r status hs :
  RawWriteHead r status hs ∈ (onMessage st socket s data random36 now).2 ->
  exists msg, data = Some msg /\ P.t msg = P.FrameType.RESP_START
    /\ hs = normalizeHeaders (default ∅ (P.headers msg)).
Proof.
  unfold onMessage. destruct data as [msg|]; [|by intros ?%elem_of_nil].
  destruct (P.t msg =? _) eqn:H1; [by intros ?%elem_of_nil|].
  destruct (P.t msg =? P.FrameType.REGISTER_TUNNEL) eqn:H2.
  { unfold onRegisterTunnel. case_match; simpl; intros Hin;
      apply list_elem_of_singleton in Hin; done. }
  destruct (P.t msg =? P.FrameType.RESP_START) eqn:H3.
  { apply Z.eqb_eq in H3. unfold onRespStart.
    repeat case_match; simpl; intros Hin;
      try (by apply elem_of_nil in Hin).
    apply list_elem_of_singleton in Hin. injection Hin as -> -> ->. eauto. }
  destruct (P.t msg =? P.FrameType.RESP_DATA) eqn:H4.
  { unfold onRespData. repeat case_match; simpl; intros Hin;
      try (by apply elem_of_nil in Hin).
    by apply list_elem_of_singleton in Hin. }
  destruct (P.t msg =? P.FrameType.END) eqn:H5.
  { unfold onEnd. repeat case_match; simpl; intros Hin;
      try (by apply elem_of_nil in Hin).
    by apply list_elem_of_singleton in Hin. }
  by intros ?%elem_of_nil.
Qed.

Lemma step_RawWriteHead env st ev r status hs :
  RawWriteHead r status hs ∈ (step env st ev).2 ->
  exists socket msg random36 now,
    ev = Message socket (Some msg) random36 now
    /\ P.t msg = P.FrameType.RESP_START
    /\ hs = normalizeHeaders (default ∅ (P.headers msg)).
Proof.
  destruct ev as [r36|socket data r36 now|socket|req|rq chunk|rq|h]; cbn [step].
  - by intros ?%elem_of_nil.
  - unfold onSocket. repeat case_match; try (by intros ?%elem_of_nil).
    intros (msg & -> & ? & ?)%onMessage_RawWriteHead. eauto 10.
  - unfold onSocket, onClose. repeat case_match; by intros ?%elem_of_nil.
  - unfold onRequest. repeat case_match; simpl; intros Hin;
      repeat (apply elem_of_cons in Hin as [Hin|Hin]; [done|]);
      by apply elem_of_nil in Hin.
  - unfold onBodyChunk. repeat case_match; simpl; intros Hin;
      repeat (apply elem_of_cons in Hin as [Hin|Hin]; [done|]);
      by apply elem_of_nil in Hin.
  - unfold onBodyEnd. repeat case_match; simpl; intros Hin;
      repeat (apply elem_of_cons in Hin as [Hin|Hin]; [done|]);
      by apply elem_of_nil in Hin.
  - unfold onTimeout. repeat case_match; simpl; intros Hin;
      repeat (apply elem_of_cons in Hin as [Hin|Hin]; [done|]);
      by apply elem_of_nil in Hin.
Qed.

(** C6. Whenever the server writes a response head, it is for a
    RESP_START frame, and the header set written contains no key that
    lower-cases to [transfer-encoding], [connection] or [keep-alive];
    every other key of the frame's header map is written with the same
    spelling and value. *)
Theorem C6_hop_by_hop_stripped env st ev r status hs :
  RawWriteHead r status hs ∈ (step env st ev).2 ->
  exists socket msg random36 now,
    ev = Message socket (Some msg) random36 now
    /\ P.t msg = P.FrameType.RESP_START
    /\ forall k,
         (toLowerCase k ∈ hopByHop -> hs !! k = None)
         /\ (toLowerCase k ∉ hopByHop ->
             hs !! k = default ∅ (P.headers msg) !! k).
Proof.
  intros (socket & msg & r36 & now & -> & Ht & ->)%step_RawWriteHead.
  exists socket, msg, r36, now. split_and!; [done..|].
  intros k. rewrite normalizeHeaders_lookup. unfold isHopByHop.
  split; intros Hk.
  - by rewrite bool_decide_eq_true_2.
  - by rewrite bool_decide_eq_false_2.
Qed.

Lemma nextId_alter_streams st a' a (g : TunnelInfo -> gmap Z StreamEntry) :
  nextId (update_info a' (fun i => set_streams (g i) i) st) a = nextId st a.
Proof.
  unfold nextId, update_info. cbn [heap set_heap].
  destruct (decide (a' = a)) as [->|Hne].
  - rewrite list_lookup_alter_eq. by destruct (heap st !! a).
  - by rewrite list_lookup_alter_ne.
Qed.

Lemma route_Tunnel env st req a info :
  route env st req = Tunnel a info -> heap st !! a = Some info.
Proof.
  unfold route, tunnels_get. repeat case_match; try done.
  intros [= <- <-]. simplify_option_eq. done.
Qed.

Lemma nextId_alloc st a (info : TunnelInfo) (f : State -> State) :
  nextStreamId info = 1 ->
  heap (f (set_heap (heap st ++ [info]) st)) = (heap st ++ [info])%list ->
  nextId (f (set_heap (heap st ++ [info]) st)) a = nextId st a.
Proof.
  intros Hn Hf. unfold nextId. rewrite Hf.
  destruct (heap st !! a) eqn:Ha.
  - by rewrite (lookup_app_l_Some _ _ _ _ Ha).
  - apply lookup_ge_None_1 in Ha.
    destruct (decide (a = length (heap st))) as [->|Hne].
    + rewrite lookup_app_r by lia. by rewrite Nat.sub_diag.
    + rewrite lookup_ge_None_2; [done|]. rewrite length_app. simpl. lia.
Qed.

Lemma onRegisterTunnel_nextId st socket s msg r36 now a :
  nextId (onRegisterTunnel st socket s msg r36 now).1 a = nextId st a.
Proof.
  unfold onRegisterTunnel. case_match; [done|]. cbn [fst].
  by apply (nextId_alloc st a _ (fun x => set_sockets _ (set_tunnels _ x))).
Qed.

Lemma onMessage_nextId st socket s data r36 now a :
  nextId (onMessage st socket s data r36 now).1 a = nextId st a.
Proof.
  unfold onMessage. destruct data as [msg|]; [|done].
  repeat case_match; try done.
  - apply onRegisterTunnel_nextId.
  - unfold onRespStart. repeat case_match; cbn [fst]; try done.
    by rewrite nextId_alter_streams.
  - unfold onRespData. by repeat case_match.
  - unfold onEnd. repeat case_match; cbn [fst]; try done.
    by rewrite nextId_alter_streams.
Qed.

Lemma openedStreamIds_onRequest env st req a info :
  route env st req = Tunnel a info ->
  openedStreamIds (onRequest env st req).2 = [nextStreamId info]
  /\ nextId (onRequest env st req).1 a = increment (nextStreamId info)
  /\ forall a', a' <> a -> nextId (onRequest env st req).1 a' = nextId st a'.
Proof.
  intros Hr. pose proof (route_Tunnel _ _ _ _ _ Hr) as Ha.
  unfold onRequest.
  change (route env (set_requests (S (requests st)) st) req)
    with (route env st req). rewrite Hr.
  assert (forall st0 a',
    nextId (update_info a (fun i => set_streams
              (<[nextStreamId info := {| reply := requests st;
                                         timeout := requests st;
                                         headersSent := false |}]> (streams i)) i)
              st0) a' = nextId st0 a') as Hs.
  { intros. apply (nextId_alter_streams _ _ _ (fun i => <[_ := _]> (streams i))). }
  case_match; cbn [fst snd]; (split; [done|]).
  all: unfold nextId in *; cbn [heap update_info set_heap set_timers set_uploads set_requests] in *.
  all: split; [| intros a' Hne ].
  all: rewrite ?list_lookup_alter_eq, ?list_lookup_alter_ne by done.
  all: rewrite ?Ha; try done.
  all: rewrite !list_lookup_alter_ne by done; done.
Qed.

Lemma step_nextId env st ev a :
  match allocation env st ev a with
  | [] => nextId (step env st ev).1 a = nextId st a
  | [streamId] =>
    streamId = nextId st a
    /\ nextId (step env st ev).1 a = increment streamId
  | _ => False
  end.
Proof.
  destruct ev as [r36|socket data r36 now|socket|req|rq chunk|rq|h];
    cbn [allocation step].
  - done.
  - unfold onSocket. repeat case_match; try done. apply onMessage_nextId.
  - unfold onSocket, onClose. by repeat case_match.
  - destruct (route env st req) as [| |a' info] eqn:Hr.
    + unfold onRequest.
      change (route env (set_requests (S (requests st)) st) req)
        with (route env st req). by rewrite Hr.
    + unfold onRequest.
      change (route env (set_requests (S (requests st)) st) req)
        with (route env st req). by rewrite Hr.
    + destruct (openedStreamIds_onRequest _ _ _ _ _ Hr) as (Ho & Hn & Hother).
      destruct (decide (a' = a)) as [<-|Hne].
      * rewrite Ho. split; [|done].
        unfold nextId. by rewrite (route_Tunnel _ _ _ _ _ Hr).
      * by apply Hother.
  - unfold onBodyChunk. by repeat case_match.
  - unfold onBodyEnd. by repeat case_match.
  - unfold onTimeout. repeat case_match; cbn [fst]; try done.
    by rewrite nextId_alter_streams.
Qed.

Lemma run_cons env st ev evs :
  run env st (ev :: evs) =
  ((run env (step env st ev).1 evs).1,
   ((step env st ev).2 ++ (run env (step env st ev).1 evs).2)%list).
Proof.
  cbn [run]. destruct (step env st ev) as [st1 out1]. cbn [fst snd].
  by destruct (run env st1 evs) as [st2 out2].
Qed.

Lemma increment_below n : n < TWO_53 -> increment n = n + 1.
Proof. intros H. unfold increment. by rewrite (proj2 (Z.ltb_lt _ _) H). Qed.

Lemma allocations_contiguous env evs : forall st a,
  nextId st a + Z.of_nat (length (allocations env st evs a)) <= TWO_53 ->
  let ids := allocations env st evs a in
  ids = (fun i => nextId st a + Z.of_nat i) <$> seq 0 (length ids)
  /\ nextId (run env st evs).1 a = nextId st a + Z.of_nat (length ids).
Proof.
  induction evs as [|ev evs IH]; intros st a Hb ids; subst ids.
  - cbn. split; [done | lia].
  - rewrite run_cons. cbn [allocations fst] in *.
    pose proof (step_nextId env st ev a) as Hstep.
    destruct (allocation env st ev a) as [|streamId [|? ?]]; [| |done].
    + cbn [app] in *. destruct (IH (step env st ev).1 a) as (Hids & Hn).
      { rewrite Hstep. lia. }
      rewrite Hstep in Hids, Hn. done.
    + destruct Hstep as [-> Hstep]. cbn [app length] in *.
      rewrite increment_below in Hstep by lia.
      destruct (IH (step env st ev).1 a) as (Hids & Hn).
      { rewrite Hstep. lia. }
      rewrite Hstep in Hids, Hn. split; [|lia].
      cbn [seq fmap list_fmap]. f_equal; [lia|].
      rewrite Hids at 1. rewrite <- fmap_S_seq, <- list_fmap_compose.
      apply list_fmap_ext. intros ? i ?. simpl. lia.
Qed.

(** C8. In any run of the server from its initial state, the stream ids
    allocated on a tunnel are 1, 2, ..., n in that order and the tunnel's
    [nextStreamId] is then n + 1, as long as n is below [2^53], the range
    in which a JavaScript number counts exactly. *)
Theorem C8_stream_ids_contiguous env evs a :
  let ids := allocations env init evs a in
  Z.of_nat (length ids) < TWO_53 ->
  ids = Z.of_nat <$> seq 1 (length ids)
  /\ forall info,
       heap (run env init evs).1 !! a = Some info ->
       nextStreamId info = 1 + Z.of_nat (length ids).
Proof.
  intros ids Hb. subst ids.
  destruct (allocations_contiguous env evs init a) as (Hids & Hn).
  { change (nextId init a) with 1. lia. }
  change (nextId init a) with 1 in *. split.
  - rewrite Hids at 1. rewrite <- fmap_S_seq, <- list_fmap_compose.
    apply list_fmap_ext. intros ? i ?. simpl. lia.
  - intros info Ha. unfold nextId in Hn. by rewrite Ha in Hn.
Qed.

Lemma lookup_update_info st a f a1 info1 :
  heap (update_info a f st) !! a1 = Some info1 ->
  (a1 <> a /\ heap st !! a1 = Some info1)
  \/ (a1 = a /\ exists info0, heap st !! a = Some info0 /\ info1 = f info0).
Proof.
  unfold update_info. cbn [heap set_heap].
  destruct (decide (a = a1)) as [->|Hne].
  - rewrite list_lookup_alter_eq. destruct (heap st !! a1) eqn:H; [|done].
    intros [= <-]. right. eauto.
  - rewrite list_lookup_alter_ne by done. auto.
Qed.

Lemma streams_get_Some info msg streamId entry :
  streams_get info msg = Some (streamId, entry) ->
  P.streamId msg = Some streamId /\ streams info !! streamId = Some entry.
Proof.
  unfold streams_get. intros H. simplify_option_eq. done.
Qed.

Lemma socketInfo_Some st s a info :
  socketInfo st s = Some (a, info) -> heap st !! a = Some info.
Proof.
  unfold socketInfo, tunnels_get. intros H. simplify_option_eq. done.
Qed.

(** Two entries whose timers coincide are the same entry. *)
Lemma timers_consistent_inj st a1 info1 s1 e1 a2 info2 s2 e2 :
  timers_consistent st ->
  heap st !! a1 = Some info1 -> streams info1 !! s1 = Some e1 ->
  heap st !! a2 = Some info2 -> streams info2 !! s2 = Some e2 ->
  timeout e1 = timeout e2 -> a1 = a2 /\ s1 = s2.
Proof.
  intros [I1 _] H1 H1' H2 H2' Heq.
  destruct (I1 _ _ _ _ H1 H1') as (_ & tm1 & Ht1 & <- & <-).
  destruct (I1 _ _ _ _ H2 H2') as (_ & tm2 & Ht2 & <- & <-).
  rewrite Heq in Ht1. by simplify_eq.
Qed.

Lemma timers_consistent_init : timers_consistent init.
Proof. split; intros *; cbn; [by rewrite lookup_nil | by rewrite lookup_empty]. Qed.

Lemma onRegisterTunnel_consistent st socket s msg r36 now :
  timers_consistent st ->
  timers_consistent (onRegisterTunnel st socket s msg r36 now).1.
Proof.
  intros [I1 I2]. unfold onRegisterTunnel. case_match; [done|].
  split; cbn; [|done].
  intros a info sid e Ha He.
  apply lookup_app_Some in Ha as [Ha|[_ Ha]]; [by eapply I1|].
  apply list_lookup_singleton_Some in Ha as [_ <-]. cbn in He.
  by rewrite lookup_empty in He.
Qed.

Lemma onRespStart_consistent st s msg :
  timers_consistent st -> timers_consistent (onRespStart st s msg).1.
Proof.
  intros [I1 I2]. unfold onRespStart.
  destruct (socketInfo st s) as [[a info]|] eqn:Hs; [|done].
  destruct (streams_get info msg) as [[sid entry]|] eqn:Hg; [|done].
  destruct (headersSent entry); [done|]. cbn [fst].
  split; [|done].
  intros a1 info1 sid1 e1 Ha1 He1.
  change (timers (update_info _ _ st)) with (timers st).
  apply lookup_update_info in Ha1 as [[_ Ha1]|(-> & info0 & Ha0 & ->)];
    [by eapply I1|].
  cbn [streams set_streams] in He1.
  destruct (decide (sid = sid1)) as [->|Hne].
  - rewrite lookup_alter_eq in He1.
    destruct (streams info0 !! sid1) as [e0|] eqn:He0; [|done].
    injection He1 as <-. by apply (I1 _ _ _ _ Ha0 He0).
  - rewrite lookup_alter_ne in He1 by done. by eapply I1.
Qed.

(** Dropping an entry together with the timer it points at. *)
Lemma drop_entry_consistent st a sid handle :
  timers_consistent st ->
  (forall tm, timers st !! handle = Some tm ->
              timer_info tm = a /\ timer_streamId tm = sid) ->
  timers_consistent
    (update_info a (fun i => set_streams (delete sid (streams i)) i)
       (set_timers (delete handle (timers st)) st)).
Proof.
  intros [I1 I2] Htimer. split.
  - intros a1 info1 sid1 e1 Ha1 He1.
    change (timers (update_info _ _ _)) with (delete handle (timers st)).
    assert (exists info0, heap st !! a1 = Some info0
                          /\ streams info0 !! sid1 = Some e1
                          /\ (a1, sid1) <> (a, sid)) as (info0 & Ha0 & He0 & Hne).
    { apply lookup_update_info in Ha1 as [[Hne Ha1]|(-> & info0 & Ha0 & ->)].
      - exists info1. split_and!; [done..|congruence].
      - cbn [streams set_streams] in He1.
        apply lookup_delete_Some in He1 as [Hne He1].
        exists info0. split_and!; [done..|congruence]. }
    destruct (I1 _ _ _ _ Ha0 He0) as (Hr & tm & Htm & Hta & Hts).
    split; [done|]. exists tm. split_and!; [|done..].
    rewrite lookup_delete_ne; [done|]. intros ->.
    destruct (Htimer _ Htm). congruence.
  - intros h tm Hh. change (timers (update_info _ _ _))
      with (delete handle (timers st)) in Hh.
    apply lookup_delete_Some in Hh as [_ Hh]. by apply I2.
Qed.

Lemma onEnd_consistent st s msg :
  timers_consistent st -> timers_consistent (onEnd st s msg).1.
Proof.
  intros I. unfold onEnd.
  destruct (socketInfo st s) as [[a info]|] eqn:Hs; [|done].
  destruct (streams_get info msg) as [[sid entry]|] eqn:Hg; [|done].
  case_match; [|done]. cbn [fst].
  apply socketInfo_Some in Hs. apply streams_get_Some in Hg as [_ Hg].
  apply drop_entry_consistent; [done|].
  intros tm Htm. destruct I as [I1 _].
  destruct (I1 _ _ _ _ Hs Hg) as (_ & tm' & Htm' & ? & ?). by simplify_eq.
Qed.

Lemma onTimeout_consistent st handle :
  timers_consistent st -> timers_consistent (onTimeout st handle).1.
Proof.
  intros I. unfold onTimeout.
  destruct (timers st !! handle) as [tm|] eqn:Htm; [|done]. cbn [fst].
  apply drop_entry_consistent; [done|].
  intros tm' Htm'. by simplify_eq.
Qed.

Lemma onRequest_consistent env st req :
  timers_consistent st -> timers_consistent (onRequest env st req).1.
Proof.
  intros [I1 I2]. unfold onRequest.
  change (route env (set_requests (S (requests st)) st) req)
    with (route env st req).
  assert (timers_consistent (set_requests (S (requests st)) st)) as I'.
  { split; [done|]. intros h tm Htm. cbn. destruct (I2 _ _ Htm) as (?&?&?).
    split_and!; [lia|done..]. }
  destruct (route env st req) as [| |a info] eqn:Hr; [done..|].
  apply route_Tunnel in Hr.
  set (r := requests st). set (sid := nextStreamId info).
  match goal with
  | |- timers_consistent (if _ then (set_uploads _ ?s, _) else _).1 =>
    assert (timers_consistent s) as I''
  end.
  { split.
    - intros a1 info1 sid1 e1 Ha1 He1.
      change (timers (update_info _ _ _))
        with (<[r := {| timer_info := a; timer_streamId := sid;
                        timer_reply := r; delay := 30000 |}]> (timers st)).
      apply lookup_update_info in Ha1 as [[Hne Ha1]|(-> & info0 & Ha0 & ->)].
      + apply lookup_update_info in Ha1 as [[_ Ha1]|[? _]]; [|done].
        destruct (I1 _ _ _ _ Ha1 He1) as (Hrp & tm & Htm & Hta & Hts).
        split; [done|]. exists tm. split_and!; [|done..].
        rewrite lookup_insert_ne; [done|]. intros Heq.
        destruct (I2 _ _ Htm). subst r. lia.
      + apply lookup_update_info in Ha0 as [[? _]|(_ & info' & Ha' & ->)]; [done|].
        cbn [streams set_streams set_nextStreamId] in He1.
        destruct (decide (sid = sid1)) as [<-|Hne].
        * rewrite lookup_insert_eq in He1. injection He1 as <-. cbn.
          split; [done|]. eexists. rewrite lookup_insert_eq. done.
        * rewrite lookup_insert_ne in He1 by done.
          destruct (I1 _ _ _ _ Ha' He1) as (Hrp & tm & Htm & Hta & Hts).
          split; [done|]. exists tm. split_and!; [|done..].
          rewrite lookup_insert_ne; [done|]. intros Heq.
          destruct (I2 _ _ Htm). subst r. lia.
    - intros h tm Htm.
      change (timers (update_info _ _ _))
        with (<[r := {| timer_info := a; timer_streamId := sid;
                        timer_reply := r; delay := 30000 |}]> (timers st)) in Htm.
      change (requests (update_info _ _ _)) with (S r).
      apply lookup_insert_Some in Htm as [[<- <-]|[_ Htm]].
      + cbn. split_and!; [lia|done..].
      + destruct (I2 _ _ Htm) as (?&?&?). subst r. split_and!; [lia|done..]. }
  by case_match.
Qed.

Lemma step_consistent env st ev :
  timers_consistent st -> timers_consistent (step env st ev).1.
Proof.
  intros I.
  destruct ev as [r36|socket data r36 now|socket|req|rq chunk|rq|h];
    cbn [step].
  - done.
  - unfold onSocket. repeat case_match; try done.
    unfold onMessage. repeat case_match; try done.
    + by apply onRegisterTunnel_consistent.
    + by apply onRespStart_consistent.
    + unfold onRespData. by repeat case_match.
    + by apply onEnd_consistent.
  - unfold onSocket, onClose. by repeat case_match.
  - by apply onRequest_consistent.
  - unfold onBodyChunk. by repeat case_match.
  - unfold onBodyEnd. by repeat case_match.
  - by apply onTimeout_consistent.
Qed.

Lemma run_consistent env evs : forall st,
  timers_consistent st -> timers_consistent (run env st evs).1.
Proof.
  induction evs as [|ev evs IH]; intros st I; [done|].
  rewrite run_cons. cbn [fst]. by apply IH, step_consistent.
Qed.

(** The reply of an entry in the stream map is not that of a disarmed
    request. *)
Lemma entry_not_disarmed st r a info sid e :
  timers_consistent st -> disarmed st r ->
  heap st !! a = Some info -> streams info !! sid = Some e ->
  reply e <> r.
Proof.
  intros [I1 _] [_ Hr] Ha He.
  destruct (I1 _ _ _ _ Ha He) as (-> & tm & Htm & _). congruence.
Qed.

Ltac in_singleton H :=
  first [ by apply elem_of_nil in H
        | apply list_elem_of_singleton in H; subst ].

Lemma onMessage_disarmed st socket s data r36 now r :
  timers_consistent st -> disarmed st r ->
  disarmed (onMessage st socket s data r36 now).1 r
  /\ forall act, act ∈ (onMessage st socket s data r36 now).2 ->
                 publicCall act <> Some r.
Proof.
  intros I D. unfold onMessage. destruct data as [msg|].
  2:{ split; [done|]. by intros act ?%elem_of_nil. }
  repeat case_match.
  - split; [done|]. by intros act ?%elem_of_nil.
  - unfold onRegisterTunnel. case_match; cbn [fst snd];
      (split; [done|]); intros act Hin; by in_singleton Hin.
  - unfold onRespStart.
    destruct (socketInfo st s) as [[a info]|] eqn:Hs;
      [|split; [done|]; by intros act ?%elem_of_nil].
    destruct (streams_get info msg) as [[sid entry]|] eqn:Hg;
      [|split; [done|]; by intros act ?%elem_of_nil].
    apply socketInfo_Some in Hs. apply streams_get_Some in Hg as [_ Hg].
    destruct (headersSent entry);
      [split; [done|]; by intros act ?%elem_of_nil|].
    cbn [fst snd]. split; [done|]. intros act Hin. in_singleton Hin.
    cbn. intros [=]. by eapply entry_not_disarmed.
  - unfold onRespData.
    destruct (socketInfo st s) as [[a info]|] eqn:Hs;
      [|split; [done|]; by intros act ?%elem_of_nil].
    destruct (streams_get info msg) as [[sid entry]|] eqn:Hg;
      [|split; [done|]; by intros act ?%elem_of_nil].
    apply socketInfo_Some in Hs. apply streams_get_Some in Hg as [_ Hg].
    destruct (P.chunk msg);
      [|split; [done|]; by intros act ?%elem_of_nil].
    cbn [fst snd]. split; [done|]. intros act Hin. in_singleton Hin.
    cbn. intros [=]. by eapply entry_not_disarmed.
  - unfold onEnd.
    destruct (socketInfo st s) as [[a info]|] eqn:Hs;
      [|split; [done|]; by intros act ?%elem_of_nil].
    destruct (streams_get info msg) as [[sid entry]|] eqn:Hg;
      [|split; [done|]; by intros act ?%elem_of_nil].
    apply socketInfo_Some in Hs. apply streams_get_Some in Hg as [_ Hg].
    case_match; [|split; [done|]; by intros act ?%elem_of_nil].
    cbn [fst snd]. split.
    + destruct D as [D1 D2]. split; [done|].
      change (timers (update_info _ _ _)) with (delete (timeout entry) (timers st)).
      apply lookup_delete_None. auto.
    + intros act Hin. in_singleton Hin.
      cbn. intros [=]. by eapply entry_not_disarmed.
  - split; [done|]. by intros act ?%elem_of_nil.
Qed.

Lemma step_disarmed env st ev r :
  timers_consistent st -> disarmed st r ->
  disarmed (step env st ev).1 r
  /\ forall act, act ∈ (step env st ev).2 -> publicCall act <> Some r.
Proof.
  intros I D.
  destruct ev as [r36|socket data r36 now|socket|req|rq chunk|rq|h];
    cbn [step].
  - split; [done|]. by intros act ?%elem_of_nil.
  - unfold onSocket. repeat case_match;
      try (split; [done|]; by intros act ?%elem_of_nil).
    by apply onMessage_disarmed.
  - unfold onSocket, onClose. repeat case_match;
      split; try done; by intros act ?%elem_of_nil.
  - unfold onRequest.
    change (route env (set_requests (S (requests st)) st) req)
      with (route env st req).
    destruct D as [D1 D2].
    destruct (route env st req) as [| |a info]; cbn [fst snd].
    + split; [split; cbn; [lia|done]|].
      intros act Hin. in_singleton Hin. cbn. intros [=]. lia.
    + split; [split; cbn; [lia|done]|].
      intros act Hin. in_singleton Hin. cbn. intros [=]. lia.
    + case_match; cbn [fst snd]; split.
      * split; cbn; [lia|]. rewrite lookup_insert_ne; [done|lia].
      * intros act Hin.
        repeat (apply elem_of_cons in Hin as [->|Hin]; [cbn; try done; intros [=]; lia|]).
        by apply elem_of_nil in Hin.
      * split; cbn; [lia|]. rewrite lookup_insert_ne; [done|lia].
      * intros act Hin.
        repeat (apply elem_of_cons in Hin as [->|Hin]; [cbn; try done; intros [=]; lia|]).
        by apply elem_of_nil in Hin.
  - unfold onBodyChunk. repeat case_match; cbn [fst snd];
      (split; [done|]); intros act Hin; by in_singleton Hin.
  - unfold onBodyEnd. repeat case_match; cbn [fst snd];
      (split; [done|]); intros act Hin; by in_singleton Hin.
  - unfold onTimeout.
    destruct (timers st !! h) as [tm|] eqn:Htm;
      [|split; [done|]; by intros act ?%elem_of_nil].
    cbn [fst snd]. destruct D as [D1 D2]. split.
    + split; [done|].
      change (timers (update_info _ _ _)) with (delete h (timers st)).
      apply lookup_delete_None. auto.
    + intros act Hin. in_singleton Hin. cbn. intros [=].
      destruct I as [_ I2]. destruct (I2 _ _ Htm) as (_ & ? & _). congruence.
Qed.

Lemma run_disarmed env evs : forall st r,
  timers_consistent st -> disarmed st r ->
  forall act, act ∈ (run env st evs).2 -> publicCall act <> Some r.
Proof.
  induction evs as [|ev evs IH]; intros st r I D act Hin.
  - by apply elem_of_nil in Hin.
  - rewrite run_cons in Hin. cbn [snd] in Hin.
    destruct (step_disarmed env st ev r I D) as [D' Hout].
    apply elem_of_app in Hin as [Hin|Hin]; [by apply Hout|].
    eapply IH; [| |done]; [by apply step_consistent | done].
Qed.

(** A timer that is armed after a step was armed before it, or the step
    hijacked the reply of its request. *)
Lemma step_timer_hijacked env st ev handle tm :
  timers (step env st ev).1 !! handle = Some tm ->
  timers st !! handle = Some tm \/ ReplyHijack handle ∈ (step env st ev).2.
Proof.
  destruct ev as [r36|socket data r36 now|socket|req|rq chunk|rq|h];
    cbn [step].
  - by left.
  - unfold onSocket. destruct (sockets st !! socket) as [s|]; [|by left].
    destruct (closed s); [by left|].
    unfold onMessage. destruct data as [msg|]; [|by left].
    repeat case_match; try by left.
    + unfold onRegisterTunnel. case_match; by left.
    + unfold onRespStart. repeat case_match; by left.
    + unfold onRespData. repeat case_match; by left.
    + unfold onEnd. repeat case_match; try by left.
      cbn. intros [_ Hd]%lookup_delete_Some. by left.
  - unfold onSocket, onClose. repeat case_match; by left.
  - unfold onRequest.
    change (route env (set_requests (S (requests st)) st) req)
      with (route env st req).
    destruct (route env st req) as [| |a info]; [by left..|].
    case_match; cbn; intros [[<- _]|[_ Hd]]%lookup_insert_Some;
      try (by left); right; apply list_elem_of_here.
  - unfold onBodyChunk. repeat case_match; by left.
  - unfold onBodyEnd. repeat case_match; by left.
  - unfold onTimeout. repeat case_match; try by left.
    cbn. intros [_ Hd]%lookup_delete_Some. by left.
Qed.

Lemma run_timer_hijacked env evs : forall st handle tm,
  timers (run env st evs).1 !! handle = Some tm ->
  timers st !! handle = Some tm \/ ReplyHijack handle ∈ (run env st evs).2.
Proof.
  induction evs as [|ev evs IH]; intros st handle tm H; [by left|].
  rewrite run_cons in *. cbn [fst snd] in *.
  apply IH in H as [H|H].
  - apply step_timer_hijacked in H as [H|H]; [by left|].
    right. apply elem_of_app. by left.
  - right. apply elem_of_app. by right.
Qed.

(** C4.  When the deadline of a request fires (its timer still armed, so
    END phase=res has not arrived), the reply of that request was hijacked
    earlier in the run; the timer is the 30 s one of that request, the
    stream is removed from the tunnel's stream map, and the only thing the
    server does is call [reply.code(504).send(...)] on that hijacked reply,
    whatever [headersSent] is: it makes no call on the raw response, so
    neither writes a head nor ends or destroys the connection; and no
    later event makes the server call that request's reply or raw response
    again. *)
Theorem C4_deadline env history handle tm evs :
  timers (run env init history).1 !! handle = Some tm ->
  let st := (run env init history).1 in
  let st' := (step env st (Timeout handle)).1 in
  handle = timer_reply tm
  /\ delay tm = 30000
  /\ ReplyHijack (timer_reply tm) ∈ (run env init history).2
  /\ (step env st (Timeout handle)).2 =
       [ReplySend (timer_reply tm) 504 {| error := "Upstream timeout" |}]
  /\ (forall info, heap st' !! timer_info tm = Some info ->
                   streams info !! timer_streamId tm = None)
  /\ timers st' !! handle = None
  /\ (forall act, act ∈ (run env st' evs).2 ->
                  publicCall act <> Some (timer_reply tm)).
Proof.
  intros Htm st st'. subst st st'.
  pose proof (run_timer_hijacked env history init handle tm Htm) as Hh.
  set (st := (run env init history).1) in *.
  assert (timers_consistent st) as I
    by apply run_consistent, timers_consistent_init.
  destruct (proj2 I _ _ Htm) as (Hlt & Hrep & Hdelay).
  cbn [step]. unfold onTimeout. rewrite Htm. cbn [fst snd].
  split_and!; [by rewrite Hrep | done | | done | | |].
  - rewrite Hrep. by destruct Hh as [Hh|Hh].
  - intros info Ha.
    apply lookup_update_info in Ha as [[? _]|(_ & info0 & _ & ->)]; [done|].
    cbn. apply lookup_delete_eq.
  - cbn. apply lookup_delete_eq.
  - apply run_disarmed.
    + apply (onTimeout_consistent st handle) in I.
      unfold onTimeout in I. by rewrite Htm in I.
    + rewrite Hrep. split; cbn; [done | apply lookup_delete_eq].
Qed.

(** C5, amended.  On control-channel close the server emits nothing,
    leaves every tunnel object (its stream map included) and every armed
    timer as they are, and only deletes the registry entry of the
    subdomain last assigned to that socket. *)
Theorem C5_control_close env st socket s :
  sockets st !! socket = Some s -> closed s = false ->
  let st' := (step env st (Close socket)).1 in
  (step env st (Close socket)).2 = []
  /\ heap st' = heap st
  /\ timers st' = timers st
  /\ tunnels st' =
       match truthy (assignedSubdomain s) with
       | Some sub => delete sub (tunnels st)
       | None => tunnels st
       end
  /\ (forall sub, assignedSubdomain s = Some sub -> sub <> "" ->
                  tunnels st' !! sub = None).
Proof.
  intros Hs Hc st'. subst st'. cbn [step]. unfold onSocket, onClose.
  rewrite Hs, Hc.
  destruct (assignedSubdomain s) as [[|c sub]|] eqn:Ha; cbn;
    split_and!; try done.
  all: intros sub' [= <-] Hne; first [done | apply lookup_delete_eq].
Qed.

Section ServerFrames.
Import Server.

Ltac frames Hin Ht :=
  repeat (apply elem_of_cons in Hin as [Hin|Hin];
          [try done; injection Hin as -> ->; try done|]);
  try (by apply elem_of_nil in Hin).

Lemma step_OPEN_STREAM env st ev ws f :
  WsSend ws f ∈ (step env st ev).2 ->
  P.t f = P.FrameType.OPEN_STREAM ->
  exists req, ev = PublicRequest req
    /\ P.headers f = Some (stringHeaders (req_headers req)).
Proof.
  intros Hin Ht.
  destruct ev as [r36|socket data r36 now|socket|req|rq chunk|rq|h];
    cbn [step] in Hin.
  - by apply elem_of_nil in Hin.
  - unfold onSocket, onMessage, onRegisterTunnel, onRespStart, onRespData,
      onEnd in Hin.
    repeat case_match; cbn [snd] in Hin; frames Hin Ht.
  - unfold onSocket, onClose in Hin.
    repeat case_match; cbn [snd] in Hin; frames Hin Ht.
  - exists req. split; [done|]. unfold onRequest in Hin.
    repeat case_match; cbn [snd app] in Hin; frames Hin Ht.
  - unfold onBodyChunk in Hin.
    repeat case_match; cbn [snd] in Hin; frames Hin Ht.
  - unfold onBodyEnd in Hin.
    repeat case_match; cbn [snd] in Hin; frames Hin Ht.
  - unfold onTimeout in Hin.
    repeat case_match; cbn [snd] in Hin; frames Hin Ht.
Qed.

End ServerFrames.

Section RandomLabel.
Import Server.

Lemma generateRandomSubdomain_fraction ds :
  generateRandomSubdomain ("0." +:+ ds) = substring 0 7 ds.
Proof.
  unfold generateRandomSubdomain, slice, relativeIndex.
  rewrite string_length_app. cbn [String.length].
  change (2 <? 0) with false. change (9 <? 0) with false. cbv iota.
  destruct (decide (7 <= String.length ds)%nat) as [Hl|Hl].
  - replace (Z.to_nat (Z.min 2 _)) with 2%nat by lia.
    replace (Z.to_nat (Z.max _ 0)) with 7%nat by lia. done.
  - replace (Z.to_nat (Z.min 2 _)) with 2%nat by lia.
    replace (Z.to_nat (Z.max _ 0)) with (String.length ds) by lia.
    cbn [substring string_app_cons String.append].
    change (substring 2 (String.length ds) ("0." +:+ ds))
      with (substring 0 (String.length ds) ds).
    rewrite substring_0_length.
    clear -Hl. assert (String.length ds <= 7)%nat as H by lia. clear Hl.
    revert H. generalize 7%nat as n. induction ds as [|c ds IH]; intros [|n] H;
      cbn in *; try done; try lia. f_equal. apply IH. lia.
Qed.

Lemma substring_0_allChars p n s :
  allChars p s = true -> allChars p (substring 0 n s) = true.
Proof.
  revert n. induction s as [|c s IH]; intros [|n]; cbn; try done.
  intros [-> ?]%andb_prop. cbn. by apply IH.
Qed.

Lemma substring_0_length_le n s :
  (n <= String.length s)%nat -> String.length (substring 0 n s) = n.
Proof.
  revert n. induction s as [|c s IH]; intros [|n]; cbn; try done; try lia.
  intros H. f_equal. apply IH. lia.
Qed.

Lemma base36Digit_subdomainChar c :
  base36Digit c = true -> subdomainChar c = true.
Proof.
  unfold base36Digit, subdomainChar. cbv zeta.
  intros [H|H]%orb_prop; rewrite H; [by rewrite orb_true_r | done].
Qed.

Lemma allChars_impl (p q : ascii -> bool) s :
  (forall c, p c = true -> q c = true) ->
  allChars p s = true -> allChars q s = true.
Proof.
  intros Hpq. induction s as [|c s IH]; cbn; [done|].
  intros [Hc Hs]%andb_prop. by rewrite (Hpq _ Hc), IH.
Qed.

(** With seven or more digits after the point, the random label is seven
    base-36 digits and a valid subdomain. *)
Lemma generateRandomSubdomain_valid ds :
  allChars base36Digit ds = true -> (7 <= String.length ds)%nat ->
  let label := generateRandomSubdomain ("0." +:+ ds) in
  String.length label = 7%nat
  /\ allChars base36Digit label = true
  /\ isValidSubdomain label = true.
Proof.
  intros Hd Hl label. subst label. rewrite generateRandomSubdomain_fraction.
  pose proof (substring_0_length_le 7 ds Hl) as Hlen.
  split_and!; [done | by apply substring_0_allChars |].
  unfold isValidSubdomain, SUBDOMAIN_REGEX_test. rewrite Hlen.
  rewrite (allChars_impl base36Digit); [done | apply base36Digit_subdomainChar |].
  by apply substring_0_allChars.
Qed.

(** With fewer than three digits after the point, the random label is
    not a valid subdomain. *)
Lemma generateRandomSubdomain_short ds :
  (String.length ds < 3)%nat ->
  isValidSubdomain (generateRandomSubdomain ("0." +:+ ds)) = false.
Proof.
  intros Hl. rewrite generateRandomSubdomain_fraction.
  destruct (isValidSubdomain _) eqn:Hv; [|done].
  apply isValidSubdomain_length in Hv.
  destruct ds as [|a [|b [|c ds]]]; cbn in Hl, Hv; lia.
Qed.

End RandomLabel.

Lemma owned_live st : owned st -> registry_live st.
Proof.
  intros Ho sub a Ha. destruct (Ho _ _ Ha) as (_ & info & s & ? & ? & ? & ?).
  exists info. split; [done|]. by exists s.
Qed.

(** An update of the heap that keeps the control socket of every tunnel
    keeps the registry owned. *)
Lemma owned_update_info st a f :
  (forall i, ws (f i) = ws i) -> owned st -> owned (update_info a f st).
Proof.
  intros Hf Ho sub a1 Ha1.
  destruct (Ho _ _ Ha1) as (Hne & info & s & Hh & Hs & Hc & Has).
  split; [done|]. unfold update_info. cbn [heap sockets set_heap].
  destruct (decide (a = a1)) as [->|Hna].
  - exists (f info), s. rewrite list_lookup_alter_eq, Hh, Hf. done.
  - exists info, s. rewrite list_lookup_alter_ne by done. done.
Qed.

Lemma owned_proj st st' :
  tunnels st' = tunnels st -> heap st' = heap st -> sockets st' = sockets st ->
  owned st -> owned st'.
Proof. intros Ht Hh Hs Ho sub a. rewrite Ht, Hh, Hs. apply Ho. Qed.

Lemma owned_set_timers x st : owned st -> owned (set_timers x st).
Proof. by apply owned_proj. Qed.

Lemma owned_set_uploads x st : owned st -> owned (set_uploads x st).
Proof. by apply owned_proj. Qed.

Lemma owned_set_requests x st : owned st -> owned (set_requests x st).
Proof. by apply owned_proj. Qed.

Ltac owned_updates :=
  repeat first [ apply owned_set_uploads | apply owned_set_timers
               | apply owned_set_requests
               | apply owned_update_info; [done|] ].

Lemma onRegisterTunnel_cases st socket s msg r36 now :
  (onRegisterTunnel st socket s msg r36 now).1 = st
  \/ exists sub,
       tunnels st !! sub = None
       /\ ((P.subdomain msg = Some sub /\ isValidSubdomain sub = true)
           \/ sub = generateRandomSubdomain r36)
       /\ (onRegisterTunnel st socket s msg r36 now).1 =
            set_sockets
              (<[socket := set_assignedSubdomain (Some sub) s]> (sockets st))
              (set_tunnels (<[sub := length (heap st)]> (tunnels st))
                 (set_heap
                    (heap st ++ [{| ws := socket;
                                    tunnelId := socket_tunnelId s;
                                    subdomain := sub; createdAt := now;
                                    nextStreamId := 1; streams := ∅ |}])
                    st)).
Proof.
  unfold onRegisterTunnel.
  set (requested := match truthy (P.subdomain msg) with
                    | Some x => if isValidSubdomain x then Some x else None
                    | None => None
                    end).
  set (sub := match truthy requested with
              | Some r => if negb (tunnels_has st r) then r
                          else generateRandomSubdomain r36
              | None => generateRandomSubdomain r36
              end).
  destruct (tunnels_has st sub) eqn:Hhas; [by left|].
  right. exists sub. split_and!; [| |done].
  { unfold tunnels_has in Hhas. apply bool_decide_eq_false in Hhas.
    by apply eq_None_not_Some. }
  subst sub. destruct (truthy requested) as [r|] eqn:Hr; [|by right].
  destruct (negb (tunnels_has st r)); [|by right]. left.
  subst requested.
  destruct (P.subdomain msg) as [[|c x]|] eqn:Hsub; cbn in Hr; try done.
  destruct (isValidSubdomain (String c x)) eqn:Hv; cbn in Hr; [|done].
  by injection Hr as <-.
Qed.

Lemma onRegisterTunnel_owned st socket s msg r36 now :
  sockets st !! socket = Some s -> closed s = false ->
  assignedSubdomain s = None -> generateRandomSubdomain r36 <> "" ->
  owned st -> owned (onRegisterTunnel st socket s msg r36 now).1.
Proof.
  intros Hs Hc Hnone Hrnd Ho.
  destruct (onRegisterTunnel_cases st socket s msg r36 now)
    as [->|(sub & Hfree & Hsub & ->)]; [done|].
  assert (socket < length (sockets st))%nat as Hlt
    by (by eapply lookup_lt_Some).
  assert (sub <> "") as Hne.
  { destruct Hsub as [[_ Hv]| ->]; [|done].
    apply isValidSubdomain_length in Hv. intros ->. cbn in Hv. lia. }
  intros sub1 a1. cbn [tunnels heap sockets set_sockets set_tunnels set_heap].
  intros [[<- <-]|[Hn Ha1]]%lookup_insert_Some.
  - split; [done|]. eexists _, _.
    rewrite lookup_app_r, Nat.sub_diag by lia. cbn [lookup list_lookup ws].
    split; [reflexivity|]. rewrite list_lookup_insert_eq by done. done.
  - destruct (Ho _ _ Ha1) as (Hne1 & info & s1 & Hh & Hs1 & Hc1 & Has1).
    split; [done|]. exists info, s1.
    rewrite (lookup_app_l_Some _ _ _ _ Hh).
    rewrite list_lookup_insert_ne; [done|].
    intros Heq. rewrite <- Heq in Hs1. congruence.
Qed.

Lemma onMessage_owned st socket s data r36 now :
  sockets st !! socket = Some s -> closed s = false ->
  registersOnce st (Message socket data r36 now) ->
  owned st -> owned (onMessage st socket s data r36 now).1.
Proof.
  intros Hs Hc Hreg Ho. unfold onMessage. destruct data as [msg|]; [|done].
  cbn [registersOnce] in Hreg.
  destruct (P.t msg =? P.FrameType.HELLO); [done|].
  destruct (P.t msg =? P.FrameType.REGISTER_TUNNEL) eqn:Ht.
  { apply Z.eqb_eq in Ht. destruct (Hreg Ht) as [Hnone Hrnd].
    apply onRegisterTunnel_owned; auto. }
  destruct (P.t msg =? P.FrameType.RESP_START).
  { unfold onRespStart. repeat case_match; cbn [fst]; try done.
    by apply owned_update_info. }
  destruct (P.t msg =? P.FrameType.RESP_DATA).
  { unfold onRespData. by repeat case_match. }
  destruct (P.t msg =? P.FrameType.END); [|done].
  unfold onEnd. repeat case_match; cbn [fst];
    first [done | by owned_updates].
Qed.

Lemma onClose_owned st socket s :
  sockets st !! socket = Some s ->
  owned st -> owned (onClose st socket s).1.
Proof.
  intros Hs Ho. unfold onClose.
  assert (forall sub1 a1,
    tunnels st !! sub1 = Some a1 -> truthy (assignedSubdomain s) <> Some sub1 ->
    sub1 <> ""
    /\ exists info s1,
         heap st !! a1 = Some info
         /\ <[socket := set_closed true s]> (sockets st) !! ws info = Some s1
         /\ closed s1 = false /\ assignedSubdomain s1 = Some sub1) as Hkeep.
  { intros sub1 a1 Ha1 Hother.
    destruct (Ho _ _ Ha1) as (Hne1 & info & s1 & Hh & Hs1 & Hc1 & Has1).
    split; [done|]. exists info, s1. split_and!; [done| |done..].
    rewrite list_lookup_insert_ne; [done|].
    intros Heq. rewrite <- Heq in Hs1. assert (s1 = s) as -> by congruence.
    apply Hother. rewrite Has1. by destruct sub1. }
  destruct (truthy (assignedSubdomain s)) as [sub|] eqn:Ht; cbn [fst].
  - intros sub1 a1. cbn. intros [Hn Ha1]%lookup_delete_Some.
    apply Hkeep; [done|congruence].
  - intros sub1 a1. cbn. intros Ha1. by apply Hkeep.
Qed.

Lemma step_owned env st ev :
  registersOnce st ev -> owned st -> owned (step env st ev).1.
Proof.
  intros Hreg Ho.
  destruct ev as [r36|socket data r36 now|socket|req|rq chunk|rq|h];
    cbn [step].
  - intros sub a Ha. destruct (Ho _ _ Ha) as (Hne & info & s & Hh & Hs & ?).
    split; [done|]. exists info, s. cbn.
    by rewrite (lookup_app_l_Some _ _ _ _ Hs).
  - unfold onSocket. destruct (sockets st !! socket) as [s|] eqn:Hs; [|done].
    destruct (closed s) eqn:Hc; [done|]. by apply onMessage_owned.
  - unfold onSocket. destruct (sockets st !! socket) as [s|] eqn:Hs; [|done].
    destruct (closed s) eqn:Hc; [done|]. by apply onClose_owned.
  - unfold onRequest.
    change (route env (set_requests (S (requests st)) st) req)
      with (route env st req).
    destruct (route env st req) as [| |a info]; [done..|].
    case_match; cbn [fst]; first [done | by owned_updates].
  - unfold onBodyChunk. by repeat case_match.
  - unfold onBodyEnd. repeat case_match; cbn [fst];
      first [done | by owned_updates].
  - unfold onTimeout. repeat case_match; cbn [fst];
      first [done | by owned_updates].
Qed.

(** Registry uniqueness holds along every run in which no socket
    registers twice and no random label is empty. *)
Lemma registry_live_disciplined env evs : forall st,
  owned st -> disciplined env st evs ->
  registry_live (run env st evs).1.
Proof.
  induction evs as [|ev evs IH]; intros st Ho Hd.
  - by apply owned_live.
  - destruct Hd as [Hreg Hd]. rewrite run_cons. cbn [fst].
    apply IH; [by apply step_owned | done].
Qed.

Lemma owned_init : owned init.
Proof. intros sub a. cbn. by rewrite lookup_empty. Qed.

End ServerFacts.

(** ** The client *)

Section ClientFacts.
Import Js Protocol Client Observe.

Section ClientResponse.
Import Client.

Variables (tunnelId : option string) (streamId : option Z).

Let sendData : P.Buffer -> M unit :=
  fun chunk =>
    if nonEmpty chunk
    then ws_send (RESP_DATA_frame tunnelId streamId chunk)
    else ret tt.

(** The body loop sends the non-empty chunks in order, then ends or
    throws. *)
Lemma for_await_frames body fails c :
  for_await body fails sendData c =
  (dataFrames tunnelId streamId body, c, if fails then None else Some tt).
Proof.
  induction body as [|chunk body IH].
  - by destruct fails.
  - cbn [for_await]. unfold bind. unfold dataFrames in *.
    destruct chunk as [|b chunk]; cbn [sendData nonEmpty].
    + rewrite filter_cons_False by done. cbn. by rewrite IH.
    + rewrite filter_cons_True by done. cbn. by rewrite IH.
Qed.

Lemma respond_frames o c :
  respond tunnelId streamId o c =
  match o with
  | Rejected => ([], c, None)
  | Fulfilled r =>
    if res_bodyFails r then
      (WsSend (RESP_START_frame tunnelId streamId (res_statusCode r)
                 (Some (objectifyHeaders (res_headers r))))
         :: dataFrames tunnelId streamId (res_body r),
       c, None)
    else
      (WsSend (RESP_START_frame tunnelId streamId (res_statusCode r)
                 (Some (objectifyHeaders (res_headers r))))
         :: (dataFrames tunnelId streamId (res_body r)
               ++ [WsSend (END_frame tunnelId streamId "res")])%list,
       c, Some tt)
  end.
Proof.
  unfold respond. destruct o as [|r]; [done|].
  unfold bind at 1. cbn [await ret].
  unfold bind at 1. cbn [ws_send emit].
  unfold bind at 1.
  pose proof (for_await_frames (res_body r) (res_bodyFails r) c) as Hf.
  unfold sendData in Hf. rewrite Hf.
  destruct (res_bodyFails r); cbn; rewrite ?app_nil_r; done.
Qed.

Lemma respond502_frames c :
  respond502 tunnelId streamId c =
  ([WsSend (RESP_START_frame tunnelId streamId 502 None);
    WsSend (END_frame tunnelId streamId "res")], c, Some tt).
Proof. done. Qed.

Lemma countFrames_app p out1 out2 :
  countFrames p (out1 ++ out2) = (countFrames p out1 + countFrames p out2)%nat.
Proof.
  induction out1 as [|[f| | |] out1 IH]; cbn; [done| |done..].
  rewrite IH. lia.
Qed.

Lemma countFrames_dataFrames p body :
  (forall chunk, p (RESP_DATA_frame tunnelId streamId chunk) = false) ->
  countFrames p (dataFrames tunnelId streamId body) = 0%nat.
Proof.
  intros Hp. unfold dataFrames.
  induction (filter _ body) as [|chunk l IH]; cbn; [done|].
  by rewrite Hp, IH.
Qed.

End ClientResponse.

Import Client.

(** The frames either handler sends once the origin has answered. *)
Lemma resume_frames k o c :
  (exec (resume k o) c).2 =
  match o with
  | Rejected =>
    [WsSend (RESP_START_frame (s_tunnelId k) (s_streamId k) 502 None);
     WsSend (END_frame (s_tunnelId k) (s_streamId k) "res")]
  | Fulfilled r =>
    (WsSend (RESP_START_frame (s_tunnelId k) (s_streamId k) (res_statusCode r)
               (Some (objectifyHeaders (res_headers r))))
       :: dataFrames (s_tunnelId k) (s_streamId k) (res_body r)
       ++ (if res_bodyFails r
           then [WsSend (RESP_START_frame (s_tunnelId k) (s_streamId k) 502 None)]
           else [])
       ++ [WsSend (END_frame (s_tunnelId k) (s_streamId k) "res")])%list
  end.
Proof.
  unfold exec, resume, handleOpenStream_resume, handleBufferedRequest_resume.
  destruct (handler k); unfold try_finally, try_catch;
    rewrite respond_frames; destruct o as [|r]; cbn;
    try done; destruct (res_bodyFails r); cbn;
    rewrite ?app_nil_r; done.
Qed.

Lemma resume_streams k o c :
  streams (exec (resume k o) c).1 =
  match handler k with
  | OpenStream => streams c
  | BufferedRequest => delete (s_streamId k) (streams c)
  end.
Proof.
  unfold exec, resume, handleOpenStream_resume, handleBufferedRequest_resume.
  destruct (handler k); unfold try_finally, try_catch;
    rewrite respond_frames; destruct o as [|r]; cbn;
    try done; destruct (res_bodyFails r); cbn; done.
Qed.

(** C3, amended.  Once the origin has answered, either handler sends
    exactly one END phase=res and one or two RESP_START: a rejected request
    gives RESP_START 502 immediately followed by END phase=res; a complete
    response gives one RESP_START, the data and END; a body that fails
    after RESP_START gives a second RESP_START with status 502 immediately
    followed by END phase=res. *)
Theorem C3_response_frames k o c :
  let tunnelId := s_tunnelId k in
  let streamId := s_streamId k in
  let out := (exec (resume k o) c).2 in
  let failure :=
    [WsSend (RESP_START_frame tunnelId streamId 502 None);
     WsSend (END_frame tunnelId streamId "res")] in
  countFrames isEndRes out = 1%nat
  /\ (1 <= countFrames isRespStart out <= 2)%nat
  /\ match o with
     | Rejected => out = failure
     | Fulfilled r =>
       let start :=
         WsSend (RESP_START_frame tunnelId streamId (res_statusCode r)
                   (Some (objectifyHeaders (res_headers r)))) in
       let data := dataFrames tunnelId streamId (res_body r) in
       if res_bodyFails r then
         out = (start :: data ++ failure)%list
         /\ countFrames isRespStart out = 2%nat
       else
         out = (start :: data ++ [WsSend (END_frame tunnelId streamId "res")])%list
         /\ countFrames isRespStart out = 1%nat
     end.
Proof.
  intros tunnelId streamId out failure. subst out failure.
  rewrite resume_frames. subst tunnelId streamId.
  destruct o as [|r]; [by split_and!; cbn; try lia|].
  cbn zeta.
  assert (forall p,
    (forall chunk, p (RESP_DATA_frame (s_tunnelId k) (s_streamId k) chunk) = false) ->
    countFrames p (dataFrames (s_tunnelId k) (s_streamId k) (res_body r)) = 0%nat)
    as Hd by (intros; by apply countFrames_dataFrames).
  destruct (res_bodyFails r); cbn [app countFrames];
    rewrite ?countFrames_app, !Hd by done; cbn; split_and!; try done; lia.
Qed.

Section ClientHeaders.
Import Client.

Lemma objectifyHeaders_loop_Some items : forall out k v,
  objectifyHeaders_loop items out !! k = Some v ->
  out !! k = Some v \/ Item (JString k) (JString v) ∈ items.
Proof.
  induction items as [|item items IH]; intros out k v H; [by left|].
  assert (objectifyHeaders_loop items out !! k = Some v ->
          out !! k = Some v \/ Item (JString k) (JString v) ∈ item :: items)
    as Hskip.
  { intros [?|?]%IH; [by left | right; by apply list_elem_of_further]. }
  destruct item as [[k'| |] [v'| |]|]; cbn [objectifyHeaders_loop] in H;
    [|by auto..].
  apply IH in H as [H|H]; [|right; by apply list_elem_of_further].
  unfold assign in H. destruct (decide (k' = "__proto__")); [by left|].
  apply lookup_insert_Some in H as [[-> ->]|[_ H]]; [|by left].
  right. apply list_elem_of_here.
Qed.

Lemma objectifyHeaders_Some h k v :
  objectifyHeaders h !! k = Some v ->
  exists items, h = Iterable items /\ Item (JString k) (JString v) ∈ items.
Proof.
  destruct h as [| |items]; cbn; [by rewrite lookup_empty..|].
  intros [H|H]%objectifyHeaders_loop_Some; [by rewrite lookup_empty in H|].
  eauto.
Qed.

Lemma objectifyHeaders_loop_drop l1 l2 k v : forall out,
  ~ bothStrings k v ->
  objectifyHeaders_loop (l1 ++ Item k v :: l2) out =
  objectifyHeaders_loop (l1 ++ l2) out.
Proof.
  intros out Hn. revert out.
  induction l1 as [|[[k' | |] [v' | |]|] l1 IH]; intros out;
    cbn [app objectifyHeaders_loop]; try done.
  destruct k as [k'| |], v as [v'| |]; try done.
  destruct Hn. by exists k', v'.
Qed.

Lemma resume_RESP_START k o c f :
  WsSend f ∈ (exec (resume k o) c).2 ->
  P.t f = P.FrameType.RESP_START ->
  (P.headers f = None /\ P.statusCode f = Some 502)
  \/ exists r, o = Fulfilled r
       /\ P.headers f = Some (objectifyHeaders (res_headers r)).
Proof.
  rewrite resume_frames. intros Hin Ht. destruct o as [|r].
  - apply elem_of_cons in Hin as [[= ->]|Hin]; [by left|].
    apply list_elem_of_singleton in Hin as [= ->]. done.
  - apply elem_of_cons in Hin as [[= ->]|Hin]; [right; eauto|].
    apply elem_of_app in Hin as [Hin|Hin].
    { unfold dataFrames in Hin.
      apply list_elem_of_fmap in Hin as (chunk & [= ->] & _). done. }
    apply elem_of_app in Hin as [Hin|Hin].
    + destruct (res_bodyFails r); [|by apply elem_of_nil in Hin].
      apply list_elem_of_singleton in Hin as [= ->]. by left.
    + apply list_elem_of_singleton in Hin as [= ->]. done.
Qed.

End ClientHeaders.

End ClientFacts.

(** ** Both ends *)

Section Claims.
Import Js Protocol Observe.

(** C10. The header map of every OPEN_STREAM frame holds exactly the
    public request headers whose value is a string (an array-valued header
    is left out); the header map of a RESP_START frame is absent (the 502
    reply) or [objectifyHeaders] of the origin headers, which holds only
    entries coming from an item whose key and value are both strings, and
    is unchanged when any other item is removed from the iteration. *)
Theorem C10_only_string_headers :
  (forall env st ev ws f,
     Server.WsSend ws f ∈ (Server.step env st ev).2 ->
     P.t f = P.FrameType.OPEN_STREAM ->
     exists req hs,
       ev = Server.PublicRequest req /\ P.headers f = Some hs
       /\ forall k, hs !! k = match Server.req_headers req !! k with
                              | Some (Server.HString s) => Some s
                              | Some (Server.HArray _) | None => None
                              end)
  /\ (forall k o c f,
        Client.WsSend f ∈ (Client.exec (Client.resume k o) c).2 ->
        P.t f = P.FrameType.RESP_START ->
        (P.headers f = None /\ P.statusCode f = Some 502)
        \/ exists r, o = Client.Fulfilled r
             /\ P.headers f = Some (Client.objectifyHeaders (Client.res_headers r)))
  /\ (forall h k v,
        Client.objectifyHeaders h !! k = Some v ->
        exists items, h = Client.Iterable items
          /\ Client.Item (Client.JString k) (Client.JString v) ∈ items)
  /\ (forall l1 l2 k v,
        ~ bothStrings k v ->
        Client.objectifyHeaders (Client.Iterable (l1 ++ Client.Item k v :: l2)) =
        Client.objectifyHeaders (Client.Iterable (l1 ++ l2))).
Proof.
  split_and!.
  - intros env st ev ws f Hin Ht.
    destruct (step_OPEN_STREAM _ _ _ _ _ Hin Ht) as (req & -> & Hh).
    exists req, (Server.stringHeaders (Server.req_headers req)).
    split_and!; [done..|]. intros k. rewrite stringHeaders_lookup.
    by destruct (Server.req_headers req !! k) as [[]|].
  - apply resume_RESP_START.
  - apply objectifyHeaders_Some.
  - intros. by apply objectifyHeaders_loop_drop.
Qed.

(** C1. A socket registers [aaa], then [bbb], then closes: [aaa] is still
    in the registry, bound to a tunnel whose control socket is closed, so
    registry uniqueness does not hold in that state. *)
Theorem C1_orphaned_registry_entry :
  let st := (Server.run None Server.init Scenario.registers_twice_then_closes).1 in
  Server.tunnels st !! "aaa" = Some 0%nat
  /\ (Server.ws <$> Server.heap st !! 0%nat) = Some 0%nat
  /\ (Server.closed <$> Server.sockets st !! 0%nat) = Some true
  /\ ~ registry_live st.
Proof.
  cbv zeta.
  assert (Server.tunnels (Server.run None Server.init
            Scenario.registers_twice_then_closes).1 !! "aaa" = Some 0%nat) as H1
    by (vm_compute; reflexivity).
  assert ((Server.ws <$> Server.heap (Server.run None Server.init
            Scenario.registers_twice_then_closes).1 !! 0%nat) = Some 0%nat) as H2
    by (vm_compute; reflexivity).
  assert ((Server.closed <$> Server.sockets (Server.run None Server.init
            Scenario.registers_twice_then_closes).1 !! 0%nat) = Some true) as H3
    by (vm_compute; reflexivity).
  split_and!; [done..|].
  intros Hlive. destruct (Hlive _ _ H1) as (info & Ha & s & Hs & Hc).
  rewrite Ha in H2. injection H2 as H2. rewrite H2 in Hs.
  rewrite Hs in H3. injection H3 as H3. congruence.
Qed.

(** C2. When [Math.random()] returns 0.5, a registration without a
    requested subdomain binds the one-character label [i], which does not
    match the subdomain regex. *)
Theorem C2_short_random_label_bound :
  let run := Server.run None Server.init Scenario.short_random_label in
  Server.generateRandomSubdomain "0.i" = "i"
  /\ isValidSubdomain "i" = false
  /\ Server.tunnels run.1 !! "i" = Some 0%nat
  /\ run.2 = [Server.WsSend 0 (Server.REGISTERED_frame "i" "t_k3j5x8q2")].
Proof. cbv zeta. split_and!; vm_compute; reflexivity. Qed.

(** C9. In stream mode (a GET), after the client has sent END phase=res
    the entry of the stream is still in the client's stream map. *)
Theorem C9_stream_mode_entry_stays :
  let run := Client.run Scenario.cfg Client.init
               (Scenario.get_stream Scenario.ok_empty) in
  last run.2 = Some (Client.WsSend
                       (Client.END_frame (Some "t_k3j5x8q2") (Some 1) "res"))
  /\ (Client.mode <$> Client.streams run.1 !! Some 1) = Some Client.stream.
Proof. cbv zeta. split; vm_compute; reflexivity. Qed.

(** The routing scenarios: no tunnel gives 502, the bare base domain 404,
    and the host is read without its case and port. *)
Example no_tunnel :
  (Server.step None Server.init
     (Server.PublicRequest (Scenario.GET "none.localhost"))).2 =
  [Server.ReplySend 0 502 {| Server.error := "Tunnel not connected" |}].
Proof. vm_compute. reflexivity. Qed.

Example bad_host :
  (Server.step None Server.init
     (Server.PublicRequest (Scenario.GET "localhost"))).2 =
  [Server.ReplySend 0 404 {| Server.error := "Not Found" |}].
Proof. vm_compute. reflexivity. Qed.

Example host_case_and_port :
  Server.requestHost (Scenario.GET "AAA.Localhost:3000") = "aaa.localhost".
Proof. vm_compute. reflexivity. Qed.

(** In buffer mode (a POST) the entry is removed, on the 502 path too, and
    the buffered body goes out with its [content-length]. *)
Example buffer_mode_entry_removed :
  let run := Client.run Scenario.cfg Client.init
               (Scenario.post_stream Client.Rejected) in
  Client.streams run.1 !! Some 1 = None
  /\ run.2 =
     [Client.Request 0 "http://127.0.0.1:8080/echo" "POST"
        {[ "content-length" := "2" ]}
        (Client.BufferBody [Byte.x7b; Byte.x7d]);
      Client.WsSend (Client.RESP_START_frame (Some "t_k3j5x8q2") (Some 1) 502 None);
      Client.WsSend (Client.END_frame (Some "t_k3j5x8q2") (Some 1) "res")].
Proof. cbv zeta. split; vm_compute; reflexivity. Qed.

(** C3 as stated fails: when the body of the origin response fails after
    the first chunk, the client sends RESP_START twice, the second one
    with status 502 after headers and data were already sent. *)
Lemma C3_second_RESP_START :
  let out := (Client.run Scenario.cfg Client.init
                (Scenario.get_stream Scenario.fails_mid_body)).2 in
  countFrames isRespStart out = 2%nat
  /\ out =
     [Client.Request 0 "http://127.0.0.1:8080/" "GET" ∅ Client.NoBody;
      Client.PipeEnd 0;
      Client.WsSend (Client.RESP_START_frame (Some "t_k3j5x8q2") (Some 1) 200 (Some ∅));
      Client.WsSend (Client.RESP_DATA_frame (Some "t_k3j5x8q2") (Some 1)
                       [Byte.x68; Byte.x69]);
      Client.WsSend (Client.RESP_START_frame (Some "t_k3j5x8q2") (Some 1) 502 None);
      Client.WsSend (Client.END_frame (Some "t_k3j5x8q2") (Some 1) "res")].
Proof. cbv zeta. split; vm_compute; reflexivity. Qed.

(** With the headers of the stream already sent, the deadline callback
    makes the same call [reply.code(504).send(...)], and no call that
    closes the raw response. *)
Lemma C4_headers_sent_same_504 :
  let st := (Server.run None Server.init Scenario.headers_sent).1 in
  (Server.streams <$> Server.heap st !! 0%nat) =
    Some {[ 1 := {| Server.reply := 0; Server.timeout := 0;
                    Server.headersSent := true |} ]}
  /\ (Server.step None st (Server.Timeout 0)).2 =
       [Server.ReplySend 0 504 {| Server.error := "Upstream timeout" |}].
Proof. cbv zeta. split; vm_compute; reflexivity. Qed.

(** C5 as stated fails: a tunnel with a stream in flight is closed; the
    server emits nothing (no 502, no end of the body) and the stream stays
    in the tunnel's stream map. *)
Lemma C5_in_flight_stream_survives_close :
  let st := (Server.run None Server.init Scenario.in_flight).1 in
  let closing := Server.step None st (Server.Close 0) in
  (Server.streams <$> Server.heap st !! 0%nat) =
    Some {[ 1 := {| Server.reply := 0; Server.timeout := 0;
                    Server.headersSent := false |} ]}
  /\ closing.2 = []
  /\ Server.tunnels closing.1 !! "aaa" = None
  /\ (Server.streams <$> Server.heap closing.1 !! 0%nat) =
       Some {[ 1 := {| Server.reply := 0; Server.timeout := 0;
                       Server.headersSent := false |} ]}.
Proof. cbv zeta. split_and!; vm_compute; reflexivity. Qed.

(** C4 at the run [in_flight], in which the client never answers, timer
    0: the reply was hijacked when the request came in, and the deadline
    only calls [reply.code(504).send(...)] on it. *)
Lemma C4_deadline_witness :
  Server.timers (Server.run None Server.init Scenario.in_flight).1 !! 0%nat
    = Some Scenario.tm0
  /\ Server.ReplyHijack 0 ∈ (Server.run None Server.init Scenario.in_flight).2
  /\ (Server.step None (Server.run None Server.init Scenario.in_flight).1
        (Server.Timeout 0)).2 =
       [Server.ReplySend 0 504 {| Server.error := "Upstream timeout" |}].
Proof.
  assert (Server.timers (Server.run None Server.init Scenario.in_flight).1
            !! 0%nat = Some Scenario.tm0) as H by (vm_compute; reflexivity).
  destruct (C4_deadline None Scenario.in_flight 0 Scenario.tm0
              [Scenario.answer] H) as (_ & _ & Hh & Hout & _).
  split_and!; [exact H | exact Hh | exact Hout].
Defined.

(** C5 at the run [in_flight], socket 0. *)
Lemma C5_control_close_witness :
  (Server.step None (Server.run None Server.init Scenario.in_flight).1
     (Server.Close 0)).2 = []
  /\ Server.heap (Server.step None
                    (Server.run None Server.init Scenario.in_flight).1
                    (Server.Close 0)).1
     = Server.heap (Server.run None Server.init Scenario.in_flight).1.
Proof.
  pose proof (C5_control_close None
                (Server.run None Server.init Scenario.in_flight).1 0
                {| Server.assignedSubdomain := Some "aaa";
                   Server.socket_tunnelId := "t_k3j5x8q2";
                   Server.closed := false |}) as H.
  destruct H as (H1 & H2 & _); [vm_compute; reflexivity | reflexivity |].
  split; [exact H1 | exact H2].
Defined.

(** C6 at the run [in_flight] followed by [answer]. *)
Lemma C6_hop_by_hop_stripped_witness :
  Server.RawWriteHead 0 200 {[ "X-Origin" := "up" ]}
    ∈ (Server.step None (Server.run None Server.init Scenario.in_flight).1
         Scenario.answer).2
  /\ ({[ "X-Origin" := "up" ]} : gmap string string) !! "Connection" = None.
Proof.
  assert (Server.RawWriteHead 0 200 {[ "X-Origin" := "up" ]}
    ∈ (Server.step None (Server.run None Server.init Scenario.in_flight).1
         Scenario.answer).2) as H.
  { vm_compute. apply list_elem_of_here. }
  split; [exact H|].
  destruct (C6_hop_by_hop_stripped _ _ _ _ _ _ H)
    as (socket & msg & r36 & now & _ & _ & Hk).
  apply (Hk "Connection"). vm_compute.
  apply list_elem_of_further, list_elem_of_here.
Defined.

(** C8 at the run [two_requests], first tunnel. *)
Lemma C8_stream_ids_contiguous_witness :
  Z.of_nat (length (allocations None Server.init Scenario.two_requests 0))
    < TWO_53
  /\ allocations None Server.init Scenario.two_requests 0 = [1; 2]
  /\ allocations None Server.init Scenario.two_requests 0 =
       Z.of_nat <$> seq 1 (length (allocations None Server.init
                                     Scenario.two_requests 0)).
Proof.
  assert (Z.of_nat (length (allocations None Server.init
                              Scenario.two_requests 0)) < TWO_53) as H
    by (vm_compute; reflexivity).
  split_and!; [exact H | vm_compute; reflexivity |].
  exact (proj1 (C8_stream_ids_contiguous None Scenario.two_requests 0 H)).
Defined.

End Claims.

(** * Further properties *)

(** ** Routing by host *)

Section HostFacts.
Import Js Protocol Server Observe Relay.

Lemma isUpper_lowerChar c : isUpper (lowerChar c) = false.
Proof.
  unfold lowerChar. destruct (isUpper c) eqn:Hu; [|done].
  unfold isUpper in *. apply andb_prop in Hu as [H1%Nat.leb_le H2%Nat.leb_le].
  rewrite nat_ascii_embedding by lia.
  apply andb_false_iff. right. apply Nat.leb_gt. lia.
Qed.

Lemma hasUpper_toLowerCase s : hasUpper (toLowerCase s) = false.
Proof.
  induction s as [|c s IH]; [done|]. cbn [toLowerCase hasUpper].
  by rewrite isUpper_lowerChar, IH.
Qed.

Lemma hasUpper_app a b : hasUpper (a +:+ b) = hasUpper a || hasUpper b.
Proof.
  induction a as [|c a IH]; [done|].
  rewrite string_app_cons. cbn [hasUpper]. by rewrite IH, orb_assoc.
Qed.

Lemma hasUpper_substring n m s :
  hasUpper s = false -> hasUpper (substring n m s) = false.
Proof.
  revert n m. induction s as [|c s IH]; intros n m H.
  - by destruct n, m.
  - cbn [hasUpper] in H. apply orb_false_iff in H as [Hc Hs].
    destruct n as [|n], m as [|m]; cbn [substring hasUpper]; auto.
    by rewrite Hc, IH.
Qed.

(** The host the server routes by has no upper-case letter. *)
Lemma hasUpper_requestHost req : hasUpper (requestHost req) = false.
Proof.
  unfold requestHost, split_0.
  repeat case_match; try apply hasUpper_substring; apply hasUpper_toLowerCase.
Qed.

(** X1. [extractSubdomain] accepts exactly the hosts [<sub>.<base>] with
    a valid [<sub>], and returns that [<sub>]; with an empty base it
    accepts nothing. *)
Theorem extractSubdomain_exact :
  (forall host, extractSubdomain host "" = None)
  /\ (forall host base sub,
        base <> "" ->
        extractSubdomain host base = Some sub
        <-> host = sub +:+ "." +:+ base /\ isValidSubdomain sub = true).
Proof.
  split.
  - intros host. destruct (extractSubdomain host "") as [sub|] eqn:He; [|done].
    unfold extractSubdomain in He.
    destruct (endsWith host ""); [|done]. cbn [negb String.length] in He.
    rewrite slice_0_neg_0 in He. done.
  - intros host base sub Hne. split.
    + apply extractSubdomain_Some.
    + intros [-> Hv]. by apply extractSubdomain_complete.
Qed.

(** X2. The base domain is compared as it is configured while the host is
    lower-cased first: with an upper-case letter in [DOMAIN_BASE], every
    public request is answered 404. *)
Theorem upper_case_base_never_routes env st req :
  hasUpper (DOMAIN_BASE env) = true ->
  step env st (PublicRequest req) =
    (set_requests (S (requests st)) st,
     [ReplySend (requests st) 404 {| error := "Not Found" |}]).
Proof.
  intros Hup. cbn [step]. unfold onRequest.
  rewrite route_NotFound; [done|].
  intros label Hhost. exfalso.
  pose proof (hasUpper_requestHost req) as Hlow.
  rewrite Hhost, !hasUpper_app, Hup in Hlow.
  by rewrite !orb_true_r in Hlow.
Qed.

(** X3. A registered subdomain is reached whatever the case of the [Host]
    header and with or without a port. *)
Theorem host_case_and_port_ignored env st req h sub a info :
  headers_host req = Some h
  \/ (exists port, headers_host req = Some (h +:+ ":" +:+ port)) ->
  includes h ":" = false ->
  toLowerCase h = sub +:+ "." +:+ DOMAIN_BASE env ->
  isValidSubdomain sub = true ->
  tunnels_get st sub = Some (a, info) ->
  route env st req = Tunnel a info.
Proof.
  intros Hh Hc Hlow Hv Hget.
  assert (requestHost req = toLowerCase h) as Hhost.
  { destruct Hh as [Hh|[port Hh]];
      [by apply requestHost_no_port | by eapply requestHost_port]. }
  unfold route. rewrite Hhost, Hlow.
  rewrite extractSubdomain_complete by auto using DOMAIN_BASE_nonempty.
  rewrite truthy_valid by done. by rewrite Hget.
Qed.

End HostFacts.

(** ** Registration *)

Section RegistryFacts.
Import Js Protocol Server Observe Registry.

Lemma tunnels_has_true st sub :
  tunnels_has st sub = true <-> is_Some (tunnels st !! sub).
Proof. unfold tunnels_has. apply bool_decide_eq_true. Qed.

Lemma tunnels_has_false st sub :
  tunnels_has st sub = false <-> tunnels st !! sub = None.
Proof.
  unfold tunnels_has. rewrite bool_decide_eq_false. symmetry.
  apply eq_None_not_Some.
Qed.

(** The state after a registration that binds [sub]. *)
Lemma binds_intro st socket s now sub :
  sockets st !! socket = Some s ->
  binds st socket s now sub
    (set_sockets (<[socket := set_assignedSubdomain (Some sub) s]> (sockets st))
       (set_tunnels (<[sub := length (heap st)]> (tunnels st))
          (set_heap (heap st ++ [fresh socket s sub now]) st)),
     [WsSend socket (REGISTERED_frame sub (socket_tunnelId s))]).
Proof.
  intros Hs. unfold binds. cbn. split_and!.
  - done.
  - apply lookup_insert_eq.
  - rewrite lookup_app_r by lia. by rewrite Nat.sub_diag.
  - apply list_lookup_insert_eq. by eapply lookup_lt_Some.
  - intros sub' Hne. by apply lookup_insert_ne.
Qed.

Lemma step_register env st socket s msg random36 now :
  sockets st !! socket = Some s -> closed s = false ->
  P.t msg = P.FrameType.REGISTER_TUNNEL ->
  let res := step env st (Message socket (Some msg) random36 now) in
  let label := generateRandomSubdomain random36 in
  let fallback :=
    forall sub, P.subdomain msg = Some sub -> isValidSubdomain sub = true ->
                is_Some (tunnels st !! sub) in
  (forall sub,
     P.subdomain msg = Some sub -> isValidSubdomain sub = true ->
     tunnels st !! sub = None ->
     binds st socket s now sub res)
  /\ (fallback -> tunnels st !! label = None ->
      binds st socket s now label res)
  /\ (fallback -> is_Some (tunnels st !! label) ->
      res = (st, [WsSend socket (ERROR_frame "SUBDOMAIN_TAKEN" "Please retry")])).
Proof.
  intros Hs Hc Ht res label fallback. subst res label fallback.
  cbn [step]. unfold onSocket. rewrite Hs, Hc. unfold onMessage.
  rewrite Ht. cbn [Z.eqb P.FrameType.REGISTER_TUNNEL P.FrameType.HELLO Pos.eqb].
  unfold onRegisterTunnel.
  set (requested := match truthy (P.subdomain msg) with
                    | Some x => if isValidSubdomain x then Some x else None
                    | None => None
                    end).
  assert (forall sub, P.subdomain msg = Some sub ->
                      isValidSubdomain sub = true ->
                      truthy requested = Some sub) as Hreq.
  { intros sub Hsub Hv. subst requested.
    rewrite Hsub, (truthy_valid _ Hv), Hv. by apply truthy_valid. }
  assert (forall r, truthy requested = Some r ->
                    P.subdomain msg = Some r /\ isValidSubdomain r = true)
    as Hreq'.
  { intros r Hr. subst requested.
    destruct (P.subdomain msg) as [[|c x]|]; cbn in Hr; try done.
    destruct (isValidSubdomain (String c x)) eqn:Hv; cbn in Hr; [|done].
    by injection Hr as <-. }
  split_and!.
  - intros sub Hsub Hv Hfree. rewrite (Hreq _ Hsub Hv).
    rewrite (proj2 (tunnels_has_false _ _) Hfree). cbn [negb].
    rewrite (proj2 (tunnels_has_false _ _) Hfree). by apply binds_intro.
  - intros Hfb Hfree.
    assert (match truthy requested with
            | Some r => if negb (tunnels_has st r) then r
                        else generateRandomSubdomain random36
            | None => generateRandomSubdomain random36
            end = generateRandomSubdomain random36) as ->.
    { destruct (truthy requested) as [r|] eqn:Hr; [|done].
      destruct (Hreq' r eq_refl) as [Hsub Hv].
      by rewrite (proj2 (tunnels_has_true _ _) (Hfb _ Hsub Hv)). }
    rewrite (proj2 (tunnels_has_false _ _) Hfree). by apply binds_intro.
  - intros Hfb Htaken.
    assert (match truthy requested with
            | Some r => if negb (tunnels_has st r) then r
                        else generateRandomSubdomain random36
            | None => generateRandomSubdomain random36
            end = generateRandomSubdomain random36) as ->.
    { destruct (truthy requested) as [r|] eqn:Hr; [|done].
      destruct (Hreq' r eq_refl) as [Hsub Hv].
      by rewrite (proj2 (tunnels_has_true _ _) (Hfb _ Hsub Hv)). }
    by rewrite (proj2 (tunnels_has_true _ _) Htaken).
Qed.

(** X4. What a REGISTER_TUNNEL does: a valid and free requested subdomain
    is bound; in every other case the random label is tried instead (a
    taken subdomain is not an error), and only when that label is taken
    too the answer is ERROR SUBDOMAIN_TAKEN, with the state unchanged. *)
Theorem register_outcome env st socket s msg random36 now :
  sockets st !! socket = Some s -> closed s = false ->
  P.t msg = P.FrameType.REGISTER_TUNNEL ->
  let res := step env st (Message socket (Some msg) random36 now) in
  let label := generateRandomSubdomain random36 in
  let fallback :=
    forall sub, P.subdomain msg = Some sub -> isValidSubdomain sub = true ->
                is_Some (tunnels st !! sub) in
  (forall sub,
     P.subdomain msg = Some sub -> isValidSubdomain sub = true ->
     tunnels st !! sub = None ->
     binds st socket s now sub res)
  /\ (fallback -> tunnels st !! label = None ->
      binds st socket s now label res)
  /\ (fallback -> is_Some (tunnels st !! label) ->
      res = (st, [WsSend socket (ERROR_frame "SUBDOMAIN_TAKEN" "Please retry")])).
Proof. apply step_register. Qed.

(** X7. A subdomain is free again once its socket has closed: the next
    client that connects and asks for it gets it, on a new tunnel object
    whose stream ids start at 1. *)
Theorem subdomain_reclaimed env st socket s sub random36 random36' now :
  sockets st !! socket = Some s -> closed s = false ->
  assignedSubdomain s = Some sub -> isValidSubdomain sub = true ->
  let st1 := (step env st (Close socket)).1 in
  let st2 := (step env st1 (Connect random36)).1 in
  let new := length (sockets st) in
  binds st2 new
    {| assignedSubdomain := None;
       socket_tunnelId := "t_" +:+ slice random36 2 10;
       closed := false |}
    now sub
    (step env st2
       (Message new (Some (Scenario.REGISTER_TUNNEL_frame (Some sub)))
          random36' now)).
Proof.
  intros Hs Hc Has Hv st1 st2 new.
  assert (st1 = set_tunnels (delete sub (tunnels st))
                  (set_sockets (<[socket := set_closed true s]> (sockets st)) st))
    as Hst1.
  { subst st1. cbn [step]. unfold onSocket, onClose. rewrite Hs, Hc, Has.
    by rewrite (truthy_valid _ Hv). }
  assert (sockets st2 !! new =
          Some {| assignedSubdomain := None;
                  socket_tunnelId := "t_" +:+ slice random36 2 10;
                  closed := false |}) as Hnew.
  { subst st2 new. rewrite Hst1. cbn.
    rewrite lookup_app_r by (rewrite length_insert; lia).
    by rewrite length_insert, Nat.sub_diag. }
  assert (tunnels st2 !! sub = None) as Hfree.
  { subst st2. rewrite Hst1. cbn. apply lookup_delete_eq. }
  by apply (step_register env st2 new _
              (Scenario.REGISTER_TUNNEL_frame (Some sub)) random36' now
              Hnew eq_refl eq_refl).
Qed.

(** An update of a tunnel object that keeps its socket and subdomain
    keeps the registry well formed. *)
Lemma registry_wf_update_info st a f :
  (forall i, ws (f i) = ws i /\ subdomain (f i) = subdomain i) ->
  registry_wf st -> registry_wf (update_info a f st).
Proof.
  intros Hf [W1 W2]. unfold update_info. split; cbn [tunnels heap sockets set_heap].
  - intros sub a1 Ha1. destruct (W1 _ _ Ha1) as (info & Hh & Hsub & Hws).
    destruct (decide (a = a1)) as [->|Hna].
    + exists (f info). rewrite list_lookup_alter_eq, Hh.
      destruct (Hf info) as [-> ->]. done.
    + exists info. by rewrite list_lookup_alter_ne.
  - intros socket s sub Hs Hc Has.
    destruct (W2 _ _ _ Hs Hc Has) as (a1 & info & Ht & Hh & Hws).
    destruct (decide (a = a1)) as [->|Hna].
    + exists a1, (f info). rewrite list_lookup_alter_eq, Hh.
      destruct (Hf info) as [-> _]. done.
    + exists a1, info. by rewrite list_lookup_alter_ne.
Qed.

Lemma registry_wf_proj st st' :
  tunnels st' = tunnels st -> heap st' = heap st -> sockets st' = sockets st ->
  registry_wf st -> registry_wf st'.
Proof. intros Ht Hh Hs [W1 W2]. split; rewrite ?Ht, ?Hh, ?Hs; done. Qed.

Ltac wf_updates :=
  repeat first
    [ apply registry_wf_update_info; [done|]
    | match goal with
      | |- registry_wf (set_timers ?x ?s) =>
        apply (registry_wf_proj s); [done..|]
      | |- registry_wf (set_uploads ?x ?s) =>
        apply (registry_wf_proj s); [done..|]
      | |- registry_wf (set_requests ?x ?s) =>
        apply (registry_wf_proj s); [done..|]
      end ].

Lemma onRegisterTunnel_wf st socket s msg r36 now :
  sockets st !! socket = Some s -> closed s = false ->
  registry_wf st -> registry_wf (onRegisterTunnel st socket s msg r36 now).1.
Proof.
  intros Hs Hc [W1 W2].
  destruct (onRegisterTunnel_cases st socket s msg r36 now)
    as [->|(sub & Hfree & _ & ->)]; [done|].
  assert (socket < length (sockets st))%nat as Hlt
    by (by eapply lookup_lt_Some).
  split; cbn [tunnels heap sockets set_sockets set_tunnels set_heap].
  - intros sub1 a1 [[<- <-]|[Hn Ha1]]%lookup_insert_Some.
    + exists (fresh socket s sub now).
      rewrite lookup_app_r by lia. rewrite Nat.sub_diag.
      split; [reflexivity|]. cbn. by rewrite length_insert.
    + destruct (W1 _ _ Ha1) as (info & Hh & Hsub & Hws).
      exists info. rewrite (lookup_app_l_Some _ _ _ _ Hh), length_insert. done.
  - intros socket1 s1 sub1 Hs1 Hc1 Has1.
    destruct (decide (socket = socket1)) as [<-|Hns].
    + rewrite list_lookup_insert_eq in Hs1 by done. injection Hs1 as <-.
      cbn in Has1. injection Has1 as <-.
      exists (length (heap st)), (fresh socket s sub now).
      rewrite lookup_insert_eq.
      rewrite lookup_app_r by lia. rewrite Nat.sub_diag. done.
    + rewrite list_lookup_insert_ne in Hs1 by done.
      destruct (W2 _ _ _ Hs1 Hc1 Has1) as (a1 & info & Ht & Hh & Hws).
      exists a1, info. rewrite (lookup_app_l_Some _ _ _ _ Hh).
      rewrite lookup_insert_ne; [done|]. intros <-. congruence.
Qed.

Lemma onClose_wf st socket s :
  sockets st !! socket = Some s -> closed s = false ->
  registry_wf st -> registry_wf (onClose st socket s).1.
Proof.
  intros Hs Hc [W1 W2]. unfold onClose.
  assert (forall m : gmap string nat,
    (forall sub a, m !! sub = Some a -> tunnels st !! sub = Some a) ->
    (forall sub a, tunnels st !! sub = Some a ->
                   truthy (assignedSubdomain s) <> Some sub ->
                   m !! sub = Some a) ->
    registry_wf
      (set_tunnels m
         (set_sockets (<[socket := set_closed true s]> (sockets st)) st)))
    as Hgen.
  { intros m Hsub Hkeep. split; cbn.
    - intros sub a Ha. apply Hsub in Ha.
      destruct (W1 _ _ Ha) as (info & ? & ? & ?).
      exists info. by rewrite length_insert.
    - intros socket1 s1 sub1 Hs1 Hc1 Has1.
      destruct (decide (socket = socket1)) as [<-|Hns].
      + rewrite list_lookup_insert_eq in Hs1 by (by eapply lookup_lt_Some).
        by injection Hs1 as <-.
      + rewrite list_lookup_insert_ne in Hs1 by done.
        destruct (W2 _ _ _ Hs1 Hc1 Has1) as (a1 & info & Ht & Hh & Hws).
        exists a1, info. split_and!; [|done..].
        apply Hkeep; [done|]. intros Heq.
        assert (assignedSubdomain s = Some sub1) as Has.
        { destruct (assignedSubdomain s) as [[|c x]|]; cbn in Heq; congruence. }
        destruct (W2 _ _ _ Hs Hc Has) as (a2 & info2 & Ht2 & Hh2 & Hws2).
        congruence. }
  destruct (truthy (assignedSubdomain s)) as [sub|] eqn:Ht; cbn [fst].
  - apply Hgen.
    + intros sub1 a. cbn. by intros [_ ?]%lookup_delete_Some.
    + intros sub1 a Ha Hne. cbn. apply lookup_delete_Some. split; congruence.
  - apply (registry_wf_proj
             (set_tunnels (tunnels st)
                (set_sockets (<[socket := set_closed true s]> (sockets st)) st)));
      [done..|].
    apply Hgen; auto.
Qed.

Lemma step_wf env st ev : registry_wf st -> registry_wf (step env st ev).1.
Proof.
  intros W.
  destruct ev as [r36|socket data r36 now|socket|req|rq chunk|rq|h];
    cbn [step].
  - destruct W as [W1 W2]. split; cbn.
    + intros sub a Ha. destruct (W1 _ _ Ha) as (info & ? & ? & ?).
      exists info. rewrite length_app. cbn. split_and!; [done..|lia].
    + intros socket s sub Hs Hc Has.
      apply lookup_app_Some in Hs as [Hs|[_ Hs]]; [by eapply W2|].
      apply list_lookup_singleton_Some in Hs as [_ <-]. done.
  - unfold onSocket. destruct (sockets st !! socket) as [s|] eqn:Hs; [|done].
    destruct (closed s) eqn:Hc; [done|].
    unfold onMessage. destruct data as [msg|]; [|done].
    repeat case_match; try done.
    + by apply onRegisterTunnel_wf.
    + unfold onRespStart. repeat case_match; cbn [fst];
        first [done | by wf_updates].
    + unfold onRespData. by repeat case_match.
    + unfold onEnd. repeat case_match; cbn [fst];
        first [done | by wf_updates].
  - unfold onSocket. destruct (sockets st !! socket) as [s|] eqn:Hs; [|done].
    destruct (closed s) eqn:Hc; [done|]. by apply onClose_wf.
  - unfold onRequest.
    change (route env (set_requests (S (requests st)) st) req)
      with (route env st req).
    destruct (route env st req) as [| |a info];
      [by apply (registry_wf_proj st)..|].
    case_match; cbn [fst]; by wf_updates.
  - unfold onBodyChunk. by repeat case_match.
  - unfold onBodyEnd. repeat case_match; cbn [fst];
      first [done | by wf_updates].
  - unfold onTimeout. repeat case_match; cbn [fst];
      first [done | by wf_updates].
Qed.

Lemma run_wf env evs : forall st,
  registry_wf st -> registry_wf (run env st evs).1.
Proof.
  induction evs as [|ev evs IH]; intros st W; [done|].
  rewrite run_cons. cbn [fst]. by apply IH, step_wf.
Qed.

Lemma registry_wf_init : registry_wf init.
Proof.
  split; cbn.
  - intros sub a. by rewrite lookup_empty.
  - intros socket s sub. by rewrite lookup_nil.
Qed.

(** X5. In every run of the server, also when sockets register more than
    once: a key of the registry is bound to an existing tunnel carrying
    that key, so two keys never share a tunnel and [tunnels.get] of a
    registered key finds its tunnel; and a socket that is open keeps the
    subdomain assigned to it in the registry, bound to a tunnel of its
    own, whatever the other sockets do. *)
Theorem registry_well_formed env evs :
  let st := (run env init evs).1 in
  registry_wf st
  /\ (forall sub1 sub2 a,
        tunnels st !! sub1 = Some a -> tunnels st !! sub2 = Some a ->
        sub1 = sub2)
  /\ (forall sub, is_Some (tunnels st !! sub) -> is_Some (tunnels_get st sub)).
Proof.
  intros st.
  assert (registry_wf st) as W by apply run_wf, registry_wf_init.
  split_and!; [done| |].
  - intros sub1 sub2 a H1 H2.
    destruct (proj1 W _ _ H1) as (i1 & Hh1 & <- & _).
    destruct (proj1 W _ _ H2) as (i2 & Hh2 & <- & _). congruence.
  - intros sub [a Ha]. destruct (proj1 W _ _ Ha) as (info & Hh & _).
    unfold tunnels_get. rewrite Ha. cbn. rewrite Hh. by eexists.
Qed.

Lemma run_owned env evs : forall st,
  owned st -> disciplined env st evs -> owned (run env st evs).1.
Proof.
  induction evs as [|ev evs IH]; intros st Ho Hd; [done|].
  destruct Hd as [Hreg Hd]. rewrite run_cons. cbn [fst].
  apply IH; [by apply step_owned | done].
Qed.

(** X6. In a run in which no socket registers twice and no random label is
    empty, a subdomain is in the registry exactly when an open socket has
    it assigned, and that socket is the only one. *)
Theorem registry_matches_open_sockets env evs :
  disciplined env init evs ->
  let st := (run env init evs).1 in
  forall sub,
    (is_Some (tunnels st !! sub)
     <-> exists socket s, sockets st !! socket = Some s /\ closed s = false
                          /\ assignedSubdomain s = Some sub)
    /\ (forall socket1 s1 socket2 s2,
          sockets st !! socket1 = Some s1 -> closed s1 = false ->
          assignedSubdomain s1 = Some sub ->
          sockets st !! socket2 = Some s2 -> closed s2 = false ->
          assignedSubdomain s2 = Some sub ->
          socket1 = socket2).
Proof.
  intros Hd st sub.
  assert (owned st) as Ho by (by apply run_owned; [apply owned_init|]).
  assert (registry_wf st) as [W1 W2] by apply run_wf, registry_wf_init.
  split; [split|].
  - intros [a Ha]. destruct (Ho _ _ Ha) as (_ & info & s & ? & ? & ? & ?).
    by exists (ws info), s.
  - intros (socket & s & Hs & Hc & Has).
    destruct (W2 _ _ _ Hs Hc Has) as (a & ? & -> & _). by eexists.
  - intros socket1 s1 socket2 s2 Hs1 Hc1 Ha1 Hs2 Hc2 Ha2.
    destruct (W2 _ _ _ Hs1 Hc1 Ha1) as (a1 & i1 & Ht1 & Hh1 & <-).
    destruct (W2 _ _ _ Hs2 Hc2 Ha2) as (a2 & i2 & Ht2 & Hh2 & <-).
    congruence.
Qed.

End RegistryFacts.

(** ** Streams on the server *)

Section StreamFacts.
Import Js Protocol Server Observe Relay Registry.

Lemma heads_app r out1 out2 :
  heads r (out1 ++ out2) = (heads r out1 + heads r out2)%nat.
Proof.
  induction out1 as [|act out1 IH]; [done|].
  destruct act; cbn [app heads]; rewrite IH; lia.
Qed.

(** A pending head after an update of a tunnel object was pending before,
    when the update creates none for that request. *)
Lemma headPending_alter st st' a f r :
  heap st' = alter f a (heap st) ->
  (forall i streamId e,
     streams (f i) !! streamId = Some e -> reply e = r ->
     headersSent e = false ->
     exists streamId' e', streams i !! streamId' = Some e'
                          /\ reply e' = r /\ headersSent e' = false) ->
  headPending st' r -> headPending st r.
Proof.
  intros Hheap Hf (a1 & info1 & sid & e & Hh & He & Hr & Hsent).
  rewrite Hheap in Hh.
  apply (lookup_update_info st a f) in Hh
    as [[_ Hh]|(-> & info0 & Hh & ->)].
  - by exists a1, info1, sid, e.
  - destruct (Hf _ _ _ He Hr Hsent) as (sid' & e' & ? & ? & ?).
    by exists a, info0, sid', e'.
Qed.

Lemma headPending_delete st st' a sid r :
  heap st' = alter (fun i => set_streams (delete sid (streams i)) i) a (heap st) ->
  headPending st' r -> headPending st r.
Proof.
  intros Hheap. apply (headPending_alter _ _ _ _ _ Hheap).
  intros i sid1 e He Hr Hs. cbn in He.
  apply lookup_delete_Some in He as [_ He]. eauto.
Qed.

Lemma headPending_sent st st' a sid r :
  heap st'
  = alter (fun i => set_streams
                      (alter (set_headersSent true) sid (streams i)) i)
      a (heap st) ->
  headPending st' r -> headPending st r.
Proof.
  intros Hheap. apply (headPending_alter _ _ _ _ _ Hheap).
  intros i sid1 e He Hr Hs. cbn in He.
  destruct (decide (sid = sid1)) as [->|Hne].
  - rewrite lookup_alter_eq in He.
    destruct (streams i !! sid1); [|done]. injection He as <-. done.
  - rewrite lookup_alter_ne in He by done. eauto.
Qed.

Lemma headPending_onRequest env st req r :
  (r < requests st)%nat ->
  headPending (onRequest env st req).1 r -> headPending st r.
Proof.
  intros Hlt. unfold onRequest.
  change (route env (set_requests (S (requests st)) st) req)
    with (route env st req).
  destruct (route env st req) as [| |a info]; [done..|].
  set (mid := update_info a (set_nextStreamId (increment (nextStreamId info)))
                (set_requests (S (requests st)) st)).
  assert (headPending mid r -> headPending st r) as Hmid.
  { apply (headPending_alter st mid a
             (set_nextStreamId (increment (nextStreamId info)))); [done|].
    intros i sid1 e He Hr Hs. eauto. }
  assert (forall st', heap st'
    = alter (fun i => set_streams
               (<[nextStreamId info := {| reply := requests st;
                                          timeout := requests st;
                                          headersSent := false |}]>
                  (streams i)) i) a (heap mid) ->
    headPending st' r -> headPending st r) as Hins.
  { intros st' Hheap Hp. apply Hmid.
    revert Hp. apply (headPending_alter _ _ _ _ _ Hheap).
    intros i sid1 e He Hr Hs. cbn in He.
    apply lookup_insert_Some in He as [[_ <-]|[_ He]]; [cbn in Hr; lia|eauto]. }
  case_match; cbn [fst]; by apply Hins.
Qed.

(** What one step writes as heads: at most one; none for a request that is
    known and has no head pending; and after writing the head of a
    request, none is pending for it. *)
Lemma step_heads env st ev r :
  timers_consistent st ->
  (heads r (step env st ev).2 <= 1)%nat
  /\ (heads r (step env st ev).2 = 1%nat ->
      (r < requests (step env st ev).1)%nat
      /\ ~ headPending (step env st ev).1 r)
  /\ ((r < requests st)%nat -> ~ headPending st r ->
      heads r (step env st ev).2 = 0%nat
      /\ (r < requests (step env st ev).1)%nat
      /\ ~ headPending (step env st ev).1 r).
Proof.
  intros I.
  assert (forall st' : State,
    (requests st <= requests st')%nat ->
    (headPending st' r -> headPending st r) ->
    (0 <= 1)%nat
    /\ (0%nat = 1%nat -> (r < requests st')%nat /\ ~ headPending st' r)
    /\ ((r < requests st)%nat -> ~ headPending st r ->
        0%nat = 0%nat /\ (r < requests st')%nat /\ ~ headPending st' r))
    as Hquiet.
  { intros st' Hle Hp. split_and!; [lia|done|]. intros Hlt Hn.
    split_and!; [done|lia|tauto]. }
  destruct ev as [r36|socket data r36 now|socket|req|rq chunk|rq|h];
    cbn [step].
  - by apply Hquiet.
  - unfold onSocket. destruct (sockets st !! socket) as [s|]; [|by apply Hquiet].
    destruct (closed s); [by apply Hquiet|].
    unfold onMessage. destruct data as [msg|]; [|by apply Hquiet].
    destruct (P.t msg =? P.FrameType.HELLO); [by apply Hquiet|].
    destruct (P.t msg =? P.FrameType.REGISTER_TUNNEL).
    { destruct (onRegisterTunnel_cases st socket s msg r36 now)
        as [Heq|(sub & _ & _ & Heq)].
      - unfold onRegisterTunnel in *. case_match; cbn [fst snd heads] in *;
          apply Hquiet; rewrite ?Heq; done.
      - unfold onRegisterTunnel in *. case_match; cbn [fst snd heads] in *;
          [by apply Hquiet|].
        apply Hquiet; [done|].
        intros (a1 & info1 & sid & e & Hh & He & Hr & Hsent). cbn in Hh.
        apply lookup_app_Some in Hh as [Hh|[_ Hh]];
          [by exists a1, info1, sid, e|].
        apply list_lookup_singleton_Some in Hh as [_ <-].
        cbn in He. by rewrite lookup_empty in He. }
    destruct (P.t msg =? P.FrameType.RESP_START).
    { unfold onRespStart.
      destruct (socketInfo st s) as [[a info]|] eqn:Hs; [|by apply Hquiet].
      destruct (streams_get info msg) as [[sid entry]|] eqn:Hg;
        [|by apply Hquiet].
      destruct (headersSent entry) eqn:Hsent; [by apply Hquiet|].
      apply socketInfo_Some in Hs. apply streams_get_Some in Hg as [_ Hg].
      cbn [fst snd heads].
      destruct (proj1 I _ _ _ _ Hs Hg) as (Hrt & tm & Htm & _).
      destruct (proj2 I _ _ Htm) as (Hlt & _).
      destruct (decide (reply entry = r)) as [Her|Her]; cbn.
      - split_and!; [lia| |].
        + intros _. split; [cbn; lia|].
          intros (a1 & info1 & sid1 & e1 & Hh & He & Hr & Hs1).
          apply lookup_update_info in Hh as [[Hna Hh]|(-> & info0 & Hh & ->)].
          * destruct (timers_consistent_inj st _ _ _ _ _ _ _ _ I Hs Hg Hh He)
              as [? _]; [|done]. destruct (proj1 I _ _ _ _ Hh He). congruence.
          * assert (info0 = info) as -> by congruence. cbn in He.
            destruct (decide (sid = sid1)) as [->|Hne].
            -- rewrite lookup_alter_eq, Hg in He. by injection He as <-.
            -- rewrite lookup_alter_ne in He by done.
               destruct (timers_consistent_inj st _ _ _ _ _ _ _ _ I Hs Hg Hs He)
                 as [_ ?]; [|done]. destruct (proj1 I _ _ _ _ Hs He). congruence.
        + intros _ Hn. destruct Hn. by exists a, info, sid, entry.
      - apply (Hquiet (update_info a
                         (fun i => set_streams
                            (alter (set_headersSent true) sid (streams i)) i)
                         st)); [done|].
        by apply (headPending_sent st _ a sid). }
    destruct (P.t msg =? P.FrameType.RESP_DATA).
    { unfold onRespData. repeat case_match; by apply Hquiet. }
    destruct (P.t msg =? P.FrameType.END); [|by apply Hquiet].
    unfold onEnd. repeat case_match; cbn [fst snd heads]; apply Hquiet;
      try done.
    by eapply (headPending_delete st).
  - unfold onSocket, onClose. repeat case_match; by apply Hquiet.
  - assert ((requests st <= requests (onRequest env st req).1)%nat
            /\ heads r (onRequest env st req).2 = 0%nat) as [Hle Hz].
    { unfold onRequest.
      change (route env (set_requests (S (requests st)) st) req)
        with (route env st req).
      destruct (route env st req); [cbn; split; [lia|done]..|].
      case_match; cbn; split; (lia || done). }
    rewrite Hz. split_and!; [lia|done|].
    intros Hlt Hn. split_and!; [done|lia|].
    intros Hp. by apply Hn, (headPending_onRequest env st req).
  - unfold onBodyChunk. repeat case_match; by apply Hquiet.
  - unfold onBodyEnd. repeat case_match; by apply Hquiet.
  - unfold onTimeout. repeat case_match; cbn [fst snd heads]; apply Hquiet;
      try done.
    by eapply (headPending_delete st).
Qed.

Lemma run_heads_none env evs r : forall st,
  timers_consistent st -> (r < requests st)%nat -> ~ headPending st r ->
  heads r (run env st evs).2 = 0%nat.
Proof.
  induction evs as [|ev evs IH]; intros st I Hlt Hn; [done|].
  rewrite run_cons. cbn [snd]. rewrite heads_app.
  destruct (step_heads env st ev r I) as (_ & _ & H0).
  destruct (H0 Hlt Hn) as (-> & Hlt' & Hn').
  by rewrite IH by auto using step_consistent.
Qed.

Lemma run_heads env evs r : forall st,
  timers_consistent st -> (heads r (run env st evs).2 <= 1)%nat.
Proof.
  induction evs as [|ev evs IH]; intros st I; [cbn; lia|].
  rewrite run_cons. cbn [snd]. rewrite heads_app.
  destruct (step_heads env st ev r I) as (Hle & H1 & _).
  pose proof (step_consistent env st ev I) as I'.
  destruct (decide (heads r (step env st ev).2 = 1%nat)) as [Heq|Hne].
  - destruct (H1 Heq) as [Hlt Hn].
    rewrite (run_heads_none env evs r _ I' Hlt Hn). lia.
  - specialize (IH _ I'). lia.
Qed.

(** X8. In any run of the server, the head of the response to a public
    request is written at most once, whatever frames the clients send. *)
Theorem head_written_at_most_once env evs r :
  (heads r (run env init evs).2 <= 1)%nat.
Proof. apply run_heads, timers_consistent_init. Qed.

(** X9. END phase=res is final.  When a client sends END phase=res for a
    stream of its tunnel, the server ends the raw response of that request
    and does nothing else, clears its deadline and removes the stream; and
    in whatever happens afterwards no call is made on that request's reply
    or raw response. *)
Theorem end_res_is_final env history socket s a info msg streamId entry
    random36 now evs :
  let st := (run env init history).1 in
  sockets st !! socket = Some s -> closed s = false ->
  socketInfo st s = Some (a, info) ->
  P.t msg = P.FrameType.END -> P.phase msg = Some "res" ->
  P.streamId msg = Some streamId -> streams info !! streamId = Some entry ->
  let res := step env st (Message socket (Some msg) random36 now) in
  res.2 = [RawEnd (reply entry)]
  /\ timers res.1 !! reply entry = None
  /\ (forall info', heap res.1 !! a = Some info' ->
      streams info' !! streamId = None)
  /\ forall act, act ∈ (run env res.1 evs).2 ->
      publicCall act <> Some (reply entry).
Proof.
  intros st Hs Hopen Hinfo Ht Hphase Hsid Hentry res.
  assert (timers_consistent st) as I
    by apply run_consistent, timers_consistent_init.
  pose proof (socketInfo_Some _ _ _ _ Hinfo) as Hheap.
  destruct (proj1 I _ _ _ _ Hheap Hentry) as (Hrt & tm & Htm & _).
  destruct (proj2 I _ _ Htm) as (Hlt & _).
  assert (res = (update_info a
                   (fun i => set_streams (delete streamId (streams i)) i)
                   (set_timers (delete (timeout entry) (timers st)) st),
                 [RawEnd (reply entry)])) as ->.
  { subst res. cbn [step]. unfold onSocket. rewrite Hs, Hopen.
    unfold onMessage. rewrite Ht. cbn [Z.eqb Pos.eqb P.FrameType.END
      P.FrameType.HELLO P.FrameType.REGISTER_TUNNEL P.FrameType.RESP_START
      P.FrameType.RESP_DATA].
    unfold onEnd. rewrite Hinfo. unfold streams_get. rewrite Hsid. cbn.
    rewrite Hentry. cbn. by rewrite Hphase, bool_decide_eq_true_2. }
  cbn [fst snd]. split_and!.
  - done.
  - cbn. rewrite Hrt. apply lookup_delete_eq.
  - intros info' Hh. apply lookup_update_info in Hh
      as [[? _]|(_ & info0 & _ & ->)]; [done|].
    cbn. apply lookup_delete_eq.
  - apply run_disarmed.
    + apply (step_consistent env st (Message socket (Some msg) random36 now))
        in I as I'.
      revert I'. cbn [step]. unfold onSocket. rewrite Hs, Hopen.
      unfold onMessage. rewrite Ht. cbn [Z.eqb Pos.eqb P.FrameType.END
        P.FrameType.HELLO P.FrameType.REGISTER_TUNNEL P.FrameType.RESP_START
        P.FrameType.RESP_DATA].
      unfold onEnd. rewrite Hinfo. unfold streams_get. rewrite Hsid. cbn.
      rewrite Hentry. cbn. by rewrite Hphase, bool_decide_eq_true_2.
    + split; [cbn; lia|]. cbn. rewrite Hrt. apply lookup_delete_eq.
Qed.

(** X10. In every reachable state of the server, each stream in a tunnel's
    stream map has its 30 second deadline armed: the timer the entry holds
    is pending, and names this tunnel object, this stream id and the reply
    of the entry, which is a request the server has received. *)
Theorem every_stream_has_its_deadline env evs a info streamId entry :
  let st := (run env init evs).1 in
  heap st !! a = Some info -> streams info !! streamId = Some entry ->
  timers st !! timeout entry
  = Some {| timer_info := a; timer_streamId := streamId;
            timer_reply := reply entry; delay := 30000 |}
  /\ (reply entry < requests st)%nat.
Proof.
  intros st Hheap Hentry.
  assert (timers_consistent st) as I
    by apply run_consistent, timers_consistent_init.
  destruct (proj1 I _ _ _ _ Hheap Hentry) as (Hrt & tm & Htm & Ha & Hsid).
  destruct (proj2 I _ _ Htm) as (Hlt & Hrep & Hdelay).
  split; [|lia]. rewrite Htm. f_equal.
  destruct tm; cbn in *; subst. by rewrite Hrt.
Qed.

(** X11. A control connection acts on its own streams only.  Whatever
    frame a client sends, every call the server then makes on the reply or
    the raw response of a public request is for a stream that is in the
    stream map of the tunnel currently assigned to that very connection,
    under the stream id the frame names. *)
Theorem message_touches_own_streams_only env history socket s data random36
    now act r :
  let st := (run env init history).1 in
  sockets st !! socket = Some s ->
  act ∈ (step env st (Message socket data random36 now)).2 ->
  publicCall act = Some r ->
  exists msg a info streamId entry,
    data = Some msg
    /\ socketInfo st s = Some (a, info) /\ ws info = socket
    /\ P.streamId msg = Some streamId
    /\ streams info !! streamId = Some entry /\ reply entry = r.
Proof.
  intros st Hs Hin Hcall.
  assert (registry_wf st) as [W1 W2] by apply run_wf, registry_wf_init.
  revert Hin. cbn [step]. unfold onSocket. rewrite Hs.
  destruct (closed s) eqn:Hopen; [by intros ?%elem_of_nil|].
  destruct data as [msg|]; [|by intros ?%elem_of_nil].
  assert (forall a info, socketInfo st s = Some (a, info) -> ws info = socket)
    as Hown.
  { intros a info Hinfo. unfold socketInfo in Hinfo.
    destruct (truthy (assignedSubdomain s)) as [sub|] eqn:Hsub; [|done].
    cbn in Hinfo. unfold truthy in Hsub.
    destruct (assignedSubdomain s) as [sub'|] eqn:Has; [|done].
    destruct (W2 socket s sub' Hs Hopen Has) as (a' & info' & Ha' & Hh' & Hws).
    unfold tunnels_get in Hinfo. case_match; simplify_option_eq; done. }
  unfold onMessage.
  destruct (P.t msg =? P.FrameType.HELLO); [by intros ?%elem_of_nil|].
  destruct (P.t msg =? P.FrameType.REGISTER_TUNNEL).
  { unfold onRegisterTunnel. case_match; cbn [snd];
      intros ->%list_elem_of_singleton; done. }
  destruct (P.t msg =? P.FrameType.RESP_START).
  { unfold onRespStart.
    destruct (socketInfo st s) as [[a info]|] eqn:Hinfo;
      [|by intros ?%elem_of_nil].
    destruct (streams_get info msg) as [[sid entry]|] eqn:Hg;
      [|by intros ?%elem_of_nil].
    apply streams_get_Some in Hg as [Hsid Hentry].
    destruct (headersSent entry); [by intros ?%elem_of_nil|].
    cbn [snd]. intros ->%list_elem_of_singleton. cbn in Hcall.
    exists msg, a, info, sid, entry. split_and!; eauto. congruence. }
  destruct (P.t msg =? P.FrameType.RESP_DATA).
  { unfold onRespData.
    destruct (socketInfo st s) as [[a info]|] eqn:Hinfo;
      [|by intros ?%elem_of_nil].
    destruct (streams_get info msg) as [[sid entry]|] eqn:Hg;
      [|by intros ?%elem_of_nil].
    apply streams_get_Some in Hg as [Hsid Hentry].
    destruct (P.chunk msg); [|by intros ?%elem_of_nil].
    cbn [snd]. intros ->%list_elem_of_singleton. cbn in Hcall.
    exists msg, a, info, sid, entry. split_and!; eauto. congruence. }
  destruct (P.t msg =? P.FrameType.END); [|by intros ?%elem_of_nil].
  unfold onEnd.
  destruct (socketInfo st s) as [[a info]|] eqn:Hinfo;
    [|by intros ?%elem_of_nil].
  destruct (streams_get info msg) as [[sid entry]|] eqn:Hg;
    [|by intros ?%elem_of_nil].
  apply streams_get_Some in Hg as [Hsid Hentry].
  case_match; [|by intros ?%elem_of_nil].
  cbn [snd]. intros ->%list_elem_of_singleton. cbn in Hcall.
  exists msg, a, info, sid, entry. split_and!; eauto. congruence.
Qed.

(** What one step does when it answers a request for good: that action is
    the only one of the step, and the request is disarmed afterwards. *)
Lemma step_finishes env st ev r pre act post :
  timers_consistent st ->
  (step env st ev).2 = (pre ++ act :: post)%list -> finishes r act = true ->
  disarmed (step env st ev).1 r
  /\ forall act', act' ∈ post -> publicCall act' <> Some r.
Proof.
  intros I.
  assert ((step env st ev).2 = []
          \/ (exists x, (step env st ev).2 = [x]
                         /\ (finishes r x = true ->
                             disarmed (step env st ev).1 r))
          \/ (forall x, x ∈ (step env st ev).2 -> finishes r x = false))
    as Hcases.
  { destruct ev as [r36|socket data r36 now|socket|req|rq chunk|rq|h];
      cbn [step].
    - by left.
    - unfold onSocket. destruct (sockets st !! socket) as [s|]; [|by left].
      destruct (closed s); [by left|].
      unfold onMessage. destruct data as [msg|]; [|by left].
      destruct (P.t msg =? P.FrameType.HELLO); [by left|].
      destruct (P.t msg =? P.FrameType.REGISTER_TUNNEL).
      { right; right. unfold onRegisterTunnel. case_match; cbn [snd];
          by intros x ->%list_elem_of_singleton. }
      destruct (P.t msg =? P.FrameType.RESP_START).
      { unfold onRespStart. repeat case_match; try by left.
        right; right. by intros x ->%list_elem_of_singleton. }
      destruct (P.t msg =? P.FrameType.RESP_DATA).
      { unfold onRespData. repeat case_match; try by left.
        right; right. by intros x ->%list_elem_of_singleton. }
      destruct (P.t msg =? P.FrameType.END); [|by left].
      unfold onEnd.
      destruct (socketInfo st s) as [[a info]|] eqn:Hs; [|by left].
      destruct (streams_get info msg) as [[sid entry]|] eqn:Hg; [|by left].
      case_match; [|by left].
      apply socketInfo_Some in Hs. apply streams_get_Some in Hg as [_ Hg].
      destruct (proj1 I _ _ _ _ Hs Hg) as (Hrt & tm & Htm & _).
      destruct (proj2 I _ _ Htm) as (Hlt & _).
      right; left. eexists. split; [done|]. cbn.
      intros <-%bool_decide_eq_true_1. split; [cbn; lia|].
      cbn. rewrite Hrt. apply lookup_delete_eq.
    - unfold onSocket, onClose. repeat case_match; by left.
    - unfold onRequest.
      change (route env (set_requests (S (requests st)) st) req)
        with (route env st req).
      assert (timers st !! requests st = None) as Hnone.
      { apply eq_None_not_Some. intros [tm Htm].
        destruct (proj2 I _ _ Htm) as (Hlt & _). lia. }
      destruct (route env st req) as [| |a info].
      + right; left. eexists. split; [done|]. cbn.
        intros <-%bool_decide_eq_true_1. split; [cbn; lia|done].
      + right; left. eexists. split; [done|]. cbn.
        intros <-%bool_decide_eq_true_1. split; [cbn; lia|done].
      + right; right. case_match; cbn [snd app]; intros x Hx;
          repeat (apply elem_of_cons in Hx as [->|Hx]; [done|]);
          by apply elem_of_nil in Hx.
    - unfold onBodyChunk. repeat case_match; try by left.
      right; right. by intros x ->%list_elem_of_singleton.
    - unfold onBodyEnd. repeat case_match; try by left.
      right; right. by intros x ->%list_elem_of_singleton.
    - unfold onTimeout. destruct (timers st !! h) as [tm|] eqn:Htm; [|by left].
      destruct (proj2 I _ _ Htm) as (Hlt & Hrep & _).
      right; left. eexists. split; [done|]. cbn.
      intros <-%bool_decide_eq_true_1. rewrite Hrep. split; [cbn; lia|].
      cbn. apply lookup_delete_eq. }
  intros Hout Hfin.
  destruct Hcases as [Hnil|[(x & Hx & Hd)|Hnone]].
  - rewrite Hnil in Hout. by destruct pre.
  - rewrite Hx in Hout.
    destruct pre as [|y pre]; [|by destruct pre].
    injection Hout as -> <-. split; [by apply Hd|].
    by intros act' ?%elem_of_nil.
  - rewrite (Hnone act) in Hfin; [done|].
    rewrite Hout. apply elem_of_app. right. apply list_elem_of_here.
Qed.

Lemma run_finishes env r evs : forall st pre act post,
  timers_consistent st ->
  (run env st evs).2 = (pre ++ act :: post)%list -> finishes r act = true ->
  forall act', act' ∈ post -> publicCall act' <> Some r.
Proof.
  induction evs as [|ev evs IH]; intros st pre act post I Hout Hfin.
  - by destruct pre.
  - rewrite run_cons in Hout. cbn [snd] in Hout.
    pose proof (step_consistent env st ev I) as I'.
    apply app_eq_inv in Hout as [(k & Hk1 & Hk2)|(k & Hk1 & Hk2)].
    + destruct k as [|x k].
      * cbn in Hk2. apply (IH _ [] act post I'); [by rewrite <- Hk2|done].
      * injection Hk2 as <- ->.
        destruct (step_finishes env st ev r pre act k I Hk1 Hfin) as [D Hk].
        intros act' [Hin|Hin]%elem_of_app; [by apply Hk|].
        by apply (run_disarmed env evs _ r I' D).
    + by apply (IH _ k act post I').
Qed.

(** X17. A public request is answered once.  In any run of the server,
    once a reply was sent whole for a request (404, 502 or 504) or its
    raw response was ended, no later call is made on that request's reply
    or raw response. *)
Theorem answered_once env evs r pre act post :
  (run env init evs).2 = (pre ++ act :: post)%list ->
  finishes r act = true ->
  forall act', act' ∈ post -> publicCall act' <> Some r.
Proof. apply run_finishes, timers_consistent_init. Qed.

End StreamFacts.

(** ** A response on its way from the origin to the public caller *)

Section ResponseRelay.
Import Js Protocol Server Observe Relay.

Lemma run_app env evs1 evs2 : forall st,
  run env st (evs1 ++ evs2) =
  ((run env (run env st evs1).1 evs2).1,
   ((run env st evs1).2 ++ (run env (run env st evs1).1 evs2).2)%list).
Proof.
  induction evs1 as [|ev evs1 IH]; intros st.
  - cbn [app run fst snd]. by destruct (run env st evs2).
  - change ((ev :: evs1) ++ evs2)%list with (ev :: (evs1 ++ evs2))%list.
    rewrite !run_cons, IH. cbn [fst snd]. by rewrite app_assoc.
Qed.

Lemma deliver_app socket random36 now out1 out2 :
  deliver socket random36 now (out1 ++ out2)
  = (deliver socket random36 now out1 ++ deliver socket random36 now out2)%list.
Proof.
  induction out1 as [|act out1 IH]; [done|].
  destruct act; cbn [app deliver]; by rewrite ?IH.
Qed.

Lemma socketInfo_update_info st s a info f :
  socketInfo st s = Some (a, info) ->
  socketInfo (update_info a f st) s = Some (a, f info).
Proof.
  unfold socketInfo, tunnels_get, update_info. cbn [tunnels heap set_heap].
  intros H. destruct (truthy (assignedSubdomain s)); [|done]. cbn in *.
  destruct (tunnels st !! s0) as [a'|]; [|done]. cbn in *.
  destruct (heap st !! a') as [i|] eqn:Hh; [|done]. cbn in H.
  injection H as -> ->. by rewrite list_lookup_alter_eq, Hh.
Qed.

Section OneStream.
Variables (env : option string) (socket : nat) (s : Socket)
  (random36 : string) (now : Z) (clientTunnelId : option string)
  (streamId : Z).

Let sent (f : P.Frame) : Event := Message socket (Some f) random36 now.

(** RESP_START for a stream whose head is not written yet. *)
Lemma step_RESP_START st a info entry status hs :
  sockets st !! socket = Some s -> closed s = false ->
  socketInfo st s = Some (a, info) ->
  streams info !! streamId = Some entry -> headersSent entry = false ->
  step env st
    (sent (Client.RESP_START_frame clientTunnelId (Some streamId) status hs))
  = (update_info a
       (fun i => set_streams
                   (alter (set_headersSent true) streamId (streams i)) i) st,
     [RawWriteHead (reply entry) (orStatus (Some status) 200)
        (normalizeHeaders (default ∅ hs))]).
Proof.
  intros Hs Hopen Hinfo Hentry Hsent.
  cbn [sent step]. unfold onSocket. rewrite Hs, Hopen.
  cbn [onMessage Client.RESP_START_frame P.t Z.eqb Pos.eqb
       P.FrameType.HELLO P.FrameType.REGISTER_TUNNEL P.FrameType.RESP_START].
  unfold onRespStart. rewrite Hinfo. unfold streams_get. cbn.
  rewrite Hentry. cbn. by rewrite Hsent.
Qed.

(** RESP_START for a stream whose head is written: discarded. *)
Lemma step_RESP_START_again st a info entry status hs :
  sockets st !! socket = Some s -> closed s = false ->
  socketInfo st s = Some (a, info) ->
  streams info !! streamId = Some entry -> headersSent entry = true ->
  step env st
    (sent (Client.RESP_START_frame clientTunnelId (Some streamId) status hs))
  = (st, []).
Proof.
  intros Hs Hopen Hinfo Hentry Hsent.
  cbn [sent step]. unfold onSocket. rewrite Hs, Hopen.
  cbn [onMessage Client.RESP_START_frame P.t Z.eqb Pos.eqb
       P.FrameType.HELLO P.FrameType.REGISTER_TUNNEL P.FrameType.RESP_START].
  unfold onRespStart. rewrite Hinfo. unfold streams_get. cbn.
  rewrite Hentry. cbn. by rewrite Hsent.
Qed.

Lemma step_RESP_DATA st a info entry chunk :
  sockets st !! socket = Some s -> closed s = false ->
  socketInfo st s = Some (a, info) ->
  streams info !! streamId = Some entry ->
  step env st
    (sent (Client.RESP_DATA_frame clientTunnelId (Some streamId) chunk))
  = (st, [RawWrite (reply entry) chunk]).
Proof.
  intros Hs Hopen Hinfo Hentry.
  cbn [sent step]. unfold onSocket. rewrite Hs, Hopen.
  cbn [onMessage Client.RESP_DATA_frame P.t Z.eqb Pos.eqb
       P.FrameType.HELLO P.FrameType.REGISTER_TUNNEL P.FrameType.RESP_START
       P.FrameType.RESP_DATA].
  unfold onRespData. rewrite Hinfo. unfold streams_get. cbn.
  by rewrite Hentry.
Qed.

Lemma step_END_res st a info entry :
  sockets st !! socket = Some s -> closed s = false ->
  socketInfo st s = Some (a, info) ->
  streams info !! streamId = Some entry ->
  step env st (sent (Client.END_frame clientTunnelId (Some streamId) "res"))
  = (update_info a
       (fun i => set_streams (delete streamId (streams i)) i)
       (set_timers (delete (timeout entry) (timers st)) st),
     [RawEnd (reply entry)]).
Proof.
  intros Hs Hopen Hinfo Hentry.
  cbn [sent step]. unfold onSocket. rewrite Hs, Hopen.
  cbn [onMessage Client.END_frame P.t Z.eqb Pos.eqb
       P.FrameType.HELLO P.FrameType.REGISTER_TUNNEL P.FrameType.RESP_START
       P.FrameType.RESP_DATA P.FrameType.END].
  unfold onEnd. rewrite Hinfo. unfold streams_get. cbn.
  by rewrite Hentry.
Qed.

(** The RESP_DATA frames of a body are written chunk by chunk, and leave
    the state as it is. *)
Lemma run_dataFrames st a info entry body :
  sockets st !! socket = Some s -> closed s = false ->
  socketInfo st s = Some (a, info) ->
  streams info !! streamId = Some entry ->
  run env st
    (deliver socket random36 now
       (dataFrames clientTunnelId (Some streamId) body))
  = (st, RawWrite (reply entry)
           <$> filter (fun chunk => Client.nonEmpty chunk = true) body).
Proof.
  intros Hs Hopen Hinfo Hentry. unfold dataFrames.
  induction (filter _ body) as [|chunk l IH]; [done|].
  cbn [fmap list_fmap deliver].
  rewrite run_cons.
  change (Message socket (Some ?f) random36 now) with (sent f).
  rewrite (step_RESP_DATA st a info entry chunk) by done.
  cbn [fst snd]. fold (@fmap list _ _ _ (fun chunk =>
      Client.WsSend (Client.RESP_DATA_frame clientTunnelId (Some streamId) chunk)) l).
  by rewrite IH.
Qed.

End OneStream.

(** X12. A response on its way back.  When the origin has answered a
    request of the client and the frames the client then sends reach the
    server while the stream is in flight with its head not yet written,
    the public caller gets: the head, with the origin's status (200 for
    status 0); the non-empty chunks of the body, in order; and the end of
    the response.  The head carries no header at all when the origin's
    headers are a plain object, as those of an undici response are
    ([objectifyHeaders] cannot iterate them), or are falsy; only headers
    handed over as an iterable of pairs would cross, as their string pairs
    less the hop-by-hop ones.  An origin request that failed gives 502
    with no headers and an empty body.  A body that fails midway gives
    exactly what a body that ends there gives: the second RESP_START of
    the client is discarded.  The stream is then gone from the tunnel's
    map. *)
Theorem response_relayed env st socket s a info streamId entry k o c
    random36 now :
  sockets st !! socket = Some s -> closed s = false ->
  socketInfo st s = Some (a, info) ->
  streams info !! streamId = Some entry -> headersSent entry = false ->
  Client.s_streamId k = Some streamId ->
  let frames := (Client.exec (Client.resume k o) c).2 in
  let res := run env st (deliver socket random36 now frames) in
  res.2
  = match o with
    | Client.Rejected =>
      [RawWriteHead (reply entry) 502 ∅; RawEnd (reply entry)]
    | Client.Fulfilled r =>
      (RawWriteHead (reply entry) (orStatus (Some (Client.res_statusCode r)) 200)
         match Client.res_headers r with
         | Client.Falsy | Client.NotIterable => ∅
         | Client.Iterable items =>
           normalizeHeaders (Client.objectifyHeaders (Client.Iterable items))
         end
         :: (RawWrite (reply entry)
               <$> filter (fun chunk => Client.nonEmpty chunk = true)
                     (Client.res_body r))
         ++ [RawEnd (reply entry)])%list
    end
  /\ forall info', heap res.1 !! a = Some info' ->
                   streams info' !! streamId = None.
Proof.
  intros Hs Hopen Hinfo Hentry Hsent Hk frames res. subst res frames.
  rewrite resume_frames, Hk.
  set (st1 := update_info a
                (fun i => set_streams
                   (alter (set_headersSent true) streamId (streams i)) i) st).
  set (info1 := set_streams
                  (alter (set_headersSent true) streamId (streams info)) info).
  assert (sockets st1 !! socket = Some s) as Hs1 by done.
  assert (socketInfo st1 s = Some (a, info1)) as Hinfo1
    by exact (socketInfo_update_info st s a info _ Hinfo).
  assert (streams info1 !! streamId = Some (set_headersSent true entry))
    as Hentry1.
  { cbn. by rewrite lookup_alter_eq, Hentry. }
  assert (forall st' : State,
    heap st' = alter (fun i => set_streams (delete streamId (streams i)) i)
                 a (heap st1) ->
    forall info', heap st' !! a = Some info' ->
                  streams info' !! streamId = None) as Hgone.
  { intros st' -> info' Hh.
    apply (lookup_update_info st1 a _ a info') in Hh
      as [[? _]|(_ & info0 & _ & ->)]; [done|].
    cbn. apply lookup_delete_eq. }
  destruct o as [|r].
  - cbn [deliver]. rewrite !run_cons.
    rewrite (step_RESP_START env socket s random36 now _ streamId st a info
               entry) by done.
    cbn [fst snd]. fold st1.
    rewrite (step_END_res env socket s random36 now _ streamId st1 a info1
               (set_headersSent true entry)) by done.
    cbn [fst snd run app]. split; [|by apply Hgone].
    unfold normalizeHeaders. cbn [default orStatus].
    by rewrite (map_fold_empty (M := gmap string)).
  - change (?x :: ?l ++ ?m ++ ?n)%list with ([x] ++ l ++ m ++ n)%list.
    rewrite !deliver_app, !run_app.
    cbn [deliver]. rewrite !run_cons.
    rewrite (step_RESP_START env socket s random36 now _ streamId st a info
               entry) by done.
    cbn [fst snd run]. fold st1.
    rewrite (run_dataFrames env socket s random36 now _ streamId st1 a info1
               (set_headersSent true entry)) by done.
    cbn [fst snd].
    assert ((run env st1
               (deliver socket random36 now
                  (if Client.res_bodyFails r
                   then [Client.WsSend
                           (Client.RESP_START_frame (Client.s_tunnelId k)
                              (Some streamId) 502 None)]
                   else []))) = (st1, [])) as ->.
    { destruct (Client.res_bodyFails r); [|done].
      cbn [deliver]. rewrite run_cons.
      by rewrite (step_RESP_START_again env socket s random36 now _ streamId
                    st1 a info1 (set_headersSent true entry)) by done. }
    cbn [fst snd].
    rewrite (step_END_res env socket s random36 now _ streamId st1 a info1
               (set_headersSent true entry)) by done.
    cbn [fst snd app]. rewrite ?app_nil_r. split; [|by apply Hgone].
    do 2 f_equal. destruct (Client.res_headers r); cbn [Client.objectifyHeaders];
      try done; unfold normalizeHeaders;
      by rewrite (map_fold_empty (M := gmap string)).
Qed.

End ResponseRelay.

(** ** A request on its way from the public caller to the origin *)

Section RequestRelay.
Import Js Protocol Observe Relay.

Section ServerSide.
Import Server.

(** The body loop of a suspended public handler and its end. *)
Lemma run_body env st r u info chunks :
  uploads st !! r = Some u -> heap st !! upload_info u = Some info ->
  (run env st ((BodyChunk r <$> chunks) ++ [BodyEnd r])).2
  = (((fun chunk =>
         WsSend (ws info)
           (REQ_DATA_frame (tunnelId info) (upload_streamId u) chunk))
        <$> chunks)
       ++ [WsSend (ws info)
             (END_frame (tunnelId info) (upload_streamId u) "req")])%list.
Proof.
  intros Hu Hh. induction chunks as [|chunk chunks IH].
  - cbn [fmap list_fmap app]. rewrite run_cons. cbn [step].
    unfold onBodyEnd. by rewrite Hu, Hh.
  - cbn [fmap list_fmap app]. rewrite run_cons. cbn [step].
    unfold onBodyChunk. rewrite Hu, Hh. cbn [fst snd app].
    f_equal. apply IH.
Qed.

(** What the server sends to the client for a public request with a
    body. *)
Lemma upload_frames env st req a info chunks :
  route env st req = Tunnel a info ->
  raw_readable req = true -> req_method req ∉ ["GET"; "HEAD"] ->
  (run env st
     (PublicRequest req
        :: (BodyChunk (requests st) <$> chunks) ++ [BodyEnd (requests st)])).2
  = (ReplyHijack (requests st)
       :: WsSend (ws info)
            (OPEN_STREAM_frame (tunnelId info) (nextStreamId info)
               (req_method req) (orString (raw_url req) "/")
               (stringHeaders (req_headers req)))
       :: ((fun chunk =>
              WsSend (ws info)
                (REQ_DATA_frame (tunnelId info) (nextStreamId info) chunk))
             <$> chunks)
       ++ [WsSend (ws info)
             (END_frame (tunnelId info) (nextStreamId info) "req")])%list.
Proof.
  intros Hr Hreadable Hmethod.
  pose proof (route_Tunnel _ _ _ _ _ Hr) as Ha.
  rewrite run_cons. cbn [step]. unfold onRequest.
  change (route env (set_requests (S (requests st)) st) req)
    with (route env st req). rewrite Hr.
  rewrite Hreadable, bool_decide_eq_false_2 by done.
  cbn [andb negb fst snd app]. do 2 f_equal.
  match goal with
  | |- (run env ?st1 _).2 = _ =>
    rewrite (run_body env st1 (requests st)
               {| upload_info := a; upload_streamId := nextStreamId info |}
               (set_streams
                  (<[nextStreamId info := {| reply := requests st;
                                             timeout := requests st;
                                             headersSent := false |}]>
                     (streams (set_nextStreamId
                                 (increment (nextStreamId info)) info)))
                  (set_nextStreamId (increment (nextStreamId info)) info)))
  end.
  - done.
  - cbn. apply lookup_insert_eq.
  - cbn. by rewrite !list_lookup_alter_eq, Ha.
Qed.

(** X13. The body of a public request is forwarded as it comes.  For a
    request with a body (readable, neither GET nor HEAD) that is routed to
    a tunnel, the server hijacks the reply and sends to that tunnel's
    socket: OPEN_STREAM with the tunnel's next stream id, the method, the
    URL (or [/]) and the string-valued headers; one REQ_DATA per chunk of
    the body, in order; and END phase=req. *)
Theorem request_body_forwarded env st req a info chunks :
  route env st req = Tunnel a info ->
  raw_readable req = true -> req_method req ∉ ["GET"; "HEAD"] ->
  (run env st
     (PublicRequest req
        :: (BodyChunk (requests st) <$> chunks) ++ [BodyEnd (requests st)])).2
  = (ReplyHijack (requests st)
       :: WsSend (ws info)
            (OPEN_STREAM_frame (tunnelId info) (nextStreamId info)
               (req_method req) (orString (raw_url req) "/")
               (stringHeaders (req_headers req)))
       :: ((fun chunk =>
              WsSend (ws info)
                (REQ_DATA_frame (tunnelId info) (nextStreamId info) chunk))
             <$> chunks)
       ++ [WsSend (ws info)
             (END_frame (tunnelId info) (nextStreamId info) "req")])%list.
Proof. apply upload_frames. Qed.

End ServerSide.

Section ClientSide.
Import Client.

Lemma upperChar_idem c : upperChar (upperChar c) = upperChar c.
Proof.
  unfold upperChar. destruct (isLower c) eqn:Hl; [|by rewrite Hl].
  unfold isLower in *.
  apply andb_true_iff in Hl as [H1%Nat.leb_le H2%Nat.leb_le].
  rewrite nat_ascii_embedding by lia.
  replace ((97 <=? nat_of_ascii c - 32)%nat) with false; [done|].
  symmetry. apply Nat.leb_gt. lia.
Qed.

Lemma toUpperCase_idem s : toUpperCase (toUpperCase s) = toUpperCase s.
Proof.
  induction s as [|c s IH]; [done|]. cbn. by rewrite upperChar_idem, IH.
Qed.

Lemma orString_nonempty x d : d <> "" -> orString x d <> "".
Proof. intros Hd. unfold orString. by destruct x as [[|]|]. Qed.

Lemma orString_Some s d : s <> "" -> orString (Some s) d = s.
Proof. by destruct s. Qed.

Lemma toUpperCase_nonempty s : s <> "" -> toUpperCase s <> "".
Proof. by destruct s. Qed.

(** The method a handler uses for the request it was given by
    [ws.on('message')]. *)
Lemma method_again x d :
  toUpperCase (orString (Some (toUpperCase (orString x "GET"))) d)
  = toUpperCase (orString x "GET").
Proof.
  rewrite orString_Some by (by apply toUpperCase_nonempty, orString_nonempty).
  apply toUpperCase_idem.
Qed.

Lemma localUrl_again cfg x :
  localUrl cfg (Some (orString x "/")) = localUrl cfg x.
Proof.
  unfold localUrl. do 4 f_equal.
  by rewrite orString_Some by (by apply orString_nonempty).
Qed.

Variables (cfg : Config) (tid : string) (streamId : Z).

(** REQ_DATA frames for a stream in buffer mode are appended to its
    chunks, and nothing is done. *)
Lemma run_REQ_DATA_buffer data : forall c entry l,
  streams c !! Some streamId = Some entry ->
  mode entry = buffer -> chunks entry = Some l ->
  exists c',
    run cfg c (REQ_DATA tid streamId <$> data) = (c', [])
    /\ calls c' = calls c /\ suspended c' = suspended c
    /\ streams c' !! Some streamId
       = Some (set_chunks (Some (l ++ data)%list) entry).
Proof.
  induction data as [|buf data IH]; intros c entry l Hentry Hmode Hchunks.
  - exists c. split_and!; try done. rewrite app_nil_r, Hentry.
    f_equal. destruct entry. cbn in *. by subst.
  - cbn [fmap list_fmap run].
    assert (step cfg c (REQ_DATA tid streamId buf)
            = (set_streams
                 (<[Some streamId := set_chunks (Some (l ++ [buf])%list) entry]>
                    (streams c)) c, [])) as ->.
    { cbn [step REQ_DATA]. unfold exec, onMessage, try_catch.
      cbn [Server.REQ_DATA_frame P.t P.streamId P.chunk Z.eqb Pos.eqb
           P.FrameType.REGISTERED P.FrameType.OPEN_STREAM P.FrameType.REQ_DATA].
      unfold bind, gets. rewrite Hentry, Hmode, Hchunks. done. }
    destruct (IH (set_streams
                    (<[Some streamId := set_chunks (Some (l ++ [buf])%list) entry]>
                       (streams c)) c)
                (set_chunks (Some (l ++ [buf])%list) entry) (l ++ [buf])%list)
      as (c' & Hrun & Hcalls & Hsusp & Hstreams);
      [cbn; apply lookup_insert_eq | done | done |].
    exists c'. fold (@fmap list _ _ _ (REQ_DATA tid streamId) data).
    rewrite Hrun. split_and!; [done|done|done|].
    rewrite Hstreams. by rewrite <- app_assoc.
Qed.

(** REQ_DATA frames for a stream in stream mode are written to its
    pipe. *)
Lemma run_REQ_DATA_stream data : forall c entry p,
  streams c !! Some streamId = Some entry ->
  mode entry = stream -> body entry = Some p ->
  run cfg c (REQ_DATA tid streamId <$> data) = (c, PipeWrite p <$> data).
Proof.
  induction data as [|buf data IH]; intros c entry p Hentry Hmode Hbody;
    [done|].
  cbn [fmap list_fmap run].
  assert (step cfg c (REQ_DATA tid streamId buf) = (c, [PipeWrite p buf]))
    as ->.
  { cbn [step REQ_DATA]. unfold exec, onMessage, try_catch.
    cbn [Server.REQ_DATA_frame P.t P.streamId P.chunk Z.eqb Pos.eqb
         P.FrameType.REGISTERED P.FrameType.OPEN_STREAM P.FrameType.REQ_DATA].
    unfold bind, gets. rewrite Hentry, Hmode, Hbody. done. }
  fold (@fmap list _ _ _ (REQ_DATA tid streamId) data).
  fold (@fmap list _ _ _ (PipeWrite p) data).
  by rewrite (IH c entry p).
Qed.

Lemma run_snoc ev evs : forall c,
  run cfg c (evs ++ [ev])
  = ((step cfg (run cfg c evs).1 ev).1,
     ((run cfg c evs).2 ++ (step cfg (run cfg c evs).1 ev).2)%list).
Proof.
  induction evs as [|ev' evs IH]; intros c.
  - cbn [app run fst snd]. destruct (step cfg c ev). by rewrite app_nil_r.
  - cbn [app run]. destruct (step cfg c ev') as [c1 out1].
    rewrite IH. destruct (run cfg c1 evs) as [c2 out2]. cbn [fst snd].
    by rewrite app_assoc.
Qed.

(** A request with a body, in buffer mode. *)
Lemma buffered_request_call c method path headers data :
  preferStream cfg = false ->
  isGetOrHead (toUpperCase (orString (Some method) "GET")) = false ->
  let body := concat data in
  let res :=
    run cfg c
      (Message (Some (Server.OPEN_STREAM_frame tid streamId method path
                        headers))
         :: (REQ_DATA tid streamId <$> data)
         ++ [END_req tid streamId]) in
  res.2
  = [Request (calls c) (localUrl cfg (Some path))
       (toUpperCase (orString (Some method) "GET"))
       (<["content-length" := pretty (length body)]>
          (acceptEncoding cfg headers))
       (BufferBody body)]
  /\ suspended res.1 !! calls c
     = Some {| handler := BufferedRequest; s_tunnelId := Some tid;
               s_streamId := Some streamId |}.
Proof.
  intros Hprefer Hmethod body res. subst res body.
  cbn [run].
  set (entry := {| mode := buffer; body := None; chunks := Some [];
                   headers := Some headers;
                   method := Some (toUpperCase (orString (Some method) "GET"));
                   path := Some (orString (Some path) "/");
                   tunnelId := Some tid |}).
  assert (step cfg c
            (Message (Some (Server.OPEN_STREAM_frame tid streamId method
                              path headers)))
          = (set_streams (<[Some streamId := entry]> (streams c)) c, []))
    as ->.
  { cbn [step]. unfold exec, onMessage, try_catch.
    cbn [Server.OPEN_STREAM_frame P.t P.streamId P.method P.path P.headers
         P.tunnelId Z.eqb Pos.eqb P.FrameType.REGISTERED
         P.FrameType.OPEN_STREAM].
    rewrite Hmethod, Hprefer. done. }
  rewrite run_snoc.
  destruct (run_REQ_DATA_buffer data
              (set_streams (<[Some streamId := entry]> (streams c)) c)
              entry [])
    as (c' & -> & Hcalls & Hsusp & Hstreams);
    [cbn; apply lookup_insert_eq | done | done |].
  cbn [fst snd app]. cbn [app] in Hstreams.
  cbn [step END_req]. unfold exec, onMessage, try_catch.
  cbn [Server.END_frame P.t P.streamId P.phase Z.eqb Pos.eqb
       P.FrameType.REGISTERED P.FrameType.OPEN_STREAM P.FrameType.REQ_DATA
       P.FrameType.END andb].
  rewrite bool_decide_eq_true_2 by done.
  unfold bind, gets. rewrite Hstreams.
  cbn [mode set_chunks entry handleBufferedRequest_call request
       Client.path Client.headers Client.chunks Client.method Client.tunnelId
       default fst snd app].
  rewrite Hcalls, Hsusp, method_again, localUrl_again.
  split; [done|]. cbn. apply lookup_insert_eq.
Qed.

(** A request in stream mode. *)
Lemma streamed_request_call c method path headers data :
  (preferStream cfg = true
   \/ isGetOrHead (toUpperCase (orString (Some method) "GET")) = true) ->
  let res :=
    run cfg c
      (Message (Some (Server.OPEN_STREAM_frame tid streamId method path
                        headers))
         :: (REQ_DATA tid streamId <$> data)
         ++ [END_req tid streamId]) in
  res.2
  = (Request (calls c) (localUrl cfg (Some path))
       (toUpperCase (orString (Some method) "GET"))
       (acceptEncoding cfg headers)
       (if isGetOrHead (toUpperCase (orString (Some method) "GET"))
        then NoBody else StreamBody (pipes c))
       :: (PipeWrite (pipes c) <$> data) ++ [PipeEnd (pipes c)])%list
  /\ suspended res.1 !! calls c
     = Some {| handler := OpenStream; s_tunnelId := Some tid;
               s_streamId := Some streamId |}.
Proof.
  intros Hmode res. subst res.
  cbn [run].
  set (entry := {| mode := stream; body := Some (pipes c); chunks := None;
                   headers := Some headers;
                   method := Some (toUpperCase (orString (Some method) "GET"));
                   path := Some (orString (Some path) "/");
                   tunnelId := Some tid |}).
  set (c1 := set_suspended
               (<[calls c := {| handler := OpenStream;
                                s_tunnelId := Some tid;
                                s_streamId := Some streamId |}]> (suspended c))
               (set_calls (S (calls c))
                  (set_streams (<[Some streamId := entry]> (streams c))
                     (set_pipes (S (pipes c)) c)))).
  assert (step cfg c
            (Message (Some (Server.OPEN_STREAM_frame tid streamId method
                              path headers)))
          = (c1,
             [Request (calls c) (localUrl cfg (Some path))
                (toUpperCase (orString (Some method) "GET"))
                (acceptEncoding cfg headers)
                (if isGetOrHead (toUpperCase (orString (Some method) "GET"))
                 then NoBody else StreamBody (pipes c))])) as ->.
  { cbn [step]. unfold exec, onMessage, try_catch.
    cbn [Server.OPEN_STREAM_frame P.t P.streamId P.method P.path P.headers
         P.tunnelId Z.eqb Pos.eqb P.FrameType.REGISTERED
         P.FrameType.OPEN_STREAM].
    assert (negb (isGetOrHead (toUpperCase (orString (Some method) "GET")))
            && negb (preferStream cfg) = false) as ->.
    { destruct Hmode as [-> | ->]; [apply andb_false_r | done]. }
    done. }
  rewrite run_snoc.
  rewrite (run_REQ_DATA_stream data c1 entry (pipes c));
    [|cbn; apply lookup_insert_eq | done | done].
  cbn [fst snd].
  assert (step cfg c1 (END_req tid streamId) = (c1, [PipeEnd (pipes c)]))
    as ->.
  { cbn [step END_req]. unfold exec, onMessage, try_catch.
    cbn [Server.END_frame P.t P.streamId P.phase Z.eqb Pos.eqb
         P.FrameType.REGISTERED P.FrameType.OPEN_STREAM P.FrameType.REQ_DATA
         P.FrameType.END andb].
    rewrite bool_decide_eq_true_2 by done.
    unfold bind, gets.
    assert (streams c1 !! Some streamId = Some entry) as ->
      by (cbn; apply lookup_insert_eq).
    done. }
  cbn [fst snd app]. split; [done|]. cbn. apply lookup_insert_eq.
Qed.

(** X14. Buffer mode.  For a request that is neither GET nor HEAD, when
    SIMPLE_TUNNEL_STREAM is not set, the client does nothing until END
    phase=req arrives and then issues one origin request: to the local
    URL with the frame's path, with the upper-cased method, with the
    frame's headers under the accept-encoding rule and [content-length]
    set to the length of the body, and with the concatenation of the
    REQ_DATA chunks as its body.  [handleBufferedRequest] is then waiting
    for the answer. *)
Theorem buffered_request c method path headers data :
  preferStream cfg = false ->
  isGetOrHead (toUpperCase (orString (Some method) "GET")) = false ->
  let body := concat data in
  let res :=
    run cfg c
      (Message (Some (Server.OPEN_STREAM_frame tid streamId method path
                        headers))
         :: (REQ_DATA tid streamId <$> data)
         ++ [END_req tid streamId]) in
  res.2
  = [Request (calls c) (localUrl cfg (Some path))
       (toUpperCase (orString (Some method) "GET"))
       (<["content-length" := pretty (length body)]>
          (acceptEncoding cfg headers))
       (BufferBody body)]
  /\ suspended res.1 !! calls c
     = Some {| handler := BufferedRequest; s_tunnelId := Some tid;
               s_streamId := Some streamId |}.
Proof. apply buffered_request_call. Qed.

(** X15. Stream mode.  For a GET or HEAD request, or when
    SIMPLE_TUNNEL_STREAM is set, the client issues the origin request as
    soon as OPEN_STREAM arrives, with the frame's headers under the
    accept-encoding rule and no [content-length] of its own; its body is a
    fresh pipe (none for GET and HEAD), to which each REQ_DATA chunk is
    written in order and which END phase=req ends. *)
Theorem streamed_request c method path headers data :
  (preferStream cfg = true
   \/ isGetOrHead (toUpperCase (orString (Some method) "GET")) = true) ->
  let res :=
    run cfg c
      (Message (Some (Server.OPEN_STREAM_frame tid streamId method path
                        headers))
         :: (REQ_DATA tid streamId <$> data)
         ++ [END_req tid streamId]) in
  res.2
  = (Request (calls c) (localUrl cfg (Some path))
       (toUpperCase (orString (Some method) "GET"))
       (acceptEncoding cfg headers)
       (if isGetOrHead (toUpperCase (orString (Some method) "GET"))
        then NoBody else StreamBody (pipes c))
       :: (PipeWrite (pipes c) <$> data) ++ [PipeEnd (pipes c)])%list
  /\ suspended res.1 !! calls c
     = Some {| handler := OpenStream; s_tunnelId := Some tid;
               s_streamId := Some streamId |}.
Proof. apply streamed_request_call. Qed.

End ClientSide.

Lemma forward_upload ws f (g : P.Buffer -> P.Frame) e r chunks :
  forward ws
    (Server.ReplyHijack r :: Server.WsSend ws f
       :: ((fun chunk => Server.WsSend ws (g chunk)) <$> chunks)
       ++ [Server.WsSend ws e])
  = (Client.Message (Some f)
       :: ((fun chunk => Client.Message (Some (g chunk))) <$> chunks)
       ++ [Client.Message (Some e)])%list.
Proof.
  cbn [forward]. rewrite decide_True by done. f_equal.
  induction chunks as [|chunk chunks IH]; cbn [fmap list_fmap app forward].
  - by rewrite decide_True.
  - rewrite decide_True by done. f_equal. apply IH.
Qed.

Lemma forward_no_upload ws f e r :
  forward ws [Server.ReplyHijack r; Server.WsSend ws f; Server.WsSend ws e]
  = [Client.Message (Some f); Client.Message (Some e)].
Proof. cbn [forward]. by rewrite !decide_True. Qed.

(** X16. A request body on its way to the origin.  When the server routes
    a public request whose method is neither GET nor HEAD to a tunnel and
    the frames it sends reach a client in buffer mode, the client issues
    one origin request, whose URL is the local target followed by the URL
    of the public request and whose headers are the string-valued headers
    of the public request under the accept-encoding rule, with
    [content-length] set to the length of its body.  That body is the
    concatenation of the chunks read from [req.raw] when [req.raw] is
    still readable as the public handler starts; when it is not (the
    server framework has consumed the body before the handler runs), what
    the public caller sent is lost: the origin request has an empty body
    and [content-length] 0. *)
Theorem upload_reaches_origin env st req a info chunks cfg c :
  Server.route env st req = Server.Tunnel a info ->
  Client.preferStream cfg = false ->
  Client.isGetOrHead
    (toUpperCase (orString (Some (Server.req_method req)) "GET")) = false ->
  let read :=
    if Server.raw_readable req
    then ((Server.BodyChunk (Server.requests st) <$> chunks)
            ++ [Server.BodyEnd (Server.requests st)])%list
    else [] in
  let frames := (Server.run env st (Server.PublicRequest req :: read)).2 in
  let body := if Server.raw_readable req then concat chunks else [] in
  (Client.run cfg c (forward (Server.ws info) frames)).2
  = [Client.Request (Client.calls c)
       (Client.localUrl cfg (Some (orString (Server.raw_url req) "/")))
       (toUpperCase (orString (Some (Server.req_method req)) "GET"))
       (<["content-length" := pretty (length body)]>
          (Client.acceptEncoding cfg
             (Server.stringHeaders (Server.req_headers req))))
       (Client.BufferBody body)].
Proof.
  intros Hr Hprefer Hmethod read frames body. subst read frames body.
  destruct (Server.raw_readable req) eqn:Hreadable.
  - assert (Server.req_method req ∉ ["GET"; "HEAD"]) as Hm.
    { intros Hin. unfold Client.isGetOrHead in Hmethod.
      apply bool_decide_eq_false_1 in Hmethod. apply Hmethod.
      apply elem_of_cons in Hin as [->|Hin]; [by left|].
      apply list_elem_of_singleton in Hin as ->. by right; left. }
    rewrite (upload_frames env st req a info chunks Hr Hreadable Hm).
    rewrite (forward_upload (Server.ws info) _
               (Server.REQ_DATA_frame (Server.tunnelId info)
                  (Server.nextStreamId info))).
    exact (proj1 (buffered_request_call cfg (Server.tunnelId info)
                    (Server.nextStreamId info) c (Server.req_method req)
                    (orString (Server.raw_url req) "/")
                    (Server.stringHeaders (Server.req_headers req)) chunks
                    Hprefer Hmethod)).
  - assert ((Server.run env st [Server.PublicRequest req]).2
            = [Server.ReplyHijack (Server.requests st);
               Server.WsSend (Server.ws info)
                 (Server.OPEN_STREAM_frame (Server.tunnelId info)
                    (Server.nextStreamId info) (Server.req_method req)
                    (orString (Server.raw_url req) "/")
                    (Server.stringHeaders (Server.req_headers req)));
               Server.WsSend (Server.ws info)
                 (Server.END_frame (Server.tunnelId info)
                    (Server.nextStreamId info) "req")]) as ->.
    { rewrite run_cons. cbn [Server.step Server.run snd].
      unfold Server.onRequest.
      change (Server.route env
                (Server.set_requests (S (Server.requests st)) st) req)
        with (Server.route env st req).
      rewrite Hr, Hreadable. cbn [andb snd app]. by rewrite ?app_nil_r. }
    rewrite forward_no_upload.
    exact (proj1 (buffered_request_call cfg (Server.tunnelId info)
                    (Server.nextStreamId info) c (Server.req_method req)
                    (orString (Server.raw_url req) "/")
                    (Server.stringHeaders (Server.req_headers req)) []
                    Hprefer Hmethod)).
Qed.

End RequestRelay.

(** ** The life of a tunnel *)

Section Lifecycle.
Import Js Protocol Server Observe Relay Registry.

(** X19. From registration to disconnection.  After a client has
    registered a valid, free subdomain, a public request for
    [<subdomain>.<base>] is hijacked and opened on that client's socket as
    stream 1 of its tunnel (followed at once by END phase=req when the
    request has no body to read); after that client has disconnected, the
    same request is answered 502 [Tunnel not connected]. *)
Theorem tunnel_lifecycle env st socket s msg random36 now sub req :
  sockets st !! socket = Some s -> closed s = false ->
  P.t msg = P.FrameType.REGISTER_TUNNEL ->
  P.subdomain msg = Some sub -> isValidSubdomain sub = true ->
  tunnels st !! sub = None ->
  requestHost req = sub +:+ "." +:+ DOMAIN_BASE env ->
  let st1 := (step env st (Message socket (Some msg) random36 now)).1 in
  (step env st1 (PublicRequest req)).2
  = (ReplyHijack (requests st1)
       :: WsSend socket
            (OPEN_STREAM_frame (socket_tunnelId s) 1 (req_method req)
               (orString (raw_url req) "/") (stringHeaders (req_headers req)))
       :: (if raw_readable req
              && negb (bool_decide (req_method req ∈ ["GET"; "HEAD"]))
           then []
           else [WsSend socket (END_frame (socket_tunnelId s) 1 "req")]))%list
  /\ (step env (step env st1 (Close socket)).1 (PublicRequest req)).2
     = [ReplySend (requests st1) 502 {| error := "Tunnel not connected" |}].
Proof.
  intros Hs Hopen Ht Hsub Hv Hfree Hhost st1.
  destruct (step_register env st socket s msg random36 now Hs Hopen Ht)
    as (Hbind & _).
  destruct (Hbind sub Hsub Hv Hfree) as (_ & Htun & Hheap & Hsock & _).
  fold st1 in Htun, Hheap, Hsock.
  split.
  - assert (route env st1 req
            = Tunnel (length (heap st)) (fresh socket s sub now)) as Hr.
    { unfold route. rewrite Hhost.
      rewrite extractSubdomain_complete by auto using DOMAIN_BASE_nonempty.
      rewrite truthy_valid by done.
      unfold tunnels_get. rewrite Htun. cbn. by rewrite Hheap. }
    cbn [step]. unfold onRequest.
    change (route env (set_requests (S (requests st1)) st1) req)
      with (route env st1 req). rewrite Hr.
    by case_match.
  - cbn [step]. unfold onSocket at 1. rewrite Hsock. cbn [closed set_assignedSubdomain].
    rewrite Hopen. unfold onClose.
    cbn [assignedSubdomain set_assignedSubdomain]. rewrite truthy_valid by done.
    cbn [fst]. unfold onRequest.
    rewrite (route_NotConnected env _ req sub); [done|done|done|].
    cbn. apply lookup_delete_eq.
Qed.

(** Every stream entry of request [r] lives in a tunnel whose socket is
    closed. *)
Let unreachable (st : State) (r : nat) : Prop :=
  forall a info streamId e,
    heap st !! a = Some info -> streams info !! streamId = Some e ->
    reply e = r ->
    exists s, sockets st !! ws info = Some s /\ closed s = true.

Lemma unreachable_update_info st a f r :
  (forall i, ws (f i) = ws i) ->
  (forall i streamId e,
     streams (f i) !! streamId = Some e -> reply e = r ->
     exists streamId' e', streams i !! streamId' = Some e' /\ reply e' = r) ->
  forall st',
    heap st' = alter f a (heap st) -> sockets st' = sockets st ->
    unreachable st r -> unreachable st' r.
Proof.
  intros Hws Hf st' Hheap Hsock U a1 info1 sid e Hh He Hr.
  rewrite Hsock. rewrite Hheap in Hh.
  apply (lookup_update_info st a f) in Hh as [[_ Hh]|(-> & info0 & Hh & ->)].
  - by apply (U a1 info1 sid e).
  - destruct (Hf _ _ _ He Hr) as (sid' & e' & He' & Hr').
    rewrite Hws. by apply (U a info0 sid' e').
Qed.

(** An open socket reaches none of them. *)
Lemma own_entry_reachable st socket s r :
  registry_wf st -> unreachable st r ->
  sockets st !! socket = Some s -> closed s = false ->
  forall a info sid e,
    socketInfo st s = Some (a, info) -> streams info !! sid = Some e ->
    reply e <> r.
Proof.
  intros [W1 W2] U Hs Hopen a info sid e Hinfo He Hr.
  pose proof (socketInfo_Some _ _ _ _ Hinfo) as Hh.
  destruct (U _ _ _ _ Hh He Hr) as (s' & Hs' & Hc').
  unfold socketInfo in Hinfo.
  destruct (assignedSubdomain s) as [sub'|] eqn:Has; [|done].
  destruct (W2 socket s sub' Hs Hopen Has)
    as (a' & info' & Ha' & Hh' & Hws).
  destruct (truthy (Some sub')) as [sub''|] eqn:Htr; [|done].
  cbn in Hinfo.
  assert (sub'' = sub') as ->
    by (destruct sub'; cbn in Htr; congruence).
  unfold tunnels_get in Hinfo. rewrite Ha' in Hinfo. cbn in Hinfo.
  rewrite Hh' in Hinfo. cbn in Hinfo. injection Hinfo as <- <-.
  congruence.
Qed.

Lemma step_unreachable env st ev r :
  timers_consistent st -> registry_wf st ->
  (r < requests st)%nat -> unreachable st r ->
  ((r < requests (step env st ev).1)%nat /\ unreachable (step env st ev).1 r)
  /\ forall act, act ∈ (step env st ev).2 -> publicCall act = Some r ->
       act = ReplySend r 504 {| error := "Upstream timeout" |}.
Proof.
  intros I [W1 W2] Hlt U.
  assert (forall st' : State,
    (requests st <= requests st')%nat -> heap st' = heap st ->
    (forall socket s, sockets st !! socket = Some s -> closed s = true ->
       exists s', sockets st' !! socket = Some s' /\ closed s' = true) ->
    (r < requests st')%nat /\ unreachable st' r) as Hsame.
  { intros st' Hle Hheap Hsock. split; [lia|].
    intros a info sid e Hh He Hr. rewrite Hheap in Hh.
    destruct (U _ _ _ _ Hh He Hr) as (s & Hs & Hc). eauto. }
  assert ((r < requests st)%nat /\ unreachable st r) as Hst by done.
  assert (forall act, act ∈ ([] : list Action) -> publicCall act = Some r ->
            act = ReplySend r 504 {| error := "Upstream timeout" |}) as Hnil
    by (by intros act ?%elem_of_nil).
  destruct ev as [r36|socket data r36 now|socket|req|rq chunk|rq|h];
    cbn [step].
  - split; [|done]. apply Hsame; [done..|].
    intros socket s Hs Hc. exists s. cbn. split; [by apply lookup_app_l_Some|done].
  - unfold onSocket. destruct (sockets st !! socket) as [s|] eqn:Hs; [|done].
    destruct (closed s) eqn:Hopen; [done|].
    pose proof (own_entry_reachable st socket s r (conj W1 W2) U Hs Hopen)
      as Hown.
    unfold onMessage. destruct data as [msg|]; [|done].
    destruct (P.t msg =? P.FrameType.HELLO); [done|].
    destruct (P.t msg =? P.FrameType.REGISTER_TUNNEL).
    { unfold onRegisterTunnel. case_match; cbn [fst snd].
      - split; [done|]. by intros act ->%list_elem_of_singleton.
      - split; [|by intros act ->%list_elem_of_singleton].
        split; [done|].
        intros a info sid e Hh He Hr. cbn in Hh.
        apply lookup_app_Some in Hh as [Hh|[_ Hh]].
        + destruct (U _ _ _ _ Hh He Hr) as (s' & Hs' & Hc').
          exists s'. split; [|done]. cbn.
          rewrite list_lookup_insert_ne; [done|].
          intros Heq. rewrite <- Heq in Hs'. congruence.
        + apply list_lookup_singleton_Some in Hh as [_ <-].
          cbn in He. by rewrite lookup_empty in He. }
    destruct (P.t msg =? P.FrameType.RESP_START).
    { unfold onRespStart.
      destruct (socketInfo st s) as [[a info]|] eqn:Hinfo; [|done].
      destruct (streams_get info msg) as [[sid entry]|] eqn:Hg; [|done].
      apply streams_get_Some in Hg as [_ Hg].
      destruct (headersSent entry); [done|]. cbn [fst snd]. split.
      - split; [done|].
        apply (unreachable_update_info st a
                 (fun i => set_streams
                    (alter (set_headersSent true) sid (streams i)) i) r);
          try done.
        intros i sid1 e He Hr. cbn in He.
        destruct (decide (sid = sid1)) as [->|Hne].
        + rewrite lookup_alter_eq in He.
          destruct (streams i !! sid1) as [e0|] eqn:He0; [|done].
          injection He as <-. by exists sid1, e0.
        + rewrite lookup_alter_ne in He by done. eauto.
      - intros act ->%list_elem_of_singleton [= Hr].
        by destruct (Hown _ _ _ _ eq_refl Hg). }
    destruct (P.t msg =? P.FrameType.RESP_DATA).
    { unfold onRespData.
      destruct (socketInfo st s) as [[a info]|] eqn:Hinfo; [|done].
      destruct (streams_get info msg) as [[sid entry]|] eqn:Hg; [|done].
      apply streams_get_Some in Hg as [_ Hg].
      destruct (P.chunk msg); [|done]. cbn [fst snd]. split; [done|].
      intros act ->%list_elem_of_singleton [= Hr].
      by destruct (Hown _ _ _ _ eq_refl Hg). }
    destruct (P.t msg =? P.FrameType.END); [|done].
    unfold onEnd.
    destruct (socketInfo st s) as [[a info]|] eqn:Hinfo; [|done].
    destruct (streams_get info msg) as [[sid entry]|] eqn:Hg; [|done].
    apply streams_get_Some in Hg as [_ Hg].
    case_match; [|done]. cbn [fst snd]. split.
    + split; [done|].
      apply (unreachable_update_info st a
               (fun i => set_streams (delete sid (streams i)) i) r);
        try done.
      intros i sid1 e He Hr. cbn in He.
      apply lookup_delete_Some in He as [_ He]. eauto.
    + intros act ->%list_elem_of_singleton [= Hr].
      by destruct (Hown _ _ _ _ eq_refl Hg).
  - unfold onSocket. destruct (sockets st !! socket) as [s|] eqn:Hs; [|done].
    destruct (closed s) eqn:Hopen; [done|].
    assert (forall socket' s', sockets st !! socket' = Some s' ->
              closed s' = true ->
              exists s'', <[socket := set_closed true s]> (sockets st)
                            !! socket' = Some s'' /\ closed s'' = true)
      as Hkeep.
    { intros socket' s' Hs' Hc'. exists s'. split; [|done].
      rewrite list_lookup_insert_ne; [done|].
      intros Heq. rewrite <- Heq in Hs'. congruence. }
    unfold onClose. case_match; cbn [fst snd]; (split; [|done]);
      by apply Hsame.
  - unfold onRequest.
    change (route env (set_requests (S (requests st)) st) req)
      with (route env st req).
    destruct (route env st req) as [| |a info] eqn:Hroute.
    + split; [apply Hsame; cbn; eauto|].
      intros act ->%list_elem_of_singleton [= Hr]. lia.
    + split; [apply Hsame; cbn; eauto|].
      intros act ->%list_elem_of_singleton [= Hr]. lia.
    + set (mid := update_info a
                    (set_nextStreamId (increment (nextStreamId info)))
                    (set_requests (S (requests st)) st)).
      assert (unreachable mid r) as Umid.
      { apply (unreachable_update_info st a
                 (set_nextStreamId (increment (nextStreamId info))) r);
          try done. intros i sid1 e He Hr. eauto. }
      assert (forall st' : State,
        heap st'
        = alter (fun i => set_streams
                   (<[nextStreamId info := {| reply := requests st;
                                              timeout := requests st;
                                              headersSent := false |}]>
                      (streams i)) i) a (heap mid) ->
        sockets st' = sockets st -> unreachable st' r) as Hins.
      { intros st' Hheap Hsock.
        apply (unreachable_update_info mid a
                 (fun i => set_streams
                    (<[nextStreamId info := {| reply := requests st;
                                               timeout := requests st;
                                               headersSent := false |}]>
                       (streams i)) i) r); try done.
        intros i sid1 e He Hr. cbn in He.
        apply lookup_insert_Some in He as [[_ <-]|[_ He]];
          [cbn in Hr; lia | eauto]. }
      case_match; cbn [fst snd app].
      * split; [split; [cbn; lia|by apply Hins]|].
        intros act Hin Hcall.
        repeat (apply elem_of_cons in Hin as [->|Hin];
                [cbn in Hcall; simplify_eq; lia || done|]).
        by apply elem_of_nil in Hin.
      * split; [split; [cbn; lia|by apply Hins]|].
        intros act Hin Hcall.
        repeat (apply elem_of_cons in Hin as [->|Hin];
                [cbn in Hcall; simplify_eq; lia || done|]).
        by apply elem_of_nil in Hin.
  - unfold onBodyChunk. repeat case_match; try done.
    split; [done|]. by intros act ->%list_elem_of_singleton.
  - unfold onBodyEnd. repeat case_match; try done.
    split; [by apply Hsame; cbn; eauto|].
    by intros act ->%list_elem_of_singleton.
  - unfold onTimeout. destruct (timers st !! h) as [tm|] eqn:Htm; [|done].
    destruct (proj2 I _ _ Htm) as (_ & Hrep & _).
    cbn [fst snd]. split.
    + split; [done|].
      apply (unreachable_update_info st (timer_info tm)
               (fun i => set_streams (delete (timer_streamId tm) (streams i)) i)
               r); try done.
      intros i sid1 e He Hr. cbn in He.
      apply lookup_delete_Some in He as [_ He]. eauto.
    + intros act ->%list_elem_of_singleton [= Hr]. by rewrite Hr.
Qed.

Lemma run_unreachable env r evs : forall st,
  timers_consistent st -> registry_wf st ->
  (r < requests st)%nat -> unreachable st r ->
  forall act, act ∈ (run env st evs).2 -> publicCall act = Some r ->
    act = ReplySend r 504 {| error := "Upstream timeout" |}.
Proof.
  induction evs as [|ev evs IH]; intros st I W Hlt U act Hin Hcall.
  - by apply elem_of_nil in Hin.
  - rewrite run_cons in Hin. cbn [snd] in Hin.
    destruct (step_unreachable env st ev r I W Hlt U) as [[Hlt' U'] Hout].
    apply elem_of_app in Hin as [Hin|Hin]; [by apply Hout|].
    apply (IH (step env st ev).1); auto using step_consistent, step_wf.
Qed.

(** X20. A request whose client has gone can only time out.  When a
    stream is in flight on a tunnel whose control socket is closed, then
    in whatever happens afterwards the only call the server makes on that
    request's reply or raw response is the 504 [Upstream timeout] of its
    deadline: no frame of any client reaches it. *)
Theorem orphaned_request_only_times_out env history a info streamId entry s
    evs act :
  let st := (run env init history).1 in
  heap st !! a = Some info -> streams info !! streamId = Some entry ->
  sockets st !! ws info = Some s -> closed s = true ->
  act ∈ (run env st evs).2 -> publicCall act = Some (reply entry) ->
  act = ReplySend (reply entry) 504 {| error := "Upstream timeout" |}.
Proof.
  intros st Hh He Hs Hc.
  assert (timers_consistent st) as I
    by apply run_consistent, timers_consistent_init.
  assert (registry_wf st) as W by apply run_wf, registry_wf_init.
  destruct (proj1 I _ _ _ _ Hh He) as (Hrt & tm & Htm & _).
  destruct (proj2 I _ _ Htm) as (Hlt & _).
  apply (run_unreachable env (reply entry) evs st I W); [lia|].
  intros a' info' sid' e' Hh' He' Hr'.
  destruct (timers_consistent_inj st _ _ _ _ _ _ _ _ I Hh He Hh' He')
    as [<- <-].
  { destruct (proj1 I _ _ _ _ Hh' He') as (Hrt' & _). congruence. }
  assert (info' = info) as -> by congruence. eauto.
Qed.

End Lifecycle.

(** ** The command line of the client *)

Section CliFacts.
Import Cli.

Variable parseInt10 : string -> Num.

(** X18. How the client starts.  The program exits with code 1 exactly
    when neither [--port] nor the first positional argument gives a usable
    port ([undefined], [NaN] and 0 are not usable).  Otherwise it goes on
    with: the port of [--port] when that is usable, else the one parsed
    from the first positional argument; the second positional argument as
    the connect URL and the third as the subdomain when they are given,
    also over [--connect] and [--subdomain]; host, token and domain base
    as the options give them. *)
Theorem startup_port_required opts rest :
  match startup parseInt10 opts rest with
  | Exit code =>
    code = 1
    /\ noPort (port opts) = true
    /\ noPort (parseInt10 <$> arg rest 0) = true
  | Proceed o =>
    noPort (port o) = false
    /\ port o = (if noPort (port opts) then parseInt10 <$> arg rest 0
                 else port opts)
    /\ connect o = default (connect opts) (arg rest 1)
    /\ subdomain o = from_option Some (subdomain opts) (arg rest 2)
    /\ host o = host opts /\ token o = token opts
    /\ domainBase o = domainBase opts
  end.
Proof.
  unfold startup, positionals.
  destruct (noPort (port opts)) eqn:Hp.
  - destruct (arg rest 0) as [a0|]; cbn [fmap option_fmap option_map].
    + destruct (parseInt10 a0) as [|n] eqn:Hn.
      * destruct (arg rest 1), (arg rest 2); cbn; rewrite Hp; done.
      * destruct (arg rest 1), (arg rest 2); cbn;
          destruct n; cbn; split_and!; done.
    + destruct (arg rest 1), (arg rest 2); cbn; rewrite Hp; done.
  - destruct (arg rest 1), (arg rest 2); cbn; rewrite Hp; done.
Qed.

End CliFacts.

(** ** The headers of an origin response *)

Section OriginHeaders.
Import Client.

Lemma objectifyHeaders_loop_stop l1 l2 : forall out,
  objectifyHeaders_loop (l1 ++ NotDestructurable :: l2) out
  = objectifyHeaders_loop l1 out.
Proof.
  induction l1 as [|[[k| |] [v| |]|] l1 IH]; intros out;
    cbn [app objectifyHeaders_loop]; done.
Qed.

Lemma objectifyHeaders_loop_snoc l k v : forall out,
  NotDestructurable ∉ l ->
  objectifyHeaders_loop (l ++ [Item (JString k) (JString v)]) out
  = assign k v (objectifyHeaders_loop l out).
Proof.
  induction l as [|item l IH]; intros out Hn; [done|].
  apply not_elem_of_cons in Hn as [Hne Hn].
  destruct item as [[k'| |] [v'| |]|]; cbn [app objectifyHeaders_loop];
    try (by apply IH). done.
Qed.

(** X21. [objectifyHeaders] on headers whose iteration breaks: what was
    collected before the element that cannot be destructured is kept and
    everything after it is lost, without an error.  On headers that
    iterate to their end, a later string pair replaces an earlier one with
    the same key, except that a pair whose key is [__proto__] is dropped:
    the result has no such key. *)
Theorem objectifyHeaders_partial_and_last_wins :
  (forall l1 l2,
     objectifyHeaders (Iterable (l1 ++ NotDestructurable :: l2))
     = objectifyHeaders (Iterable l1))
  /\ (forall l k v,
        NotDestructurable ∉ l ->
        objectifyHeaders (Iterable (l ++ [Item (JString k) (JString v)]))
        = if decide (k = "__proto__") then objectifyHeaders (Iterable l)
          else <[k := v]> (objectifyHeaders (Iterable l)))
  /\ (forall h, objectifyHeaders h !! "__proto__" = None).
Proof.
  split_and!.
  - intros l1 l2. apply objectifyHeaders_loop_stop.
  - intros l k v Hn. by apply objectifyHeaders_loop_snoc.
  - intros [| |items]; cbn [objectifyHeaders]; [done..|].
    assert (forall out, out !! "__proto__" = None ->
              objectifyHeaders_loop items out !! "__proto__" = None) as H.
    { induction items as [|[[k| |] [v| |]|] items IH]; intros out Hout;
        cbn [objectifyHeaders_loop]; try done; try (by apply IH).
      apply IH. unfold assign.
      destruct (decide (k = "__proto__")); [done|].
      by rewrite lookup_insert_ne. }
    by apply H.
Qed.

End OriginHeaders.

(** ** The properties at concrete runs *)

Section Instances.
Import Js Protocol Observe Relay Registry.

(** X2 with [DOMAIN_BASE=Example.com]. *)
Lemma upper_case_base_never_routes_witness :
  hasUpper (Server.DOMAIN_BASE (Some "Example.com")) = true
  /\ Server.step (Some "Example.com") Server.init
       (Server.PublicRequest (Scenario.GET "aaa.example.com"))
     = (Server.set_requests 1 Server.init,
        [Server.ReplySend 0 404 {| Server.error := "Not Found" |}]).
Proof.
  split; [reflexivity|].
  apply (upper_case_base_never_routes (Some "Example.com") Server.init
           (Scenario.GET "aaa.example.com")).
  reflexivity.
Defined.

(** X3 at the run [registered], for the header [Host: AAA.LocalHost:8080]. *)
Lemma host_case_and_port_ignored_witness :
  Server.route None (Server.run None Server.init Scenario.registered).1
    (Scenario.GET "AAA.LocalHost:8080")
  = Server.Tunnel 0 Examples.tunnel0.
Proof.
  apply (host_case_and_port_ignored None _ _ "AAA.LocalHost" "aaa").
  - right. exists "8080". vm_compute. reflexivity.
  - vm_compute. reflexivity.
  - vm_compute. reflexivity.
  - vm_compute. reflexivity.
  - vm_compute. reflexivity.
Defined.

(** X4 at the run [connected]: the socket asks for [aaa]. *)
Lemma register_outcome_witness :
  binds (Server.run None Server.init Examples.connected).1 0
    Examples.socket0 1000 "aaa"
    (Server.step None (Server.run None Server.init Examples.connected).1
       (Server.Message 0 (Some (Scenario.REGISTER_TUNNEL_frame (Some "aaa")))
          "0.4fzyo82mvyr" 1000)).
Proof.
  assert (Server.sockets (Server.run None Server.init Examples.connected).1
            !! 0%nat = Some Examples.socket0) as Hs
    by (vm_compute; reflexivity).
  apply (proj1 (register_outcome None _ 0 Examples.socket0
                  (Scenario.REGISTER_TUNNEL_frame (Some "aaa"))
                  "0.4fzyo82mvyr" 1000 Hs eq_refl eq_refl) "aaa").
  - reflexivity.
  - vm_compute. reflexivity.
  - vm_compute. reflexivity.
Defined.

(** X6 at the run [registered]. *)
Lemma registry_matches_open_sockets_witness :
  disciplined None Server.init Scenario.registered
  /\ exists socket s,
       Server.sockets (Server.run None Server.init Scenario.registered).1
         !! socket = Some s
       /\ Server.closed s = false
       /\ Server.assignedSubdomain s = Some "aaa".
Proof.
  assert (disciplined None Server.init Scenario.registered) as Hd.
  { split; [exact I|]. split; [|exact I].
    intros _. split.
    - intros s Hs. vm_compute in Hs. injection Hs as <-. reflexivity.
    - vm_compute. discriminate. }
  split; [exact Hd|].
  apply (proj1 (proj1 (registry_matches_open_sockets None Scenario.registered
                         Hd "aaa"))).
  vm_compute. eexists. reflexivity.
Defined.

(** X7 at the run [registered]: socket 0 closes, socket 1 connects and
    asks for [aaa]. *)
Lemma subdomain_reclaimed_witness :
  (Server.step None
     (Server.step None
        (Server.step None (Server.run None Server.init Scenario.registered).1
           (Server.Close 0)).1
        (Server.Connect "0.9x2c7k1l0pq")).1
     (Server.Message 1 (Some (Scenario.REGISTER_TUNNEL_frame (Some "aaa")))
        "0.4fzyo82mvyr" 3000)).2
  = [Server.WsSend 1 (Server.REGISTERED_frame "aaa" "t_9x2c7k1l")].
Proof.
  assert (Server.sockets (Server.run None Server.init Scenario.registered).1
            !! 0%nat = Some Examples.socket0_aaa) as Hs
    by (vm_compute; reflexivity).
  exact (proj1 (subdomain_reclaimed None _ 0 Examples.socket0_aaa "aaa"
                  "0.9x2c7k1l0pq" "0.4fzyo82mvyr" 3000
                  Hs eq_refl eq_refl eq_refl)).
Defined.

(** X9 at the run [in_flight]: the client ends stream 1; the deadline and
    a late RESP_START follow. *)
Lemma end_res_is_final_witness :
  (Server.step None (Server.run None Server.init Scenario.in_flight).1
     (Server.Message 0 (Some Examples.END_res) "0.9x2c7k1l0pq" 2000)).2
  = [Server.RawEnd 0]
  /\ Forall (fun act => publicCall act <> Some 0%nat)
       (Server.run None
          (Server.step None (Server.run None Server.init Scenario.in_flight).1
             (Server.Message 0 (Some Examples.END_res) "0.9x2c7k1l0pq" 2000)).1
          [Server.Timeout 0; Scenario.answer]).2.
Proof.
  assert (Server.sockets (Server.run None Server.init Scenario.in_flight).1
            !! 0%nat = Some Examples.socket0_aaa) as Hs
    by (vm_compute; reflexivity).
  assert (Server.socketInfo (Server.run None Server.init Scenario.in_flight).1
            Examples.socket0_aaa = Some (0%nat, Examples.tunnel0_in_flight))
    as Hinfo by (vm_compute; reflexivity).
  destruct (end_res_is_final None Scenario.in_flight 0 Examples.socket0_aaa 0
              Examples.tunnel0_in_flight Examples.END_res 1 Examples.entry0
              "0.9x2c7k1l0pq" 2000 [Server.Timeout 0; Scenario.answer]
              Hs eq_refl Hinfo eq_refl eq_refl eq_refl eq_refl)
    as (Hout & _ & _ & Hlater).
  split; [exact Hout|]. apply Forall_forall. exact Hlater.
Defined.

(** X10 at the run [in_flight]. *)
Lemma every_stream_has_its_deadline_witness :
  Server.timers (Server.run None Server.init Scenario.in_flight).1 !! 0%nat
  = Some Scenario.tm0
  /\ (0 < Server.requests (Server.run None Server.init Scenario.in_flight).1)%nat.
Proof.
  apply (every_stream_has_its_deadline None Scenario.in_flight 0
           Examples.tunnel0_in_flight 1 Examples.entry0).
  - vm_compute. reflexivity.
  - vm_compute. reflexivity.
Defined.

(** X11 at the run [in_flight] followed by [answer]. *)
Lemma message_touches_own_streams_only_witness :
  exists msg a info streamId entry,
    Some (Client.RESP_START_frame (Some "t_k3j5x8q2") (Some 1) 200
            (Some {[ "Connection" := "close"; "X-Origin" := "up" ]}))
    = Some msg
    /\ Server.socketInfo (Server.run None Server.init Scenario.in_flight).1
         Examples.socket0_aaa = Some (a, info)
    /\ Server.ws info = 0%nat
    /\ P.streamId msg = Some streamId
    /\ Server.streams info !! streamId = Some entry
    /\ Server.reply entry = 0%nat.
Proof.
  apply (message_touches_own_streams_only None Scenario.in_flight 0
           Examples.socket0_aaa _ "0.9x2c7k1l0pq" 2000
           (Server.RawWriteHead 0 200 {[ "X-Origin" := "up" ]}) 0).
  - vm_compute. reflexivity.
  - vm_compute. apply list_elem_of_here.
  - reflexivity.
Defined.

(** X12 at the run [in_flight]: the origin answers 200 with headers in a
    plain object and a body of one chunk. *)
Lemma response_relayed_witness :
  (Server.run None (Server.run None Server.init Scenario.in_flight).1
     (deliver 0 "0.9x2c7k1l0pq" 2000
        (Client.exec (Client.resume Examples.suspended0
                        Examples.ok_plain_headers) Client.init).2)).2
  = [Server.RawWriteHead 0 200 ∅; Server.RawWrite 0 [Byte.x68; Byte.x69];
     Server.RawEnd 0].
Proof.
  assert (Server.sockets (Server.run None Server.init Scenario.in_flight).1
            !! 0%nat = Some Examples.socket0_aaa) as Hs
    by (vm_compute; reflexivity).
  assert (Server.socketInfo (Server.run None Server.init Scenario.in_flight).1
            Examples.socket0_aaa = Some (0%nat, Examples.tunnel0_in_flight))
    as Hinfo by (vm_compute; reflexivity).
  rewrite (proj1 (response_relayed None _ 0 Examples.socket0_aaa 0
                    Examples.tunnel0_in_flight 1 Examples.entry0
                    Examples.suspended0 Examples.ok_plain_headers Client.init
                    "0.9x2c7k1l0pq" 2000
                    Hs eq_refl Hinfo eq_refl eq_refl eq_refl)).
  vm_compute. reflexivity.
Defined.

(** X13 at the run [registered]: a POST with a body of two chunks. *)
Lemma request_body_forwarded_witness :
  (Server.run None (Server.run None Server.init Scenario.registered).1
     (Server.PublicRequest (Examples.POST "aaa.localhost")
        :: (Server.BodyChunk 0 <$> Examples.body) ++ [Server.BodyEnd 0])).2
  = [Server.ReplyHijack 0;
     Server.WsSend 0
       (Server.OPEN_STREAM_frame "t_k3j5x8q2" 1 "POST" "/echo"
          {[ "host" := "aaa.localhost" ]});
     Server.WsSend 0 (Server.REQ_DATA_frame "t_k3j5x8q2" 1 [Byte.x7b]);
     Server.WsSend 0 (Server.REQ_DATA_frame "t_k3j5x8q2" 1 [Byte.x7d]);
     Server.WsSend 0 (Server.END_frame "t_k3j5x8q2" 1 "req")].
Proof.
  assert (Server.route None
            (Server.run None Server.init Scenario.registered).1
            (Examples.POST "aaa.localhost")
          = Server.Tunnel 0 Examples.tunnel0) as Hr
    by (vm_compute; reflexivity).
  assert (Server.req_method (Examples.POST "aaa.localhost") ∉ ["GET"; "HEAD"])
    as Hm
    by exact (bool_decide_eq_false_1
                (Server.req_method (Examples.POST "aaa.localhost")
                   ∈ ["GET"; "HEAD"]) eq_refl).
  pose proof (request_body_forwarded None _ _ 0 Examples.tunnel0
                Examples.body Hr eq_refl Hm) as H.
  etransitivity; [exact H|]. vm_compute. reflexivity.
Defined.

(** X14: a POST with a body of two chunks, in buffer mode. *)
Lemma buffered_request_witness :
  (Client.run Scenario.cfg Client.init
     (Client.Message
        (Some (Server.OPEN_STREAM_frame "t_k3j5x8q2" 1 "post" "/echo" ∅))
        :: (REQ_DATA "t_k3j5x8q2" 1 <$> Examples.body)
        ++ [END_req "t_k3j5x8q2" 1])).2
  = [Client.Request 0 "http://127.0.0.1:8080/echo" "POST"
       {[ "content-length" := "2" ]} (Client.BufferBody [Byte.x7b; Byte.x7d])].
Proof.
  pose proof (proj1 (buffered_request Scenario.cfg "t_k3j5x8q2" 1 Client.init
                       "post" "/echo" ∅ Examples.body eq_refl eq_refl)) as H.
  etransitivity; [exact H|]. vm_compute. reflexivity.
Defined.

(** X15: a GET, which has no body. *)
Lemma streamed_request_witness :
  (Client.run Scenario.cfg Client.init
     (Client.Message
        (Some (Server.OPEN_STREAM_frame "t_k3j5x8q2" 1 "GET" "/" ∅))
        :: (REQ_DATA "t_k3j5x8q2" 1 <$> [])
        ++ [END_req "t_k3j5x8q2" 1])).2
  = [Client.Request 0 "http://127.0.0.1:8080/" "GET" ∅ Client.NoBody;
     Client.PipeEnd 0].
Proof.
  pose proof (proj1 (streamed_request Scenario.cfg "t_k3j5x8q2" 1 Client.init
                       "GET" "/" ∅ [] (or_intror eq_refl))) as H.
  etransitivity; [exact H|]. vm_compute. reflexivity.
Defined.

(** X16 at the run [registered], for a client in buffer mode: the body of
    a DELETE that is still readable reaches the origin; the JSON body of a
    POST that was read before the handler does not. *)
Lemma upload_reaches_origin_witness :
  (Client.run Scenario.cfg Client.init
     (forward 0
        (Server.run None (Server.run None Server.init Scenario.registered).1
           (Server.PublicRequest (Examples.DELETE "aaa.localhost")
              :: (Server.BodyChunk 0 <$> Examples.body)
              ++ [Server.BodyEnd 0])).2)).2
  = [Client.Request 0 "http://127.0.0.1:8080/echo" "DELETE"
       {[ "content-length" := "2"; "host" := "aaa.localhost" ]}
       (Client.BufferBody [Byte.x7b; Byte.x7d])]
  /\ (Client.run Scenario.cfg Client.init
        (forward 0
           (Server.run None
              (Server.run None Server.init Scenario.registered).1
              [Server.PublicRequest (Examples.POST_json "aaa.localhost")]).2)).2
     = [Client.Request 0 "http://127.0.0.1:8080/echo" "POST"
          {[ "content-length" := "0"; "content-type" := "application/json";
             "host" := "aaa.localhost" ]}
          (Client.BufferBody [])].
Proof.
  assert (Server.route None
            (Server.run None Server.init Scenario.registered).1
            (Examples.DELETE "aaa.localhost")
          = Server.Tunnel 0 Examples.tunnel0) as Hr
    by (vm_compute; reflexivity).
  assert (Server.route None
            (Server.run None Server.init Scenario.registered).1
            (Examples.POST_json "aaa.localhost")
          = Server.Tunnel 0 Examples.tunnel0) as Hr'
    by (vm_compute; reflexivity).
  pose proof (upload_reaches_origin None _ _ 0 Examples.tunnel0 Examples.body
                Scenario.cfg Client.init Hr eq_refl eq_refl) as H.
  pose proof (upload_reaches_origin None _ _ 0 Examples.tunnel0 Examples.body
                Scenario.cfg Client.init Hr' eq_refl eq_refl) as H'.
  split.
  - etransitivity; [exact H|]. vm_compute. reflexivity.
  - etransitivity; [exact H'|]. vm_compute. reflexivity.
Defined.

(** X17 at the run [answered_then_next]: after the end of the first
    response, the calls of the second request are not on the first. *)
Lemma answered_once_witness :
  finishes 0 (Server.RawEnd 0) = true
  /\ Forall (fun act => publicCall act <> Some 0%nat)
       [Server.ReplyHijack 1;
        Server.WsSend 0
          (Server.OPEN_STREAM_frame "t_k3j5x8q2" 2 "GET" "/"
             {[ "host" := "aaa.localhost" ]});
        Server.WsSend 0 (Server.END_frame "t_k3j5x8q2" 2 "req")].
Proof.
  split; [reflexivity|]. apply Forall_forall.
  apply (answered_once None Examples.answered_then_next 0
           [Server.WsSend 0 (Server.REGISTERED_frame "aaa" "t_k3j5x8q2");
            Server.ReplyHijack 0;
            Server.WsSend 0
              (Server.OPEN_STREAM_frame "t_k3j5x8q2" 1 "GET" "/"
                 {[ "host" := "aaa.localhost" ]});
            Server.WsSend 0 (Server.END_frame "t_k3j5x8q2" 1 "req")]
           (Server.RawEnd 0)).
  - vm_compute. reflexivity.
  - reflexivity.
Defined.

(** X19 at the run [connected]. *)
Lemma tunnel_lifecycle_witness :
  (Server.step None
     (Server.step None (Server.run None Server.init Examples.connected).1
        (Server.Message 0 (Some (Scenario.REGISTER_TUNNEL_frame (Some "aaa")))
           "0.4fzyo82mvyr" 1000)).1
     (Server.PublicRequest (Scenario.GET "aaa.localhost"))).2
  = [Server.ReplyHijack 0;
     Server.WsSend 0
       (Server.OPEN_STREAM_frame "t_k3j5x8q2" 1 "GET" "/"
          {[ "host" := "aaa.localhost" ]});
     Server.WsSend 0 (Server.END_frame "t_k3j5x8q2" 1 "req")]
  /\ (Server.step None
        (Server.step None
           (Server.step None
              (Server.run None Server.init Examples.connected).1
              (Server.Message 0
                 (Some (Scenario.REGISTER_TUNNEL_frame (Some "aaa")))
                 "0.4fzyo82mvyr" 1000)).1
           (Server.Close 0)).1
        (Server.PublicRequest (Scenario.GET "aaa.localhost"))).2
     = [Server.ReplySend 0 502 {| Server.error := "Tunnel not connected" |}].
Proof.
  assert (Server.sockets (Server.run None Server.init Examples.connected).1
            !! 0%nat = Some Examples.socket0) as Hs
    by (vm_compute; reflexivity).
  assert (Server.tunnels (Server.run None Server.init Examples.connected).1
            !! "aaa" = None) as Hfree by (vm_compute; reflexivity).
  assert (Server.requestHost (Scenario.GET "aaa.localhost")
          = "aaa" +:+ "." +:+ Server.DOMAIN_BASE None) as Hhost
    by (vm_compute; reflexivity).
  destruct (tunnel_lifecycle None _ 0 Examples.socket0
              (Scenario.REGISTER_TUNNEL_frame (Some "aaa")) "0.4fzyo82mvyr"
              1000 "aaa" (Scenario.GET "aaa.localhost")
              Hs eq_refl eq_refl eq_refl eq_refl Hfree Hhost) as [H1 H2].
  split.
  - etransitivity; [exact H1|]. vm_compute. reflexivity.
  - etransitivity; [exact H2|]. vm_compute. reflexivity.
Defined.

(** X20 at the run [client_gone]: a late RESP_START, then the deadline. *)
Lemma orphaned_request_only_times_out_witness :
  Server.ReplySend 0 504 {| Server.error := "Upstream timeout" |}
    ∈ (Server.run None
         (Server.run None Server.init Examples.client_gone).1
         [Scenario.answer; Server.Timeout 0]).2
  /\ Forall (fun act =>
               publicCall act = Some 0%nat ->
               act = Server.ReplySend 0 504
                       {| Server.error := "Upstream timeout" |})
       (Server.run None
          (Server.run None Server.init Examples.client_gone).1
          [Scenario.answer; Server.Timeout 0]).2.
Proof.
  split; [vm_compute; apply list_elem_of_here|].
  apply Forall_forall. intros act.
  apply (orphaned_request_only_times_out None Examples.client_gone 0
           Examples.tunnel0_in_flight 1 Examples.entry0
           (Server.set_closed true Examples.socket0_aaa)
           [Scenario.answer; Server.Timeout 0] act).
  - vm_compute. reflexivity.
  - vm_compute. reflexivity.
  - vm_compute. reflexivity.
  - reflexivity.
Defined.

(** X21: a key given twice, a pair for [__proto__], and headers whose
    iteration breaks after the first pair. *)
Lemma objectifyHeaders_partial_and_last_wins_witness :
  Client.objectifyHeaders
    (Client.Iterable
       [Client.Item (Client.JString "a") (Client.JString "1");
        Client.Item (Client.JString "__proto__") (Client.JString "x");
        Client.Item (Client.JString "a") (Client.JString "2")])
  = {[ "a" := "2" ]}
  /\ Client.objectifyHeaders
       (Client.Iterable
          [Client.Item (Client.JString "a") (Client.JString "1");
           Client.NotDestructurable;
           Client.Item (Client.JString "b") (Client.JString "2")])
     = {[ "a" := "1" ]}.
Proof.
  destruct objectifyHeaders_partial_and_last_wins as (Hstop & Hlast & _).
  split.
  - etransitivity.
    + apply (Hlast [Client.Item (Client.JString "a") (Client.JString "1");
                    Client.Item (Client.JString "__proto__")
                      (Client.JString "x")] "a" "2").
      intros Hin. repeat (apply elem_of_cons in Hin as [Hin|Hin]; [done|]).
      by apply elem_of_nil in Hin.
    + vm_compute. reflexivity.
  - etransitivity.
    + apply (Hstop [Client.Item (Client.JString "a") (Client.JString "1")]
               [Client.Item (Client.JString "b") (Client.JString "2")]).
    + vm_compute. reflexivity.
Defined.

End Instances.
